(** * Expense dashboard (src/pages/Home.tsx): model and verified properties

    The page is a React component whose state is a handful of [useState]
    cells.  Two asynchronous handlers talk to remote agents and patch that
    state; everything else is rendering.  This development embeds

    - the JavaScript values the handlers receive from the agents, with the
      three language operations the handlers apply to them (property read,
      truthiness, strict comparison with a string constant) and [JSON.parse];
    - the component state, the two handlers split at their [await], and the
      event loop that interleaves them with the other user actions;
    - the facts about that program which the specification states. *)

From Stdlib Require Import ZArith Ascii String List Bool Lia.
From Stdlib Require Import DecimalString DecimalNat.
From stdpp Require Import base list.

#[local] Set Warnings "-register-all".
Local Open Scope string_scope.
Local Open Scope list_scope.

(** ** JavaScript values *)

(** What a [throw] carries.  The handlers only ever catch, never inspect. *)
Inductive exn : Type :=
| TypeError
| SyntaxError
| Error (message : string).

(** An expression either yields a value or throws. *)
Inductive completion (A : Type) : Type :=
| Normal (a : A)
| Throw (e : exn).
Arguments Normal {A} a.
Arguments Throw {A} e.

Definition bindC {A B} (c : completion A) (k : A -> completion B) : completion B :=
  match c with
  | Normal a => k a
  | Throw e => Throw e
  end.

Declare Scope completion_scope.
Delimit Scope completion_scope with completion.
Notation "x <-! c ; k" := (bindC c (fun x => k))
  (at level 100, c at next level, right associativity) : completion_scope.

(** Values as they come out of [JSON.parse] or sit in an agent's envelope.
    A number [VNum m e] is the double nearest to [m * 10^e]; the program
    never computes with numbers taken from a payload, it only tests them for
    truthiness.  An object is its own properties in insertion order, the
    first binding of a key being the live one. *)
Inductive value : Type :=
| VUndefined
| VNull
| VBool (b : bool)
| VNum (m e : Z)
| VStr (s : string)
| VArr (items : list value)
| VObj (fields : list (string * value)).

Fixpoint lookup_field (k : string) (fields : list (string * value)) : value :=
  match fields with
  | [] => VUndefined
  | (k', v) :: rest => if String.eqb k k' then v else lookup_field k rest
  end.

(** [v.k] for the property names this page reads ([response], [result],
    [final_recommendation], [validation_summary], [risk_level],
    [expense_status]): none of them is defined on a prototype, so on a
    primitive or an array the read yields [undefined]; on [null] and
    [undefined] it throws. *)
Definition get_prop (v : value) (k : string) : completion value :=
  match v with
  | VUndefined | VNull => Throw TypeError
  | VObj fields => Normal (lookup_field k fields)
  | _ => Normal VUndefined
  end.

(** A decimal [m * 10^e] converts to the double zero exactly when its
    magnitude is at most [2^-1075], half the least subnormal (the tie goes
    to the even neighbour, which is zero). *)
Definition rounds_to_zero (m e : Z) : bool :=
  (Z.abs m * 2 ^ 1075 <=? 10 ^ (- e))%Z.

(** ToBoolean. *)
Definition truthy (v : value) : bool :=
  match v with
  | VUndefined | VNull => false
  | VBool b => b
  | VNum m e => negb (rounds_to_zero m e)
  | VStr s => negb (String.eqb s "")
  | VArr _ | VObj _ => true
  end.

(** [typeof v === 'string'] *)
Definition is_string (v : value) : bool :=
  match v with
  | VStr _ => true
  | _ => false
  end.

(** [v === 'literal'] *)
Definition strict_eq_str (v : value) (s : string) : bool :=
  match v with
  | VStr t => String.eqb t s
  | _ => false
  end.

(** ** JSON.parse

    The grammar of ECMA-404 over the bytes of the text.  A [\uXXXX] escape
    is stored as the UTF-8 bytes of its character, an escaped high
    surrogate followed by an escaped low surrogate being the one character
    they encode together.  Recursion is on a fuel
    that starts above twice the length of the text: a value spends at most
    two units of it per character it consumes. *)
Module JSON.

Definition dquote : ascii := "034"%char.
Definition backslash : ascii := "092"%char.

Definition is_ws (c : ascii) : bool :=
  let n := nat_of_ascii c in
  ((n =? 32) || (n =? 9) || (n =? 10) || (n =? 13))%nat.

Fixpoint skip_ws (s : list ascii) : list ascii :=
  match s with
  | c :: r => if is_ws c then skip_ws r else s
  | [] => []
  end.

Definition digit_val (c : ascii) : option Z :=
  let n := nat_of_ascii c in
  if ((48 <=? n) && (n <=? 57))%nat then Some (Z.of_nat (n - 48)) else None.

Definition hex_val (c : ascii) : option N :=
  let n := nat_of_ascii c in
  if ((48 <=? n) && (n <=? 57))%nat then Some (N.of_nat (n - 48))
  else if ((65 <=? n) && (n <=? 70))%nat then Some (N.of_nat (n - 55))
  else if ((97 <=? n) && (n <=? 102))%nat then Some (N.of_nat (n - 87))
  else None.

(** Longest run of digits: accumulated value, how many, what is left. *)
Fixpoint digits (s : list ascii) (acc : Z) (count : Z) : Z * Z * list ascii :=
  match s with
  | c :: r =>
      match digit_val c with
      | Some d => digits r (10 * acc + d)%Z (count + 1)%Z
      | None => (acc, count, s)
      end
  | [] => (acc, count, [])
  end.

(** int: a lone zero, or a digit run that does not start with zero. *)
Definition int_part (s : list ascii) : option (Z * list ascii) :=
  match s with
  | c :: r =>
      if Ascii.eqb c "0" then Some (0%Z, r)
      else
        let '(n, count, r') := digits s 0 0 in
        if (count =? 0)%Z then None else Some (n, r')
  | [] => None
  end.

(** frac: the mantissa extended by the digits after the point. *)
Definition frac_part (n : Z) (s : list ascii) : option (Z * Z * list ascii) :=
  match s with
  | c :: r =>
      if Ascii.eqb c "." then
        let '(n', count, r') := digits r n 0 in
        if (count =? 0)%Z then None else Some (n', count, r')
      else Some (n, 0%Z, s)
  | [] => Some (n, 0%Z, [])
  end.

Definition exp_digits (neg : bool) (s : list ascii) : option (Z * list ascii) :=
  let '(x, count, r) := digits s 0 0 in
  if (count =? 0)%Z then None else Some (if neg then (- x)%Z else x, r).

Definition exp_part (s : list ascii) : option (Z * list ascii) :=
  match s with
  | c :: r =>
      if Ascii.eqb c "e" || Ascii.eqb c "E" then
        match r with
        | sign :: r' =>
            if Ascii.eqb sign "+" then exp_digits false r'
            else if Ascii.eqb sign "-" then exp_digits true r'
            else exp_digits false r
        | [] => None
        end
      else Some (0%Z, s)
  | [] => Some (0%Z, [])
  end.

Definition number (s : list ascii) : option (value * list ascii) :=
  let '(neg, s1) := match s with
                    | c :: r => if Ascii.eqb c "-" then (true, r) else (false, s)
                    | [] => (false, [])
                    end in
  match int_part s1 with
  | None => None
  | Some (n, s2) =>
      match frac_part n s2 with
      | None => None
      | Some (m, fd, s3) =>
          match exp_part s3 with
          | None => None
          | Some (x, s4) => Some (VNum (if neg then (- m)%Z else m) (x - fd), s4)
          end
      end
  end.

Definition byte (n : N) : ascii := ascii_of_N n.

(** UTF-8 bytes of one code unit below [2^16]. *)
Definition utf8 (cu : N) : list ascii :=
  if (cu <? 128)%N then [byte cu]
  else if (cu <? 2048)%N then
    [byte (192 + cu / 64); byte (128 + cu mod 64)]
  else
    [byte (224 + cu / 4096); byte (128 + (cu / 64) mod 64); byte (128 + cu mod 64)].

(** UTF-8 bytes of the character a surrogate pair encodes. *)
Definition utf8_pair (high low : N) : list ascii :=
  let cp := (65536 + (high - 55296) * 1024 + (low - 56320))%N in
  [byte (240 + cp / 262144); byte (128 + (cp / 4096) mod 64);
   byte (128 + (cp / 64) mod 64); byte (128 + cp mod 64)].

Definition is_high_surrogate (cu : N) : bool := ((55296 <=? cu) && (cu <=? 56319))%N.

Definition is_low_surrogate (cu : N) : bool := ((56320 <=? cu) && (cu <=? 57343))%N.

Definition code_unit (a b c d : ascii) : option N :=
  match hex_val a, hex_val b, hex_val c, hex_val d with
  | Some x, Some y, Some z, Some w => Some ((((x * 16 + y) * 16 + z) * 16 + w)%N)
  | _, _, _, _ => None
  end.

(** The characters of a string literal after its opening quote, collected
    in reverse in [acc]; [esc] tells that the previous character was a
    backslash.  Yields the contents and the text after the closing quote. *)
Fixpoint chars (s : list ascii) (esc : bool) (acc : list ascii)
  : option (list ascii * list ascii) :=
  match s with
  | [] => None
  | c :: r =>
      if esc then
        if Ascii.eqb c dquote then chars r false (dquote :: acc)
        else if Ascii.eqb c backslash then chars r false (backslash :: acc)
        else if Ascii.eqb c "/" then chars r false ("/"%char :: acc)
        else if Ascii.eqb c "b" then chars r false ("008"%char :: acc)
        else if Ascii.eqb c "f" then chars r false ("012"%char :: acc)
        else if Ascii.eqb c "n" then chars r false ("010"%char :: acc)
        else if Ascii.eqb c "r" then chars r false ("013"%char :: acc)
        else if Ascii.eqb c "t" then chars r false ("009"%char :: acc)
        else if Ascii.eqb c "u" then
          match r with
          | h1 :: h2 :: h3 :: h4 :: r' =>
              match code_unit h1 h2 h3 h4 with
              | Some cu =>
                  match r' with
                  | b :: u :: l1 :: l2 :: l3 :: l4 :: r'' =>
                      match code_unit l1 l2 l3 l4 with
                      | Some low =>
                          if is_high_surrogate cu && Ascii.eqb b backslash
                             && Ascii.eqb u "u" && is_low_surrogate low
                          then chars r'' false (rev (utf8_pair cu low) ++ acc)
                          else chars r' false (rev (utf8 cu) ++ acc)
                      | None => chars r' false (rev (utf8 cu) ++ acc)
                      end
                  | _ => chars r' false (rev (utf8 cu) ++ acc)
                  end
              | None => None
              end
          | _ => None
          end
        else None
      else if Ascii.eqb c dquote then Some (rev acc, r)
      else if Ascii.eqb c backslash then chars r true acc
      else if (nat_of_ascii c <? 32)%nat then None
      else chars r false (c :: acc)
  end.

Fixpoint strip (p s : list ascii) : option (list ascii) :=
  match p, s with
  | [], _ => Some s
  | a :: p', b :: s' => if Ascii.eqb a b then strip p' s' else None
  | _ :: _, [] => None
  end.

(** A later binding of a key overwrites the earlier one in place. *)
Fixpoint set_field (k : string) (v : value) (fields : list (string * value))
  : list (string * value) :=
  match fields with
  | [] => [(k, v)]
  | (k', v') :: rest =>
      if String.eqb k k' then (k', v) :: rest else (k', v') :: set_field k v rest
  end.

Fixpoint element (fuel : nat) (s : list ascii) : option (value * list ascii) :=
  match fuel with
  | O => None
  | S fuel =>
      match skip_ws s with
      | [] => None
      | c :: r =>
          if Ascii.eqb c "{" then
            match skip_ws r with
            | [] => None
            | c' :: r' =>
                if Ascii.eqb c' "}" then Some (VObj [], r')
                else members fuel (c' :: r') []
            end
          else if Ascii.eqb c "[" then
            match skip_ws r with
            | [] => None
            | c' :: r' =>
                if Ascii.eqb c' "]" then Some (VArr [], r')
                else elements fuel (c' :: r') []
            end
          else if Ascii.eqb c dquote then
            match chars r false [] with
            | Some (cs, r') => Some (VStr (string_of_list_ascii cs), r')
            | None => None
            end
          else if Ascii.eqb c "t" then
            option_map (pair (VBool true)) (strip (list_ascii_of_string "rue") r)
          else if Ascii.eqb c "f" then
            option_map (pair (VBool false)) (strip (list_ascii_of_string "alse") r)
          else if Ascii.eqb c "n" then
            option_map (pair VNull) (strip (list_ascii_of_string "ull") r)
          else number (c :: r)
      end
  end
with members (fuel : nat) (s : list ascii) (acc : list (string * value))
  : option (value * list ascii) :=
  match fuel with
  | O => None
  | S fuel =>
      match skip_ws s with
      | [] => None
      | q :: r =>
          if Ascii.eqb q dquote then
            match chars r false [] with
            | None => None
            | Some (k, r1) =>
                match skip_ws r1 with
                | [] => None
                | colon :: r2 =>
                    if Ascii.eqb colon ":" then
                      match element fuel r2 with
                      | None => None
                      | Some (v, r3) =>
                          let acc' := set_field (string_of_list_ascii k) v acc in
                          match skip_ws r3 with
                          | [] => None
                          | c :: r4 =>
                              if Ascii.eqb c "," then members fuel r4 acc'
                              else if Ascii.eqb c "}" then Some (VObj acc', r4)
                              else None
                          end
                      end
                    else None
                end
            end
          else None
      end
  end
with elements (fuel : nat) (s : list ascii) (acc : list value)
  : option (value * list ascii) :=
  match fuel with
  | O => None
  | S fuel =>
      match element fuel s with
      | None => None
      | Some (v, r) =>
          match skip_ws r with
          | [] => None
          | c :: r' =>
              if Ascii.eqb c "," then elements fuel r' (acc ++ [v])
              else if Ascii.eqb c "]" then Some (VArr (acc ++ [v]), r')
              else None
          end
      end
  end.

(** [JSON.parse(text)]: one value between optional white space, or a
    [SyntaxError]. *)
Definition parse (text : string) : completion value :=
  let s := list_ascii_of_string text in
  match element (S (2 * length s)) s with
  | Some (v, r) =>
      match skip_ws r with
      | [] => Normal v
      | _ :: _ => Throw SyntaxError
      end
  | None => Throw SyntaxError
  end.

(** Writing a JSON text inside a Rocq string: an apostrophe stands for
    the double quote. *)
Definition text (s : string) : string :=
  string_of_list_ascii
    (map (fun c => if Ascii.eqb c "'" then dquote else c) (list_ascii_of_string s)).

End JSON.

(** ** Data of the page *)

(** A JavaScript number held in a record.  The page never computes with an
    amount, it stores and prints it; the model keeps the text it was read
    from, [parseFloat text] standing for the double that text denotes. *)
Inductive number : Type :=
| parseFloat (text : string).

(** [interface ExpenseRecord].  [status] and [riskScore] are declared as
    string unions, but they are filled from agent payloads without a check,
    so they hold whatever value the payload had. *)
Module Expense.
Record ExpenseRecord : Type := {
  id : string;
  employee : string;
  vendor : string;
  amount : number;
  date : string;
  category : string;
  status : value;
  riskScore : value;
  validationResult : value
}.

(** [{ ...exp, status: s }] *)
Definition with_status (exp : ExpenseRecord) (s : value) : ExpenseRecord :=
  {| id := id exp;
     employee := employee exp;
     vendor := vendor exp;
     amount := amount exp;
     date := date exp;
     category := category exp;
     status := s;
     riskScore := riskScore exp;
     validationResult := validationResult exp |}.
End Expense.
Abbreviation ExpenseRecord := Expense.ExpenseRecord.

(** The [expenseData] cell: the four texts of the submission form. *)
Module Form.
Record ExpenseData : Type := {
  vendor : string;
  amount : string;
  date : string;
  category : string
}.
End Form.
Abbreviation ExpenseData := Form.ExpenseData.

(** Modelled from the spec: the return type of [callAIAgent], declared in
    utils/aiAgent.  Section 6: the call returns "a success flag, an optional
    response envelope, and an optional error string".  An absent envelope is
    [VUndefined]. *)
Record AIAgentResponse : Type := {
  success : bool;
  response : value;
  error : option string
}.

(** How an [await callAIAgent(...)] settles. *)
Inductive settled : Type :=
| Fulfilled (result : AIAgentResponse)
| Rejected (reason : exn).

Inductive View : Type := employee | manager | audit.

Inductive Decision : Type := approve | reject.

(** The [useState] cells of [Home] that the handlers, the filters and the
    button guards read or write (the receipt preview and the audit filter
    form are read by no logic), followed by two pieces of the environment:
    what was written with [console.error], and the error, if any, that a
    queued state update raised when React applied it.  No error boundary is
    mounted, so such an error unmounts the page.  An error that the markup
    raises while the page is drawn is not recorded. *)
Record HomeState : Type := {
  currentView : View;
  expenseData : ExpenseData;
  isValidating : bool;
  validationStage : nat;
  validationResult : value;
  validationError : option string;
  expenses : list ExpenseRecord;
  selectedExpense : option ExpenseRecord;
  statusFilter : string;
  managerRationale : string;
  isProcessingApproval : bool;
  approvalResult : value;
  console : list exn;
  renderError : option exn
}.

(** The initial render: [initialExpenses] is empty. *)
Definition initialExpenses : list ExpenseRecord := [].

Definition initialState : HomeState :=
  {| currentView := employee;
     expenseData := {| Form.vendor := ""; Form.amount := ""; Form.date := "";
                       Form.category := "Business Meal" |};
     isValidating := false;
     validationStage := 0;
     validationResult := VNull;
     validationError := None;
     expenses := initialExpenses;
     selectedExpense := None;
     statusFilter := "all";
     managerRationale := "";
     isProcessingApproval := false;
     approvalResult := VNull;
     console := [];
     renderError := None |}.

(** *** State setters *)

Definition setCurrentView (x : View) (st : HomeState) : HomeState :=
  {| currentView := x;
     expenseData := expenseData st;
     isValidating := isValidating st;
     validationStage := validationStage st;
     validationResult := validationResult st;
     validationError := validationError st;
     expenses := expenses st;
     selectedExpense := selectedExpense st;
     statusFilter := statusFilter st;
     managerRationale := managerRationale st;
     isProcessingApproval := isProcessingApproval st;
     approvalResult := approvalResult st;
     console := console st;
     renderError := renderError st |}.

Definition putExpenseData (x : ExpenseData) (st : HomeState) : HomeState :=
  {| currentView := currentView st;
     expenseData := x;
     isValidating := isValidating st;
     validationStage := validationStage st;
     validationResult := validationResult st;
     validationError := validationError st;
     expenses := expenses st;
     selectedExpense := selectedExpense st;
     statusFilter := statusFilter st;
     managerRationale := managerRationale st;
     isProcessingApproval := isProcessingApproval st;
     approvalResult := approvalResult st;
     console := console st;
     renderError := renderError st |}.

Definition setIsValidating (x : bool) (st : HomeState) : HomeState :=
  {| currentView := currentView st;
     expenseData := expenseData st;
     isValidating := x;
     validationStage := validationStage st;
     validationResult := validationResult st;
     validationError := validationError st;
     expenses := expenses st;
     selectedExpense := selectedExpense st;
     statusFilter := statusFilter st;
     managerRationale := managerRationale st;
     isProcessingApproval := isProcessingApproval st;
     approvalResult := approvalResult st;
     console := console st;
     renderError := renderError st |}.

Definition setValidationStage (x : nat) (st : HomeState) : HomeState :=
  {| currentView := currentView st;
     expenseData := expenseData st;
     isValidating := isValidating st;
     validationStage := x;
     validationResult := validationResult st;
     validationError := validationError st;
     expenses := expenses st;
     selectedExpense := selectedExpense st;
     statusFilter := statusFilter st;
     managerRationale := managerRationale st;
     isProcessingApproval := isProcessingApproval st;
     approvalResult := approvalResult st;
     console := console st;
     renderError := renderError st |}.

Definition setValidationResult (x : value) (st : HomeState) : HomeState :=
  {| currentView := currentView st;
     expenseData := expenseData st;
     isValidating := isValidating st;
     validationStage := validationStage st;
     validationResult := x;
     validationError := validationError st;
     expenses := expenses st;
     selectedExpense := selectedExpense st;
     statusFilter := statusFilter st;
     managerRationale := managerRationale st;
     isProcessingApproval := isProcessingApproval st;
     approvalResult := approvalResult st;
     console := console st;
     renderError := renderError st |}.

Definition setValidationError (x : option string) (st : HomeState) : HomeState :=
  {| currentView := currentView st;
     expenseData := expenseData st;
     isValidating := isValidating st;
     validationStage := validationStage st;
     validationResult := validationResult st;
     validationError := x;
     expenses := expenses st;
     selectedExpense := selectedExpense st;
     statusFilter := statusFilter st;
     managerRationale := managerRationale st;
     isProcessingApproval := isProcessingApproval st;
     approvalResult := approvalResult st;
     console := console st;
     renderError := renderError st |}.

Definition putExpenses (x : list ExpenseRecord) (st : HomeState) : HomeState :=
  {| currentView := currentView st;
     expenseData := expenseData st;
     isValidating := isValidating st;
     validationStage := validationStage st;
     validationResult := validationResult st;
     validationError := validationError st;
     expenses := x;
     selectedExpense := selectedExpense st;
     statusFilter := statusFilter st;
     managerRationale := managerRationale st;
     isProcessingApproval := isProcessingApproval st;
     approvalResult := approvalResult st;
     console := console st;
     renderError := renderError st |}.

Definition setSelectedExpense (x : option ExpenseRecord) (st : HomeState) : HomeState :=
  {| currentView := currentView st;
     expenseData := expenseData st;
     isValidating := isValidating st;
     validationStage := validationStage st;
     validationResult := validationResult st;
     validationError := validationError st;
     expenses := expenses st;
     selectedExpense := x;
     statusFilter := statusFilter st;
     managerRationale := managerRationale st;
     isProcessingApproval := isProcessingApproval st;
     approvalResult := approvalResult st;
     console := console st;
     renderError := renderError st |}.

Definition setStatusFilter (x : string) (st : HomeState) : HomeState :=
  {| currentView := currentView st;
     expenseData := expenseData st;
     isValidating := isValidating st;
     validationStage := validationStage st;
     validationResult := validationResult st;
     validationError := validationError st;
     expenses := expenses st;
     selectedExpense := selectedExpense st;
     statusFilter := x;
     managerRationale := managerRationale st;
     isProcessingApproval := isProcessingApproval st;
     approvalResult := approvalResult st;
     console := console st;
     renderError := renderError st |}.

Definition setManagerRationale (x : string) (st : HomeState) : HomeState :=
  {| currentView := currentView st;
     expenseData := expenseData st;
     isValidating := isValidating st;
     validationStage := validationStage st;
     validationResult := validationResult st;
     validationError := validationError st;
     expenses := expenses st;
     selectedExpense := selectedExpense st;
     statusFilter := statusFilter st;
     managerRationale := x;
     isProcessingApproval := isProcessingApproval st;
     approvalResult := approvalResult st;
     console := console st;
     renderError := renderError st |}.

Definition setIsProcessingApproval (x : bool) (st : HomeState) : HomeState :=
  {| currentView := currentView st;
     expenseData := expenseData st;
     isValidating := isValidating st;
     validationStage := validationStage st;
     validationResult := validationResult st;
     validationError := validationError st;
     expenses := expenses st;
     selectedExpense := selectedExpense st;
     statusFilter := statusFilter st;
     managerRationale := managerRationale st;
     isProcessingApproval := x;
     approvalResult := approvalResult st;
     console := console st;
     renderError := renderError st |}.

Definition setApprovalResult (x : value) (st : HomeState) : HomeState :=
  {| currentView := currentView st;
     expenseData := expenseData st;
     isValidating := isValidating st;
     validationStage := validationStage st;
     validationResult := validationResult st;
     validationError := validationError st;
     expenses := expenses st;
     selectedExpense := selectedExpense st;
     statusFilter := statusFilter st;
     managerRationale := managerRationale st;
     isProcessingApproval := isProcessingApproval st;
     approvalResult := x;
     console := console st;
     renderError := renderError st |}.

Definition putConsole (x : list exn) (st : HomeState) : HomeState :=
  {| currentView := currentView st;
     expenseData := expenseData st;
     isValidating := isValidating st;
     validationStage := validationStage st;
     validationResult := validationResult st;
     validationError := validationError st;
     expenses := expenses st;
     selectedExpense := selectedExpense st;
     statusFilter := statusFilter st;
     managerRationale := managerRationale st;
     isProcessingApproval := isProcessingApproval st;
     approvalResult := approvalResult st;
     console := x;
     renderError := renderError st |}.

Definition putRenderError (x : option exn) (st : HomeState) : HomeState :=
  {| currentView := currentView st;
     expenseData := expenseData st;
     isValidating := isValidating st;
     validationStage := validationStage st;
     validationResult := validationResult st;
     validationError := validationError st;
     expenses := expenses st;
     selectedExpense := selectedExpense st;
     statusFilter := statusFilter st;
     managerRationale := managerRationale st;
     isProcessingApproval := isProcessingApproval st;
     approvalResult := approvalResult st;
     console := console st;
     renderError := x |}.

(** ** Effects of a handler body

    A handler body reads nothing from the state (it sees the values its
    render closed over), queues state updates, and may throw. *)
Definition Effect (A : Type) : Type := HomeState -> HomeState * completion A.

Definition ret {A} (a : A) : Effect A := fun st => (st, Normal a).

Definition throw {A} (e : exn) : Effect A := fun st => (st, Throw e).

Definition bind {A B} (m : Effect A) (k : A -> Effect B) : Effect B :=
  fun st =>
    match m st with
    | (st', Normal a) => k a st'
    | (st', Throw e) => (st', Throw e)
    end.

(** Evaluating an expression inside a body. *)
Definition eval {A} (c : completion A) : Effect A := fun st => (st, c).

(** A plain [setX(v)]. *)
Definition set (f : HomeState -> HomeState) : Effect unit := fun st => (f st, Normal tt).

Declare Scope effect_scope.
Delimit Scope effect_scope with effect.
Notation "x <- m ;; k" := (bind m (fun x => k))
  (at level 100, m at next level, right associativity) : effect_scope.
Notation "m ;; k" := (bind m (fun _ => k))
  (at level 100, right associativity) : effect_scope.

(** [try { body } catch (error) { handler } finally { final }] *)
Definition try_catch_finally (body : Effect unit) (handler : exn -> Effect unit)
    (final : Effect unit) : Effect unit :=
  fun st =>
    let '(st1, r1) := body st in
    let '(st2, r2) := match r1 with
                      | Normal _ => (st1, Normal tt)
                      | Throw e => handler e st1
                      end in
    let '(st3, r3) := final st2 in
    (st3, match r3 with
          | Normal _ => r2
          | Throw e => Throw e
          end).

(** [await p]: the value of a fulfilled promise, the reason of a rejected
    one thrown. *)
Definition await (p : settled) : Effect AIAgentResponse :=
  match p with
  | Fulfilled result => ret result
  | Rejected reason => throw reason
  end.

(** [setExpenses(prev => ...)].  React applies the updater to the current
    list when it processes the queue, outside the handler's [try]: an
    updater that throws leaves the list as it was and brings the page
    down. *)
Definition setExpenses
    (updater : list ExpenseRecord -> completion (list ExpenseRecord)) : Effect unit :=
  fun st =>
    match updater (expenses st) with
    | Normal l => (putExpenses l st, Normal tt)
    | Throw e => (putRenderError (Some e) st, Normal tt)
    end.

(** [console.error(..., error)] *)
Definition console_error (e : exn) : Effect unit :=
  set (fun st => putConsole (console st ++ [e]) st).

(** ** Library functions used to build an identifier *)

(** [String(n)] for a natural number: its decimal digits.  (Array lengths
    stay far below [10^21], where JavaScript switches notation.) *)
Definition String_of_nat (n : nat) : string :=
  NilEmpty.string_of_uint (Nat.to_uint n).

(** [k] characters read cyclically from [pad], [cur] being what is left of
    the current round. *)
Fixpoint fill (k : nat) (pad cur : string) : string :=
  match k with
  | O => ""
  | S k' =>
      match cur with
      | String c cur' => String c (fill k' pad cur')
      | EmptyString =>
          match pad with
          | String c pad' => String c (fill k' pad pad')
          | EmptyString => ""
          end
      end
  end.

(** [s.padStart(targetLength, padString)] *)
Definition padStart (targetLength : nat) (padString : string) (s : string) : string :=
  let len := String.length s in
  if (targetLength <=? len)%nat || String.eqb padString "" then s
  else (fill (targetLength - len) padString padString ++ s)%string.

(** ** handleSubmitExpense (lines 542-606) *)

(** Lines 572-579: where the validation payload sits in the envelope. *)
Definition validationData_of (envelope : value) : completion value :=
  (inner <-! get_prop envelope "response";
   match inner with
   | VStr text =>
       parsedResponse <-! JSON.parse text;
       get_prop parsedResponse "result"
   | _ =>
       direct <-! get_prop envelope "result";
       if truthy direct then Normal direct
       else Throw (Error "Invalid response structure")
   end)%completion.

(** Lines 591-592. *)
Definition status_of_recommendation (final_recommendation : value) : value :=
  if strict_eq_str final_recommendation "AUTO_APPROVE" then VStr "approved"
  else if strict_eq_str final_recommendation "MANAGER_REVIEW" then VStr "reviewing"
  else VStr "rejected".

(** Line 585, [n] being [expenses.length + 1]. *)
Definition expense_id (n : nat) : string :=
  ("EXP-2026-" ++ padStart 3 "0" (String_of_nat n))%string.

(** Lines 584-595: the object literal, its properties evaluated in order.
    [expenseData] and [expenses] are the values the handler closed over. *)
Definition newExpense_of (expenseData : ExpenseData) (expenses : list ExpenseRecord)
    (validationData : value) : completion ExpenseRecord :=
  (final_recommendation <-! get_prop validationData "final_recommendation";
   validation_summary <-! get_prop validationData "validation_summary";
   risk_level <-! get_prop validation_summary "risk_level";
   Normal {| Expense.id := expense_id (length expenses + 1);
             Expense.employee := "Current User";
             Expense.vendor := Form.vendor expenseData;
             Expense.amount := parseFloat (Form.amount expenseData);
             Expense.date := Form.date expenseData;
             Expense.category := Form.category expenseData;
             Expense.status := status_of_recommendation final_recommendation;
             Expense.riskScore := risk_level;
             Expense.validationResult := validationData |})%completion.

(** [result.error || 'Validation failed'] *)
Definition error_or (error : option string) (fallback : string) : string :=
  match error with
  | Some e => if String.eqb e "" then fallback else e
  | None => fallback
  end.

(** Lines 543-561: the part that runs before the agent is called, taken
    as one step.  The five timers only delay; each round writes its index
    to the stage cell.  [pace], further down, takes the rounds one at a
    time. *)
Definition handleSubmitExpense_begin (st : HomeState) : HomeState :=
  let st := setIsValidating true st in
  let st := setValidationError None st in
  let st := setValidationResult VNull st in
  let st := setValidationStage 0 st in
  fold_left (fun st i => setValidationStage i st) (seq 0 5) st.

(** Lines 566-605: what runs once the call to the coordinator settles. *)
Definition handleSubmitExpense_resume (expenseData : ExpenseData)
    (expenses : list ExpenseRecord) (call : settled) : Effect unit :=
  try_catch_finally
    (result <- await call;;
     if success result && truthy (response result) then
       validationData <- eval (validationData_of (response result));;
       set (setValidationResult validationData);;
       newExpense <- eval (newExpense_of expenseData expenses validationData);;
       setExpenses (fun prev => Normal (newExpense :: prev))
     else
       set (setValidationError (Some (error_or (error result) "Validation failed"))))%effect
    (fun _ => set (setValidationError (Some "Network error occurred")))
    (set (setIsValidating false);;
     set (setValidationStage 5))%effect.

(** The handler run without anything else happening in between. *)
Definition handleSubmitExpense (call : settled) (st : HomeState) : HomeState :=
  fst (handleSubmitExpense_resume (expenseData st) (expenses st) call
         (handleSubmitExpense_begin st)).

(** ** handleApprovalDecision (lines 612-653) *)

(** Lines 627-634: where the approval payload sits in the envelope. *)
Definition approvalData_of (envelope : value) : completion value :=
  (inner <-! get_prop envelope "response";
   match inner with
   | VStr text =>
       parsedResponse <-! JSON.parse text;
       get_prop parsedResponse "result"
   | _ =>
       direct <-! get_prop envelope "result";
       if truthy direct then Normal direct
       else Throw (Error "Invalid response structure")
   end)%completion.

(** [prev.map(f)] for an [f] that may throw. *)
Fixpoint map_throwing {A B} (f : A -> completion B) (l : list A) : completion (list B) :=
  match l with
  | [] => Normal []
  | a :: l' =>
      (b <-! f a;
       bs <-! map_throwing f l';
       Normal (b :: bs))%completion
  end.

(** Lines 639-643: the updater handed to [setExpenses]. *)
Definition status_updater (selectedExpense : ExpenseRecord) (approvalData : value)
    (prev : list ExpenseRecord) : completion (list ExpenseRecord) :=
  map_throwing
    (fun exp =>
       if String.eqb (Expense.id exp) (Expense.id selectedExpense) then
         (expense_status <-! get_prop approvalData "expense_status";
          Normal (Expense.with_status exp expense_status))%completion
       else Normal exp)
    prev.

(** Lines 615-616. *)
Definition handleApprovalDecision_begin (st : HomeState) : HomeState :=
  setApprovalResult VNull (setIsProcessingApproval true st).

(** Lines 621-652: what runs once the call to the approval agent settles.
    The decision and the rationale only enter the prompt. *)
Definition handleApprovalDecision_resume (selectedExpense : ExpenseRecord)
    (call : settled) : Effect unit :=
  try_catch_finally
    (result <- await call;;
     if success result && truthy (response result) then
       approvalData <- eval (approvalData_of (response result));;
       set (setApprovalResult approvalData);;
       setExpenses (status_updater selectedExpense approvalData);;
       set (setManagerRationale "")
     else ret tt)%effect
    (fun error => console_error error)
    (set (setIsProcessingApproval false)).

(** The handler run without anything else happening in between. *)
Definition handleApprovalDecision (decision : Decision) (call : settled)
    (st : HomeState) : HomeState :=
  match selectedExpense st with
  | None => st
  | Some sel => fst (handleApprovalDecision_resume sel call (handleApprovalDecision_begin st))
  end.

(** ** Derived data and button guards *)

(** Lines 659-662. *)
Definition filteredExpenses (st : HomeState) : list ExpenseRecord :=
  List.filter
    (fun exp =>
       if String.eqb (statusFilter st) "all" then true
       else strict_eq_str (Expense.status exp) (statusFilter st))
    (expenses st).

(** Line 664. *)
Definition pendingExpenses (st : HomeState) : list ExpenseRecord :=
  List.filter
    (fun e => strict_eq_str (Expense.status e) "reviewing"
              || strict_eq_str (Expense.status e) "pending")
    (expenses st).

(** [!s] for a string. *)
Definition not_str (s : string) : bool := String.eqb s "".

(** Line 761: the [disabled] attribute of the submit button. *)
Definition submit_disabled (st : HomeState) : bool :=
  isValidating st
  || not_str (Form.vendor (expenseData st))
  || not_str (Form.amount (expenseData st))
  || not_str (Form.date (expenseData st)).

(** Lines 1170 and 1183: the [disabled] attribute of both decision buttons. *)
Definition decision_disabled (st : HomeState) : bool :=
  isProcessingApproval st || not_str (managerRationale st).

(** Lines 538-540, [{ ...prev, [field]: value }].  The page calls it with
    the four field names only; any other name would add a property that
    nothing reads. *)
Definition handleExpenseDataChange (field value : string) (st : HomeState) : HomeState :=
  let prev := expenseData st in
  let next :=
    if String.eqb field "vendor" then
      {| Form.vendor := value; Form.amount := Form.amount prev;
         Form.date := Form.date prev; Form.category := Form.category prev |}
    else if String.eqb field "amount" then
      {| Form.vendor := Form.vendor prev; Form.amount := value;
         Form.date := Form.date prev; Form.category := Form.category prev |}
    else if String.eqb field "date" then
      {| Form.vendor := Form.vendor prev; Form.amount := Form.amount prev;
         Form.date := value; Form.category := Form.category prev |}
    else if String.eqb field "category" then
      {| Form.vendor := Form.vendor prev; Form.amount := Form.amount prev;
         Form.date := Form.date prev; Form.category := value |}
    else prev in
  putExpenseData next st.

(** ** The page as a reactive system

    An [async] handler gives the control back at its [await]; until the
    agent answers, the user can go on clicking.  A system state is the
    page together with the handlers that are suspended on an agent call,
    each with the values its closure captured when the button was
    clicked. *)
Record System : Type := {
  page : HomeState;
  (** [expenseData] and [expenses] as the suspended [handleSubmitExpense] sees them *)
  validating : option (ExpenseData * list ExpenseRecord);
  (** [selectedExpense] as the suspended [handleApprovalDecision] sees it *)
  deciding : option ExpenseRecord
}.

Definition initialSystem : System :=
  {| page := initialState; validating := None; deciding := None |}.

Definition with_page (f : HomeState -> HomeState) (s : System) : System :=
  {| page := f (page s); validating := validating s; deciding := deciding s |}.

(** What can happen to the page. *)
Inductive Event : Type :=
| Navigate (view : View)                       (* lines 1384, 1398, 1415 *)
| ChangeField (field value : string)           (* lines 702, 718, 732, 742 *)
| ChooseStatusFilter (option : string)         (* line 868 *)
| ClickRow (index : nat)                       (* line 903, a row of the table *)
| ClickSubmit                                  (* line 760 *)
| CoordinatorSettles (call : settled)          (* line 566 *)
| ClickQueued (index : nat)                    (* line 953, a card of the queue *)
| TypeRationale (text : string)                (* line 1160 *)
| ClickDecision (decision : Decision)          (* lines 1169, 1182 *)
| ApprovalSettles (call : settled).            (* line 621 *)

Definition View_eqb (a b : View) : bool :=
  match a, b with
  | employee, employee | manager, manager | audit, audit => true
  | _, _ => false
  end.

(** The entries of the status selector (lines 873-877). *)
Definition status_options : list string :=
  ["all"; "pending"; "reviewing"; "approved"; "rejected"].

(** The fields of the form (lines 702-742). *)
Definition form_fields : list string := ["vendor"; "amount"; "date"; "category"].

Definition mem (x : string) (l : list string) : bool := existsb (String.eqb x) l.

(** One event applied to a system; [None] when the page does not offer it
    (the control is not rendered, is disabled, no such call is pending, or
    a state update has thrown).  An error thrown while the page is drawn,
    by markup that reads a field the payload lacks, is not part of this
    model: the systems it reaches include every state the real page
    reaches, and more. *)
Definition dispatch (ev : Event) (s : System) : option System :=
  let st := page s in
  match renderError st with
  | Some _ => None
  | None =>
      match ev with
      | Navigate view => Some (with_page (setCurrentView view) s)
      | ChangeField field value =>
          if View_eqb (currentView st) employee && mem field form_fields
          then Some (with_page (handleExpenseDataChange field value) s)
          else None
      | ChooseStatusFilter option =>
          if View_eqb (currentView st) employee && mem option status_options
          then Some (with_page (setStatusFilter option) s)
          else None
      | ClickRow index =>
          if View_eqb (currentView st) employee then
            match nth_error (filteredExpenses st) index with
            | Some expense => Some (with_page (setSelectedExpense (Some expense)) s)
            | None => None
            end
          else None
      | ClickSubmit =>
          if View_eqb (currentView st) employee && negb (submit_disabled st) then
            Some {| page := handleSubmitExpense_begin st;
                    validating := Some (expenseData st, expenses st);
                    deciding := deciding s |}
          else None
      | CoordinatorSettles call =>
          match validating s with
          | Some (expenseData, expenses) =>
              Some {| page := fst (handleSubmitExpense_resume expenseData expenses call st);
                      validating := None;
                      deciding := deciding s |}
          | None => None
          end
      | ClickQueued index =>
          if View_eqb (currentView st) manager then
            match nth_error (pendingExpenses st) index with
            | Some expense => Some (with_page (setSelectedExpense (Some expense)) s)
            | None => None
            end
          else None
      | TypeRationale text =>
          match selectedExpense st with
          | Some _ =>
              if View_eqb (currentView st) manager
              then Some (with_page (setManagerRationale text) s)
              else None
          | None => None
          end
      | ClickDecision decision =>
          match selectedExpense st with
          | Some sel =>
              if View_eqb (currentView st) manager && negb (decision_disabled st) then
                Some {| page := handleApprovalDecision_begin st;
                        validating := validating s;
                        deciding := Some sel |}
              else None
          | None => None
          end
      | ApprovalSettles call =>
          match deciding s with
          | Some sel =>
              Some {| page := fst (handleApprovalDecision_resume sel call st);
                      validating := validating s;
                      deciding := None |}
          | None => None
          end
      end
  end.

(** A sequence of events from a given system. *)
Fixpoint run (evs : list Event) (s : System) : option System :=
  match evs with
  | [] => Some s
  | ev :: evs' =>
      match dispatch ev s with
      | Some s' => run evs' s'
      | None => None
      end
  end.

(** The systems the page can be in. *)
Definition reachable (s : System) : Prop :=
  exists evs, run evs initialSystem = Some s.

(** ** Notions used in the statements *)

(** The identifiers of a list of [n] records, newest first. *)
Fixpoint ids_down (n : nat) : list string :=
  match n with
  | O => []
  | S k => expense_id (S k) :: ids_down k
  end.

(** Reading an identifier back: the number its digits denote. *)
Definition decode (digits : string) : option nat :=
  match NilEmpty.uint_of_string digits with
  | Some d => Some (Nat.of_uint d)
  | None => None
  end.

(** What holds of every system the page can be in. *)
Record Inv (s : System) : Prop := {
  inv_ids :
    map Expense.id (expenses (page s)) = ids_down (length (expenses (page s)));
  inv_closure :
    forall d l, validating s = Some (d, l) -> length l = length (expenses (page s));
  inv_validating :
    isValidating (page s) = false -> validating s = None;
  inv_processing :
    isProcessingApproval (page s) = false -> deciding s = None;
  inv_selected :
    forall sel, selectedExpense (page s) = Some sel ->
                In (Expense.id sel) (map Expense.id (expenses (page s)));
  inv_deciding :
    forall sel, deciding s = Some sel ->
                In (Expense.id sel) (map Expense.id (expenses (page s)))
}.

(** The page after a submission attempt that failed with [message]. *)
Definition submission_failed (message : string) (st : HomeState) : HomeState :=
  setValidationStage 5 (setIsValidating false (setValidationError (Some message) st)).

(** The page after a decision attempt whose body threw [e]. *)
Definition decision_logged (e : exn) (st : HomeState) : HomeState :=
  setIsProcessingApproval false (putConsole (console st ++ [e]) st).

(** [prev.map(...)] of lines 639-643 once [expense_status] has been read. *)
Definition overwrite_status (selected_id : string) (s : value)
    (prev : list ExpenseRecord) : list ExpenseRecord :=
  map (fun exp => if String.eqb (Expense.id exp) selected_id
                  then Expense.with_status exp s else exp) prev.

(** What a failed decision attempt must leave alone: the list, the
    rationale, and everything the user could read as an error or a result
    (the validation alert, the decision alert, the page itself). *)
Definition untouched (st st' : HomeState) : Prop :=
  expenses st' = expenses st /\
  managerRationale st' = managerRationale st /\
  validationError st' = validationError st /\
  approvalResult st' = approvalResult st /\
  renderError st' = renderError st.

(** The envelope matches neither shape: its [response] is no string and
    its [result] is falsy. *)
Definition unrecognized (envelope : value) : Prop :=
  exists other direct,
    get_prop envelope "response" = Normal other /\
    is_string other = false /\
    get_prop envelope "result" = Normal direct /\
    truthy direct = false.

(** ** Sample data

    The scenario of the specification: a coffee bought at Starbucks, the
    coordinator's verdict arriving as a JSON text inside the envelope, then a
    manager's decision answered with a plain object. *)
Module Sample.

Definition form : ExpenseData :=
  {| Form.vendor := "Starbucks Coffee"; Form.amount := "12.50";
     Form.date := "2026-01-10"; Form.category := "Business Meal" |}.

Definition verdict : value :=
  VObj [("final_recommendation", VStr "AUTO_APPROVE");
        ("validation_summary", VObj [("risk_level", VStr "low")])].

Definition verdict_text : string :=
  JSON.text
    "{'result':{'final_recommendation':'AUTO_APPROVE','validation_summary':{'risk_level':'low'}}}".

Definition coordinator_answer : AIAgentResponse :=
  {| success := true;
     response := VObj [("response", VStr verdict_text)];
     error := None |}.

Definition approval_answer (expense_status : string) : AIAgentResponse :=
  {| success := true;
     response := VObj [("result", VObj [("expense_status", VStr expense_status)])];
     error := None |}.

Definition refusal : AIAgentResponse :=
  {| success := false; response := VUndefined; error := Some "Agent unavailable" |}.

Definition shapeless : AIAgentResponse :=
  {| success := true; response := VObj [("status", VStr "success")]; error := None |}.

Definition record : ExpenseRecord :=
  {| Expense.id := "EXP-2026-001";
     Expense.employee := "Current User";
     Expense.vendor := "Starbucks Coffee";
     Expense.amount := parseFloat "12.50";
     Expense.date := "2026-01-10";
     Expense.category := "Business Meal";
     Expense.status := VStr "approved";
     Expense.riskScore := VStr "low";
     Expense.validationResult := verdict |}.

(** Filling the form, submitting, and the coordinator approving. *)
Definition submitted : list Event :=
  [ChangeField "vendor" "Starbucks Coffee";
   ChangeField "amount" "12.50";
   ChangeField "date" "2026-01-10";
   ClickSubmit;
   CoordinatorSettles (Fulfilled coordinator_answer)].

(** Then: the row is clicked in the table, the manager panel opened, a
    rationale typed and Reject clicked. *)
Definition rejecting : list Event :=
  submitted ++
  [ClickRow 0; Navigate manager; TypeRationale "duplicate"; ClickDecision reject].

Definition after (evs : list Event) : System :=
  match run evs initialSystem with
  | Some s => s
  | None => initialSystem
  end.

(** The form with the date still missing, and completely filled. *)
Definition half_filled : System :=
  after [ChangeField "vendor" "Starbucks Coffee"; ChangeField "amount" "12.50"].

Definition filled : System :=
  after [ChangeField "vendor" "Starbucks Coffee"; ChangeField "amount" "12.50";
         ChangeField "date" "2026-01-10"].

(** The page once the record is stored. *)
Definition stored : System := after submitted.

(** The page while the approval agent is being asked to reject it. *)
Definition decision_pending : System := after rejecting.

(** A second submission of the same form would store this record. *)
Definition second_record : ExpenseRecord :=
  {| Expense.id := "EXP-2026-002";
     Expense.employee := "Current User";
     Expense.vendor := "Starbucks Coffee";
     Expense.amount := parseFloat "12.50";
     Expense.date := "2026-01-10";
     Expense.category := "Business Meal";
     Expense.status := VStr "approved";
     Expense.riskScore := VStr "low";
     Expense.validationResult := verdict |}.

(** An envelope whose JSON text has a [result] that is [null], and the
    envelope that holds the same [result] directly. *)
Definition null_text : string := JSON.text "{'result':null}".

Definition null_in_text : value := VObj [("response", VStr null_text)].

Definition null_direct : value := VObj [("result", VNull)].

End Sample.

(** ** The rest of the page's logic *)

(** Lines 250-263: the colour of a status badge.  The [switch] compares
    with [===], so anything that is not one of the four texts falls to the
    default. *)
Definition getStatusColor (status : value) : string :=
  if strict_eq_str status "approved" then "bg-green-500"
  else if strict_eq_str status "rejected" then "bg-red-500"
  else if strict_eq_str status "pending" then "bg-yellow-500"
  else if strict_eq_str status "reviewing" then "bg-blue-500"
  else "bg-gray-500".

(** Lines 265-277: the colours of a risk badge. *)
Definition getRiskColor (risk : value) : string :=
  if strict_eq_str risk "low" then "bg-green-100 text-green-800 border-green-200"
  else if strict_eq_str risk "medium" then "bg-yellow-100 text-yellow-800 border-yellow-200"
  else if strict_eq_str risk "high" || strict_eq_str risk "critical"
       then "bg-red-100 text-red-800 border-red-200"
  else "bg-gray-100 text-gray-800 border-gray-200".

(** Lines 442-483, [ValidationProgress]: how each of the five rows looks
    for a given stage.  A row is complete when its index is below the
    stage (green disc, check mark), active when it equals the stage (blue
    disc, spinner), and waiting otherwise (grey disc). *)
Inductive StageLook : Type := complete | active | waiting.

Definition stages : list string :=
  ["Receipt Extraction"; "Fraud Detection"; "Policy Check"; "Eligibility"; "Final Review"].

Definition stage_look (stage idx : nat) : StageLook :=
  let isActive := (idx =? stage)%nat in
  let isComplete := (idx <? stage)%nat in
  if isComplete then complete else if isActive then active else waiting.

Definition ValidationProgress (stage : nat) : list (string * StageLook) :=
  map (fun '(idx, name) => (name, stage_look stage idx))
      (combine (seq 0 (length stages)) stages).

(** Lines 904 and 951, [selectedExpense?.id === expense.id]: whether a
    row of the table, or a card of the queue, is drawn as the selected
    one. *)
Definition isSelected (st : HomeState) (expense : ExpenseRecord) : bool :=
  match selectedExpense st with
  | Some sel => String.eqb (Expense.id sel) (Expense.id expense)
  | None => false
  end.

(** Line 1020, the test [selectedExpense.validationResult ? ... : ...]:
    [true] takes the branch of the four report tabs, [false] the branch of
    the notice "No validation data available for this expense".  The tabs
    read further fields of the payload while they are drawn (line 1033
    reads [receipt_data.extracted_successfully]); those reads are not part
    of this test. *)
Definition has_validationResult (selected : ExpenseRecord) : bool :=
  truthy (Expense.validationResult selected).

(** The test of line 664, on a status. *)
Definition awaits_review (status : value) : bool :=
  strict_eq_str status "reviewing" || strict_eq_str status "pending".

(** [null] or [undefined]. *)
Definition nullish (v : value) : bool :=
  match v with
  | VUndefined | VNull => true
  | _ => false
  end.

(** What lines 584-595 give every record and lines 639-643 keep. *)
Definition from_submission (exp : ExpenseRecord) : Prop :=
  Expense.employee exp = "Current User" /\
  exists validation_summary,
    get_prop (Expense.validationResult exp) "validation_summary" = Normal validation_summary /\
    get_prop validation_summary "risk_level" = Normal (Expense.riskScore exp).

(** Two records that agree on everything but the identifier. *)
Definition same_but_id (a b : ExpenseRecord) : Prop :=
  Expense.employee a = Expense.employee b /\
  Expense.vendor a = Expense.vendor b /\
  Expense.amount a = Expense.amount b /\
  Expense.date a = Expense.date b /\
  Expense.category a = Expense.category b /\
  Expense.status a = Expense.status b /\
  Expense.riskScore a = Expense.riskScore b /\
  Expense.validationResult a = Expense.validationResult b.

(** Two records that agree on everything but the status. *)
Definition same_but_status (a b : ExpenseRecord) : Prop :=
  Expense.id a = Expense.id b /\
  Expense.employee a = Expense.employee b /\
  Expense.vendor a = Expense.vendor b /\
  Expense.amount a = Expense.amount b /\
  Expense.date a = Expense.date b /\
  Expense.category a = Expense.category b /\
  Expense.riskScore a = Expense.riskScore b /\
  Expense.validationResult a = Expense.validationResult b.

(** A second invariant of the page: what its records look like, and where
    the stage counter stands while the progress card is shown. *)
Record Kept (s : System) : Prop := {
  kept_records : Forall from_submission (expenses (page s));
  kept_selected :
    forall sel, selectedExpense (page s) = Some sel -> from_submission sel;
  kept_stage : isValidating (page s) = true -> validationStage (page s) < 5
}.

(** The ways a decision attempt fails: the call rejects, it reports
    failure or brings no envelope, or locating the payload throws. *)
Definition decision_fails (call : settled) : Prop :=
  match call with
  | Rejected _ => True
  | Fulfilled result =>
      success result && truthy (response result) = false \/
      exists e, approvalData_of (response result) = Throw e
  end.

(** *** The five pauses of a submission

    Between the click and the call to the coordinator the handler waits
    five times (lines 558-561), and the page is drawn at every wait with
    the stage the round has just written.  [handleSubmitExpense_begin]
    runs the five rounds in one step; here every round is a step of its
    own, so that the page is seen at each of the stages. *)

(** Lines 543-546 and the first round of the loop, up to its [await]. *)
Definition handleSubmitExpense_enter (st : HomeState) : HomeState :=
  let st := setIsValidating true st in
  let st := setValidationError None st in
  let st := setValidationResult VNull st in
  let st := setValidationStage 0 st in
  setValidationStage 0 st.

(** [stages.length] at line 558. *)
Definition rounds : nat := 5.

(** A system together with the round whose timer the suspended
    [handleSubmitExpense] is waiting for, if it is waiting for one. *)
Record Paced : Type := {
  system : System;
  round : option nat
}.

Definition initialPaced : Paced := {| system := initialSystem; round := None |}.

Inductive PacedEvent : Type :=
| Occurs (ev : Event)
| TimerEnds.                                   (* line 560 *)

(** One event applied to a paced system.  The end of a timer starts the
    next round of the loop, or, after the last round, lets the handler
    call the coordinator; the call can settle only once it has been
    made.  Everything else is as in [dispatch]. *)
Definition pace (ev : PacedEvent) (t : Paced) : option Paced :=
  let s := system t in
  let st := page s in
  match renderError st with
  | Some _ => None
  | None =>
      match ev with
      | TimerEnds =>
          match round t with
          | Some i =>
              if (S i <? rounds)%nat
              then Some {| system := with_page (setValidationStage (S i)) s;
                           round := Some (S i) |}
              else Some {| system := s; round := None |}
          | None => None
          end
      | Occurs ClickSubmit =>
          if View_eqb (currentView st) employee && negb (submit_disabled st) then
            Some {| system := {| page := handleSubmitExpense_enter st;
                                 validating := Some (expenseData st, expenses st);
                                 deciding := deciding s |};
                    round := Some 0 |}
          else None
      | Occurs (CoordinatorSettles call) =>
          match round t with
          | Some _ => None
          | None =>
              option_map (fun s' => {| system := s'; round := None |})
                         (dispatch (CoordinatorSettles call) s)
          end
      | Occurs ev =>
          option_map (fun s' => {| system := s'; round := round t |}) (dispatch ev s)
      end
  end.

Fixpoint paced_run (evs : list PacedEvent) (t : Paced) : option Paced :=
  match evs with
  | [] => Some t
  | ev :: evs' =>
      match pace ev t with
      | Some t' => paced_run evs' t'
      | None => None
      end
  end.

Definition paced_reachable (t : Paced) : Prop :=
  exists evs, paced_run evs initialPaced = Some t.

(** The events of a system, each click on Submit followed by the ends of
    its five timers. *)
Definition with_timers (ev : Event) : list PacedEvent :=
  match ev with
  | ClickSubmit => Occurs ClickSubmit :: repeat TimerEnds rounds
  | _ => [Occurs ev]
  end.

(** What holds of a paced system: the records and the stage as in [Kept],
    and while a timer runs the card is shown at the timer's round. *)
Definition Paced_kept (t : Paced) : Prop :=
  Kept (system t) /\
  forall i,
    round t = Some i ->
    (i < rounds)%nat /\
    isValidating (page (system t)) = true /\
    validationStage (page (system t)) = i.

(** Payloads with every field of the declared interfaces. *)
Module Scenario.

Definition verdict (final_recommendation : string) : value :=
  VObj [("validation_summary",
         VObj [("overall_status", VStr "approved");
               ("confidence_score", VNum 95 (-2));
               ("risk_level", VStr "low")]);
        ("receipt_data",
         VObj [("vendor", VStr "Starbucks Coffee"); ("amount", VNum 1250 (-2));
               ("date", VStr "2026-01-10"); ("extracted_successfully", VBool true)]);
        ("fraud_analysis",
         VObj [("fraud_detected", VBool false); ("fraud_score", VNum 5 (-2));
               ("flags_count", VNum 0 0)]);
        ("policy_compliance",
         VObj [("compliant", VBool true); ("violations_count", VNum 0 0);
               ("critical_violations", VBool false)]);
        ("employee_eligibility",
         VObj [("eligible", VBool true); ("restrictions", VNum 0 0)]);
        ("final_recommendation", VStr final_recommendation);
        ("recommendation_reasoning", VStr "Within policy.");
        ("required_actions", VArr []);
        ("approval_workflow",
         VObj [("requires_manager_approval", VBool false);
               ("required_approval_level", VStr "none");
               ("auto_approvable", VBool true)])].

Definition coordinator (final_recommendation : string) : AIAgentResponse :=
  {| success := true;
     response := VObj [("result", verdict final_recommendation)];
     error := None |}.

Definition approval_payload (expense_status : string) : value :=
  VObj [("decision_processed", VBool true);
        ("expense_status", VStr expense_status);
        ("decision_details",
         VObj [("manager_id", VStr "M-1"); ("decision", VStr "REJECT");
               ("rationale", VStr "duplicate");
               ("decision_timestamp", VStr "2026-01-11T09:00:00Z")]);
        ("workflow_actions",
         VObj [("reimbursement_triggered", VBool false); ("employee_notified", VBool true);
               ("audit_record_created", VBool true);
               ("finance_team_notified", VBool false)]);
        ("next_steps", VArr []);
        ("audit_trail",
         VObj [("record_id", VStr "A-1"); ("timestamp", VStr "2026-01-11T09:00:00Z");
               ("action", VStr "rejected")])].

Definition approval (expense_status : string) : AIAgentResponse :=
  {| success := true;
     response := VObj [("result", approval_payload expense_status)];
     error := None |}.

(** The record a submission of the sample form stores under a given
    recommendation. *)
Definition stored_record (final_recommendation status : string) : ExpenseRecord :=
  {| Expense.id := "EXP-2026-001";
     Expense.employee := "Current User";
     Expense.vendor := "Starbucks Coffee";
     Expense.amount := parseFloat "12.50";
     Expense.date := "2026-01-10";
     Expense.category := "Business Meal";
     Expense.status := VStr status;
     Expense.riskScore := VStr "low";
     Expense.validationResult := verdict final_recommendation |}.

(** An envelope whose [response] is a text that is no JSON, next to a
    [result] that holds a complete verdict. *)
Definition garbled : value :=
  VObj [("response", VStr "Sorry, I could not process that.");
        ("result", verdict "AUTO_APPROVE")].

(** An answer whose JSON text has no [result]. *)
Definition resultless : AIAgentResponse :=
  {| success := true;
     response := VObj [("response", VStr (JSON.text "{'expense_status':'approved'}"))];
     error := None |}.

Definition fill_form : list Event :=
  [ChangeField "vendor" "Starbucks Coffee";
   ChangeField "amount" "12.50";
   ChangeField "date" "2026-01-10"].

(** The form filled and Submit clicked. *)
Definition clicked : System := Sample.after (fill_form ++ [ClickSubmit]).

(** A record sent to the manager, selected from the queue, Approve clicked. *)
Definition to_review : list Event :=
  fill_form ++
  [ClickSubmit; CoordinatorSettles (Fulfilled (coordinator "MANAGER_REVIEW"))].

Definition reviewing : System := Sample.after to_review.

Definition approving : list Event :=
  to_review ++
  [Navigate manager; ClickQueued 0; TypeRationale "valid per policy"; ClickDecision approve].

Definition approval_pending : System := Sample.after approving.

End Scenario.

(** ** JSON.parse does not depend on its fuel *)

Lemma skip_ws_length s : length (JSON.skip_ws s) <= length s.
Proof.
  induction s as [|c s IH]; cbn [JSON.skip_ws]; [lia|].
  destruct (JSON.is_ws c); cbn [length]; lia.
Qed.

Lemma skip_ws_cons s c r : JSON.skip_ws s = c :: r -> length r < length s.
Proof. intros H. pose proof (skip_ws_length s) as Hl. rewrite H in Hl. cbn in Hl. lia. Qed.

Lemma digits_length s : forall acc count n k r,
  JSON.digits s acc count = (n, k, r) -> length r <= length s.
Proof.
  induction s as [|c s IH]; intros acc count n k r; cbn [JSON.digits].
  - intros [= _ _ <-]. lia.
  - destruct (JSON.digit_val c).
    + intros H. apply IH in H. cbn [length]. lia.
    + intros [= _ _ <-]. lia.
Qed.

Lemma exp_digits_length neg s x r :
  JSON.exp_digits neg s = Some (x, r) -> length r <= length s.
Proof.
  unfold JSON.exp_digits. destruct (JSON.digits s 0 0) as [[n k] r'] eqn:Hd.
  destruct (k =? 0)%Z; [discriminate|]. intros [= _ <-]. eapply digits_length, Hd.
Qed.

Lemma int_part_length s n r : JSON.int_part s = Some (n, r) -> length r <= length s.
Proof.
  unfold JSON.int_part. destruct s as [|c s]; [discriminate|].
  destruct (Ascii.eqb c "0").
  - intros [= _ <-]. cbn. lia.
  - destruct (JSON.digits (c :: s) 0 0) as [[m k] r'] eqn:Hd.
    destruct (k =? 0)%Z; [discriminate|]. intros [= _ <-]. eapply digits_length, Hd.
Qed.

Lemma frac_part_length n s m k r :
  JSON.frac_part n s = Some (m, k, r) -> length r <= length s.
Proof.
  unfold JSON.frac_part. destruct s as [|c s]; [intros [= _ _ <-]; lia|].
  destruct (Ascii.eqb c ".").
  - destruct (JSON.digits s n 0) as [[m' k'] r'] eqn:Hd.
    destruct (k' =? 0)%Z; [discriminate|]. intros [= _ _ <-].
    apply digits_length in Hd. cbn. lia.
  - intros [= _ _ <-]. lia.
Qed.

Lemma exp_part_length s x r : JSON.exp_part s = Some (x, r) -> length r <= length s.
Proof.
  unfold JSON.exp_part. destruct s as [|c s]; [intros [= _ <-]; lia|].
  destruct (Ascii.eqb c "e" || Ascii.eqb c "E"); [|intros [= _ <-]; lia].
  destruct s as [|sign s]; [discriminate|].
  destruct (Ascii.eqb sign "+"); [|destruct (Ascii.eqb sign "-")];
    intros H; apply exp_digits_length in H; cbn in *; lia.
Qed.

Lemma number_length s v r : JSON.number s = Some (v, r) -> length r <= length s.
Proof.
  unfold JSON.number.
  set (signed := match s with
                 | c :: r0 => if Ascii.eqb c "-" then (true, r0) else (false, s)
                 | [] => (false, [])
                 end).
  assert (Hs : length (snd signed) <= length s).
  { subst signed. destruct s as [|c s]; [cbn; lia|].
    destruct (Ascii.eqb c "-"); cbn; lia. }
  destruct signed as [neg s1]. cbn [snd] in Hs.
  destruct (JSON.int_part s1) as [[n s2]|] eqn:Hi; [|discriminate].
  destruct (JSON.frac_part n s2) as [[[m k] s3]|] eqn:Hf; [|discriminate].
  destruct (JSON.exp_part s3) as [[x s4]|] eqn:He; [|discriminate].
  intros [= _ <-].
  apply int_part_length in Hi. apply frac_part_length in Hf. apply exp_part_length in He.
  lia.
Qed.

Lemma chars_length s : forall esc acc cs r,
  JSON.chars s esc acc = Some (cs, r) -> length r <= length s.
Proof.
  induction s as [s IH] using (induction_ltof1 _ (@length ascii)).
  unfold ltof in IH. intros esc acc cs r. destruct s as [|c s]; [discriminate|].
  cbn [JSON.chars]. destruct esc.
  - repeat match goal with
           | |- (if ?b then _ else _) = _ -> _ => destruct b
           end;
      try (intros H; apply IH in H; cbn [length] in *; lia); try discriminate.
    destruct s as [|h1 [|h2 [|h3 [|h4 r']]]]; try discriminate.
    destruct (JSON.code_unit h1 h2 h3 h4) as [cu|]; [|discriminate].
    destruct r' as [|b [|u [|l1 [|l2 [|l3 [|l4 r'']]]]]];
      try (intros H; apply IH in H; cbn [length] in *; lia).
    destruct (JSON.code_unit l1 l2 l3 l4) as [low|];
      [destruct (_ && _)|]; intros H; apply IH in H; cbn [length] in *; lia.
  - repeat match goal with
           | |- (if ?b then _ else _) = _ -> _ => destruct b
           end;
      try (intros H; apply IH in H; cbn [length] in *; lia); try discriminate.
    intros [= _ <-]. cbn. lia.
Qed.

Lemma strip_length p : forall s r, JSON.strip p s = Some r -> length r <= length s.
Proof.
  induction p as [|a p IH]; intros s r; cbn [JSON.strip].
  - intros [= <-]. lia.
  - destruct s as [|b s]; [discriminate|]. destruct (Ascii.eqb a b); [|discriminate].
    intros H. apply IH in H. cbn. lia.
Qed.

(** What is left after a value is no longer than what was there. *)
Lemma element_length fuel :
  (forall s v r, JSON.element fuel s = Some (v, r) -> length r <= length s) /\
  (forall s acc v r, JSON.members fuel s acc = Some (v, r) -> length r <= length s) /\
  (forall s acc v r, JSON.elements fuel s acc = Some (v, r) -> length r <= length s).
Proof.
  induction fuel as [|fuel (IHe & IHm & IHl)]; [repeat split; discriminate|].
  split; [|split].
  - intros s v r. cbn [JSON.element].
    destruct (JSON.skip_ws s) as [|c t] eqn:Hs; [discriminate|].
    apply skip_ws_cons in Hs.
    destruct (Ascii.eqb c "{").
    { destruct (JSON.skip_ws t) as [|c' t'] eqn:Ht; [discriminate|].
      pose proof (skip_ws_length t) as Hl. rewrite Ht in Hl.
      destruct (Ascii.eqb c' "}").
      - intros [= _ <-]. cbn in Hl. lia.
      - intros H. apply IHm in H. lia. }
    destruct (Ascii.eqb c "[").
    { destruct (JSON.skip_ws t) as [|c' t'] eqn:Ht; [discriminate|].
      pose proof (skip_ws_length t) as Hl. rewrite Ht in Hl.
      destruct (Ascii.eqb c' "]").
      - intros [= _ <-]. cbn in Hl. lia.
      - intros H. apply IHl in H. lia. }
    destruct (Ascii.eqb c JSON.dquote).
    { destruct (JSON.chars t false []) as [[cs t']|] eqn:Hc; [|discriminate].
      intros [= _ <-]. apply chars_length in Hc. lia. }
    destruct (Ascii.eqb c "t").
    { destruct (JSON.strip _ t) as [t'|] eqn:Hp; [|discriminate].
      intros [= _ <-]. apply strip_length in Hp. lia. }
    destruct (Ascii.eqb c "f").
    { destruct (JSON.strip _ t) as [t'|] eqn:Hp; [|discriminate].
      intros [= _ <-]. apply strip_length in Hp. lia. }
    destruct (Ascii.eqb c "n").
    { destruct (JSON.strip _ t) as [t'|] eqn:Hp; [|discriminate].
      intros [= _ <-]. apply strip_length in Hp. lia. }
    intros H. apply number_length in H. cbn in H. lia.
  - intros s acc v r. cbn [JSON.members].
    destruct (JSON.skip_ws s) as [|q t] eqn:Hs; [discriminate|].
    apply skip_ws_cons in Hs.
    destruct (Ascii.eqb q JSON.dquote); [|discriminate].
    destruct (JSON.chars t false []) as [[k t1]|] eqn:Hc; [|discriminate].
    apply chars_length in Hc.
    destruct (JSON.skip_ws t1) as [|colon t2] eqn:H1; [discriminate|].
    apply skip_ws_cons in H1.
    destruct (Ascii.eqb colon ":"); [|discriminate].
    destruct (JSON.element fuel t2) as [[v' t3]|] eqn:Hv; [|discriminate].
    apply IHe in Hv.
    destruct (JSON.skip_ws t3) as [|c t4] eqn:H3; [discriminate|].
    apply skip_ws_cons in H3.
    destruct (Ascii.eqb c ","); [|destruct (Ascii.eqb c "}"); [|discriminate]].
    + intros H. apply IHm in H. lia.
    + intros [= _ <-]. lia.
  - intros s acc v r. cbn [JSON.elements].
    destruct (JSON.element fuel s) as [[v' t]|] eqn:Hv; [|discriminate].
    apply IHe in Hv.
    destruct (JSON.skip_ws t) as [|c t'] eqn:Ht; [discriminate|].
    apply skip_ws_cons in Ht.
    destruct (Ascii.eqb c ","); [|destruct (Ascii.eqb c "]"); [|discriminate]].
    + intros H. apply IHl in H. lia.
    + intros [= _ <-]. lia.
Qed.

(** Above twice the length of the text (and one more for the two loops)
    the amount of fuel makes no difference. *)
Lemma element_fuel f1 :
  (forall f2 s, 2 * length s < f1 -> 2 * length s < f2 ->
                JSON.element f1 s = JSON.element f2 s) /\
  (forall f2 s acc, 2 * length s + 1 < f1 -> 2 * length s + 1 < f2 ->
                    JSON.members f1 s acc = JSON.members f2 s acc) /\
  (forall f2 s acc, 2 * length s + 1 < f1 -> 2 * length s + 1 < f2 ->
                    JSON.elements f1 s acc = JSON.elements f2 s acc).
Proof.
  induction f1 as [|f1 (IHe & IHm & IHl)]; [repeat split; intros; lia|].
  split; [|split].
  - intros [|f2] s H1 H2; [lia|]. cbn [JSON.element].
    destruct (JSON.skip_ws s) as [|c t] eqn:Hs; [reflexivity|].
    apply skip_ws_cons in Hs.
    destruct (Ascii.eqb c "{").
    { destruct (JSON.skip_ws t) as [|c' t'] eqn:Ht; [reflexivity|].
      pose proof (skip_ws_length t) as Hl. rewrite Ht in Hl.
      destruct (Ascii.eqb c' "}"); [reflexivity|]. apply IHm; lia. }
    destruct (Ascii.eqb c "[").
    { destruct (JSON.skip_ws t) as [|c' t'] eqn:Ht; [reflexivity|].
      pose proof (skip_ws_length t) as Hl. rewrite Ht in Hl.
      destruct (Ascii.eqb c' "]"); [reflexivity|]. apply IHl; lia. }
    reflexivity.
  - intros [|f2] s acc H1 H2; [lia|]. cbn [JSON.members].
    destruct (JSON.skip_ws s) as [|q t] eqn:Hs; [reflexivity|].
    apply skip_ws_cons in Hs.
    destruct (Ascii.eqb q JSON.dquote); [|reflexivity].
    destruct (JSON.chars t false []) as [[k t1]|] eqn:Hc; [|reflexivity].
    apply chars_length in Hc.
    destruct (JSON.skip_ws t1) as [|colon t2] eqn:Ht1; [reflexivity|].
    apply skip_ws_cons in Ht1.
    destruct (Ascii.eqb colon ":"); [|reflexivity].
    rewrite (IHe f2 t2) by lia.
    destruct (JSON.element f2 t2) as [[v t3]|] eqn:Hv; [|reflexivity].
    apply (proj1 (element_length f2)) in Hv.
    destruct (JSON.skip_ws t3) as [|c t4] eqn:Ht3; [reflexivity|].
    apply skip_ws_cons in Ht3.
    destruct (Ascii.eqb c ","); [|reflexivity]. apply IHm; lia.
  - intros [|f2] s acc H1 H2; [lia|]. cbn [JSON.elements].
    rewrite (IHe f2 s) by lia.
    destruct (JSON.element f2 s) as [[v t]|] eqn:Hv; [|reflexivity].
    apply (proj1 (element_length f2)) in Hv.
    destruct (JSON.skip_ws t) as [|c t'] eqn:Ht; [reflexivity|].
    apply skip_ws_cons in Ht.
    destruct (Ascii.eqb c ","); [|reflexivity]. apply IHl; lia.
Qed.

Lemma length_list_ascii_of_string text :
  length (list_ascii_of_string text) = String.length text.
Proof. induction text as [|c text IH]; cbn; [reflexivity|]. rewrite IH. reflexivity. Qed.

(** [JSON.parse] gives the answer any larger fuel would give. *)
Lemma parse_fuel text fuel :
  2 * String.length text < fuel ->
  JSON.parse text =
    match JSON.element fuel (list_ascii_of_string text) with
    | Some (v, r) =>
        match JSON.skip_ws r with
        | [] => Normal v
        | _ :: _ => Throw SyntaxError
        end
    | None => Throw SyntaxError
    end.
Proof.
  intros H. unfold JSON.parse.
  rewrite (proj1 (element_fuel _) fuel (list_ascii_of_string text)); [reflexivity| |];
    rewrite length_list_ascii_of_string; lia.
Qed.

(** A few texts, as [JSON.parse] reads them. *)
Example parse_nested :
  JSON.parse (JSON.text " { 'a' : [1, 2.50, -1e-3, true, null], 'b' : {'c' : []} } ")
  = Normal (VObj [("a", VArr [VNum 1 0; VNum 250 (-2); VNum (-1) (-3); VBool true; VNull]);
                  ("b", VObj [("c", VArr [])])]).
Proof. vm_compute. reflexivity. Qed.

Example parse_duplicate_key :
  JSON.parse (JSON.text "{'result':1,'other':2,'result':3}")
  = Normal (VObj [("result", VNum 3 0); ("other", VNum 2 0)]).
Proof. vm_compute. reflexivity. Qed.

Example parse_escape :
  JSON.parse (JSON.text "'\u0041UTO_APPROVE'") = Normal (VStr "AUTO_APPROVE").
Proof. vm_compute. reflexivity. Qed.

Example parse_surrogate_pair :
  JSON.parse (JSON.text "'\ud83d\ude00'")
  = Normal (VStr (String "240" (String "159" (String "152" (String "128" ""))))).
Proof. vm_compute. reflexivity. Qed.

Example parse_rejects :
  map JSON.parse
    (map JSON.text ["[1,]"; "{'a':1,}"; "01"; "1."; ".5"; "+1"; "1e"; "tru"; "'abc"; "";
                    "{a:1}"; "true false"; "[1 2]"])
  = repeat (Throw SyntaxError) 13.
Proof. vm_compute. reflexivity. Qed.

Example zero_is_falsy :
  map truthy [VNum 0 0; VNum 0 5; VNum 2 (-324); VNum 3 (-324); VNum 1 0; VStr ""; VStr "0";
              VArr []; VObj []]
  = [false; false; false; true; true; false; true; true; true].
Proof. vm_compute. reflexivity. Qed.

(** ** The handlers, case by case *)

Section SubmitCases.
Variables (expenseData : ExpenseData) (closed : list ExpenseRecord) (st : HomeState).

Lemma submit_rejected reason :
  fst (handleSubmitExpense_resume expenseData closed (Rejected reason) st)
  = submission_failed "Network error occurred" st.
Proof. reflexivity. Qed.

Lemma submit_refused result :
  success result && truthy (response result) = false ->
  fst (handleSubmitExpense_resume expenseData closed (Fulfilled result) st)
  = submission_failed (error_or (error result) "Validation failed") st.
Proof.
  intros H. unfold handleSubmitExpense_resume, try_catch_finally, bind, await, ret.
  rewrite H. reflexivity.
Qed.

Lemma submit_unlocated result e :
  success result && truthy (response result) = true ->
  validationData_of (response result) = Throw e ->
  fst (handleSubmitExpense_resume expenseData closed (Fulfilled result) st)
  = submission_failed "Network error occurred" st.
Proof.
  intros H1 H2. unfold handleSubmitExpense_resume, try_catch_finally, bind, await, ret, eval.
  rewrite H1, H2. reflexivity.
Qed.

Lemma submit_unbuilt result validationData e :
  success result && truthy (response result) = true ->
  validationData_of (response result) = Normal validationData ->
  newExpense_of expenseData closed validationData = Throw e ->
  fst (handleSubmitExpense_resume expenseData closed (Fulfilled result) st)
  = submission_failed "Network error occurred" (setValidationResult validationData st).
Proof.
  intros H1 H2 H3.
  unfold handleSubmitExpense_resume, try_catch_finally, bind, await, ret, eval, set.
  rewrite H1, H2, H3. reflexivity.
Qed.

Lemma submit_stored result validationData newExpense :
  success result && truthy (response result) = true ->
  validationData_of (response result) = Normal validationData ->
  newExpense_of expenseData closed validationData = Normal newExpense ->
  fst (handleSubmitExpense_resume expenseData closed (Fulfilled result) st)
  = setValidationStage 5
      (setIsValidating false
         (putExpenses (newExpense :: expenses st)
            (setValidationResult validationData st))).
Proof.
  intros H1 H2 H3.
  unfold handleSubmitExpense_resume, try_catch_finally, bind, await, ret, eval, set,
    setExpenses.
  rewrite H1, H2, H3. reflexivity.
Qed.

End SubmitCases.

Section DecisionCases.
Variables (selected : ExpenseRecord) (st : HomeState).

Lemma decision_rejected reason :
  fst (handleApprovalDecision_resume selected (Rejected reason) st)
  = decision_logged reason st.
Proof. reflexivity. Qed.

Lemma decision_refused result :
  success result && truthy (response result) = false ->
  fst (handleApprovalDecision_resume selected (Fulfilled result) st)
  = setIsProcessingApproval false st.
Proof.
  intros H. unfold handleApprovalDecision_resume, try_catch_finally, bind, await, ret.
  rewrite H. reflexivity.
Qed.

Lemma decision_unlocated result e :
  success result && truthy (response result) = true ->
  approvalData_of (response result) = Throw e ->
  fst (handleApprovalDecision_resume selected (Fulfilled result) st)
  = decision_logged e st.
Proof.
  intros H1 H2.
  unfold handleApprovalDecision_resume, try_catch_finally, bind, await, ret, eval.
  rewrite H1, H2. reflexivity.
Qed.

Lemma decision_applied result approvalData next :
  success result && truthy (response result) = true ->
  approvalData_of (response result) = Normal approvalData ->
  status_updater selected approvalData (expenses st) = Normal next ->
  fst (handleApprovalDecision_resume selected (Fulfilled result) st)
  = setIsProcessingApproval false
      (setManagerRationale ""
         (putExpenses next (setApprovalResult approvalData st))).
Proof.
  intros H1 H2 H3.
  unfold handleApprovalDecision_resume, try_catch_finally, bind, await, ret, eval, set,
    setExpenses.
  rewrite H1, H2. cbv beta iota.
  change (expenses (setApprovalResult approvalData st)) with (expenses st).
  rewrite H3. reflexivity.
Qed.

Lemma decision_crashed result approvalData e :
  success result && truthy (response result) = true ->
  approvalData_of (response result) = Normal approvalData ->
  status_updater selected approvalData (expenses st) = Throw e ->
  fst (handleApprovalDecision_resume selected (Fulfilled result) st)
  = setIsProcessingApproval false
      (setManagerRationale ""
         (putRenderError (Some e) (setApprovalResult approvalData st))).
Proof.
  intros H1 H2 H3.
  unfold handleApprovalDecision_resume, try_catch_finally, bind, await, ret, eval, set,
    setExpenses.
  rewrite H1, H2. cbv beta iota.
  change (expenses (setApprovalResult approvalData st)) with (expenses st).
  rewrite H3. reflexivity.
Qed.

End DecisionCases.

(** *** The record built by a submission *)

Lemma newExpense_of_Normal expenseData closed validationData newExpense :
  newExpense_of expenseData closed validationData = Normal newExpense ->
  exists final_recommendation validation_summary risk_level,
    get_prop validationData "final_recommendation" = Normal final_recommendation /\
    get_prop validationData "validation_summary" = Normal validation_summary /\
    get_prop validation_summary "risk_level" = Normal risk_level /\
    newExpense =
      {| Expense.id := expense_id (length closed + 1);
         Expense.employee := "Current User";
         Expense.vendor := Form.vendor expenseData;
         Expense.amount := parseFloat (Form.amount expenseData);
         Expense.date := Form.date expenseData;
         Expense.category := Form.category expenseData;
         Expense.status := status_of_recommendation final_recommendation;
         Expense.riskScore := risk_level;
         Expense.validationResult := validationData |}.
Proof.
  unfold newExpense_of, bindC. intros H.
  destruct (get_prop validationData "final_recommendation") as [fr|] eqn:Hfr; [|discriminate].
  destruct (get_prop validationData "validation_summary") as [vs|] eqn:Hvs; [|discriminate].
  destruct (get_prop vs "risk_level") as [rl|] eqn:Hrl; [|discriminate].
  injection H as <-. exists fr, vs, rl. repeat split; assumption.
Qed.

Lemma newExpense_of_props expenseData closed validationData fr vs rl :
  get_prop validationData "final_recommendation" = Normal fr ->
  get_prop validationData "validation_summary" = Normal vs ->
  get_prop vs "risk_level" = Normal rl ->
  newExpense_of expenseData closed validationData =
    Normal {| Expense.id := expense_id (length closed + 1);
              Expense.employee := "Current User";
              Expense.vendor := Form.vendor expenseData;
              Expense.amount := parseFloat (Form.amount expenseData);
              Expense.date := Form.date expenseData;
              Expense.category := Form.category expenseData;
              Expense.status := status_of_recommendation fr;
              Expense.riskScore := rl;
              Expense.validationResult := validationData |}.
Proof. intros H1 H2 H3. unfold newExpense_of, bindC. rewrite H1, H2, H3. reflexivity. Qed.

(** What a settled submission leaves of the page, whatever the answer. *)
Lemma submit_resume_frame expenseData closed call st :
  let st' := fst (handleSubmitExpense_resume expenseData closed call st) in
  isValidating st' = false /\
  isProcessingApproval st' = isProcessingApproval st /\
  selectedExpense st' = selectedExpense st /\
  managerRationale st' = managerRationale st /\
  renderError st' = renderError st /\
  ((expenses st' = expenses st /\ exists message, validationError st' = Some message) \/
   (exists result validationData newExpense,
       call = Fulfilled result /\
       success result && truthy (response result) = true /\
       validationData_of (response result) = Normal validationData /\
       newExpense_of expenseData closed validationData = Normal newExpense /\
       expenses st' = newExpense :: expenses st /\
       validationError st' = validationError st)).
Proof.
  destruct call as [result|reason]; cbv zeta.
  - destruct (success result && truthy (response result)) eqn:Hok.
    + destruct (validationData_of (response result)) as [vd|e] eqn:Hvd.
      * destruct (newExpense_of expenseData closed vd) as [rec|e] eqn:Hrec.
        -- rewrite (submit_stored _ _ _ _ _ _ Hok Hvd Hrec). cbn.
           repeat split; try reflexivity. right. exists result, vd, rec. auto 10.
        -- rewrite (submit_unbuilt _ _ _ _ _ _ Hok Hvd Hrec). cbn.
           repeat split; try reflexivity. left. eauto.
      * rewrite (submit_unlocated _ _ _ _ _ Hok Hvd). cbn.
        repeat split; try reflexivity. left. eauto.
    + rewrite (submit_refused _ _ _ _ Hok). cbn.
      repeat split; try reflexivity. left. eauto.
  - rewrite submit_rejected. cbn. repeat split; try reflexivity. left. eauto.
Qed.

(** *** The list rewritten by a decision *)

Lemma status_updater_read selected approvalData s prev :
  get_prop approvalData "expense_status" = Normal s ->
  status_updater selected approvalData prev
  = Normal (overwrite_status (Expense.id selected) s prev).
Proof.
  intros Hs. unfold status_updater, overwrite_status.
  induction prev as [|exp prev IH]; [reflexivity|].
  cbn [map_throwing map]. rewrite IH.
  destruct (String.eqb (Expense.id exp) (Expense.id selected)); cbn.
  - rewrite Hs. reflexivity.
  - reflexivity.
Qed.

Lemma status_updater_unread selected approvalData e prev next :
  get_prop approvalData "expense_status" = Throw e ->
  status_updater selected approvalData prev = Normal next ->
  next = prev.
Proof.
  intros He. unfold status_updater. revert next.
  induction prev as [|exp prev IH]; intros next H; cbn in H.
  - congruence.
  - destruct (String.eqb (Expense.id exp) (Expense.id selected)); cbn in H.
    + rewrite He in H. discriminate.
    + destruct (map_throwing _ prev) as [bs|] eqn:Hbs; cbn in H; [|discriminate].
      injection H as <-. f_equal. apply IH. reflexivity.
Qed.

Lemma overwrite_status_ids k s prev :
  map Expense.id (overwrite_status k s prev) = map Expense.id prev.
Proof.
  unfold overwrite_status. induction prev as [|exp prev IH]; [reflexivity|].
  cbn [map]. rewrite IH. destruct (String.eqb (Expense.id exp) k); reflexivity.
Qed.

Lemma status_updater_ids selected approvalData prev next :
  status_updater selected approvalData prev = Normal next ->
  map Expense.id next = map Expense.id prev.
Proof.
  intros H. destruct (get_prop approvalData "expense_status") as [s|e] eqn:Hs.
  - rewrite (status_updater_read _ _ _ _ Hs) in H. injection H as <-.
    apply overwrite_status_ids.
  - rewrite (status_updater_unread _ _ _ _ _ Hs H). reflexivity.
Qed.

(** What a settled decision leaves of the page, whatever the answer. *)
Lemma decision_resume_frame selected call st :
  let st' := fst (handleApprovalDecision_resume selected call st) in
  isProcessingApproval st' = false /\
  isValidating st' = isValidating st /\
  selectedExpense st' = selectedExpense st /\
  validationError st' = validationError st /\
  map Expense.id (expenses st') = map Expense.id (expenses st).
Proof.
  destruct call as [result|reason]; cbv zeta.
  - destruct (success result && truthy (response result)) eqn:Hok.
    + destruct (approvalData_of (response result)) as [ad|e] eqn:Had.
      * destruct (status_updater selected ad (expenses st)) as [next|e] eqn:Hnext.
        -- rewrite (decision_applied _ _ _ _ _ Hok Had Hnext). cbn.
           repeat split. eapply status_updater_ids; eassumption.
        -- rewrite (decision_crashed _ _ _ _ _ Hok Had Hnext). cbn. repeat split.
      * rewrite (decision_unlocated _ _ _ _ Hok Had). cbn. repeat split.
    + rewrite (decision_refused _ _ _ Hok). cbn. repeat split.
  - rewrite decision_rejected. cbn. repeat split.
Qed.

(** *** Identifiers can be read back *)

Lemma decode_leading_zero digits : decode (String "0" digits) = decode digits.
Proof.
  unfold decode. cbn [NilEmpty.uint_of_string].
  destruct (NilEmpty.uint_of_string digits) as [d|]; reflexivity.
Qed.

Lemma decode_String_of_nat n : decode (String_of_nat n) = Some n.
Proof.
  unfold decode, String_of_nat. rewrite NilEmpty.usu, Unsigned.of_to. reflexivity.
Qed.

Lemma padStart_zeros digits :
  exists zeros, padStart 3 "0" digits = (zeros ++ digits)%string /\
                (zeros = "" \/ zeros = "0" \/ zeros = "00" \/ zeros = "000").
Proof.
  destruct digits as [|a [|b [|c rest]]].
  - exists "000". auto.
  - exists "00". auto.
  - exists "0". auto.
  - exists "". auto.
Qed.

Lemma decode_padStart n : decode (padStart 3 "0" (String_of_nat n)) = Some n.
Proof.
  destruct (padStart_zeros (String_of_nat n)) as (zeros & -> & [-> | [-> | [-> | ->]]]);
    cbn [append]; rewrite ?decode_leading_zero; apply decode_String_of_nat.
Qed.

Lemma expense_id_inj n m : expense_id n = expense_id m -> n = m.
Proof.
  unfold expense_id. intros H. cbn [append] in H.
  assert (Hpad : padStart 3 "0" (String_of_nat n) = padStart 3 "0" (String_of_nat m))
    by congruence.
  pose proof (decode_padStart n) as Hn. rewrite Hpad, decode_padStart in Hn. congruence.
Qed.

Lemma ids_down_bound n k : In (expense_id k) (ids_down n) -> 1 <= k <= n.
Proof.
  induction n as [|n IH]; cbn [ids_down]; intros Hin.
  - destruct Hin.
  - destruct Hin as [Heq|Hin].
    + apply expense_id_inj in Heq. lia.
    + apply IH in Hin. lia.
Qed.

Lemma ids_down_In n x : In x (ids_down n) -> exists k, x = expense_id k /\ 1 <= k <= n.
Proof.
  induction n as [|n IH]; cbn [ids_down]; intros Hin.
  - destruct Hin.
  - destruct Hin as [<- | Hin].
    + exists (S n). split; [reflexivity|lia].
    + destruct (IH Hin) as (k & -> & Hk). exists k. split; [reflexivity|lia].
Qed.

Lemma ids_down_NoDup n : List.NoDup (ids_down n).
Proof.
  induction n as [|n IH]; cbn [ids_down]; constructor.
  - intros Hin. apply ids_down_bound in Hin. lia.
  - exact IH.
Qed.

Lemma ids_down_nth n i :
  i < n -> nth_error (ids_down n) i = Some (expense_id (n - i)).
Proof.
  revert i. induction n as [|n IH]; intros i Hi; [lia|].
  destruct i as [|i]; cbn [ids_down nth_error].
  - reflexivity.
  - rewrite IH by lia. reflexivity.
Qed.

(** *** The invariant *)

Lemma Inv_initial : Inv initialSystem.
Proof. split; cbn; try reflexivity; intros; discriminate. Qed.

(** Events that leave the list, the two busy flags and the selection alone. *)
Lemma Inv_with_page f s :
  (forall st, expenses (f st) = expenses st) ->
  (forall st, isValidating (f st) = isValidating st) ->
  (forall st, isProcessingApproval (f st) = isProcessingApproval st) ->
  (forall st, selectedExpense (f st) = selectedExpense st) ->
  Inv s -> Inv (with_page f s).
Proof.
  intros He Hv Hp Hs [I1 I2 I3 I4 I5 I6].
  split; cbn; rewrite ?He, ?Hv, ?Hp, ?Hs; assumption.
Qed.

Lemma Inv_select expense s :
  In expense (expenses (page s)) ->
  Inv s -> Inv (with_page (setSelectedExpense (Some expense)) s).
Proof.
  intros Hin [I1 I2 I3 I4 I5 I6]. split; cbn; try assumption.
  intros sel [= <-]. apply in_map. exact Hin.
Qed.

Lemma Inv_submit_begin s :
  Inv s ->
  Inv {| page := handleSubmitExpense_begin (page s);
         validating := Some (expenseData (page s), expenses (page s));
         deciding := deciding s |}.
Proof.
  intros [I1 I2 I3 I4 I5 I6]. split; cbn; try assumption.
  - intros d l [= _ <-]. reflexivity.
  - discriminate.
Qed.

Lemma Inv_submit_settle s expenseData closed call :
  validating s = Some (expenseData, closed) ->
  Inv s ->
  Inv {| page := fst (handleSubmitExpense_resume expenseData closed call (page s));
         validating := None;
         deciding := deciding s |}.
Proof.
  intros Hval [I1 I2 I3 I4 I5 I6].
  destruct (submit_resume_frame expenseData closed call (page s))
    as (Hv & Hp & Hs & _ & _ & Hexp).
  assert (Hids : forall x, In x (map Expense.id (expenses (page s))) ->
                 In x (map Expense.id
                         (expenses (fst (handleSubmitExpense_resume expenseData closed
                                           call (page s)))))).
  { destruct Hexp as [[-> _] | (r & vd & rec & _ & _ & _ & _ & -> & _)]; cbn; auto. }
  split; cbn.
  - destruct Hexp as [[-> _] | (r & vd & rec & _ & _ & _ & Hrec & -> & _)]; [exact I1|].
    apply newExpense_of_Normal in Hrec as (fr & vs & rl & _ & _ & _ & ->).
    cbn. rewrite I1, (I2 _ _ Hval), Nat.add_1_r. reflexivity.
  - discriminate.
  - reflexivity.
  - rewrite Hp. exact I4.
  - rewrite Hs. intros sel H. apply Hids, I5, H.
  - intros sel H. apply Hids, I6, H.
Qed.

Lemma Inv_decide_begin s sel :
  selectedExpense (page s) = Some sel ->
  Inv s ->
  Inv {| page := handleApprovalDecision_begin (page s);
         validating := validating s;
         deciding := Some sel |}.
Proof.
  intros Hsel [I1 I2 I3 I4 I5 I6]. split; cbn; try assumption.
  - discriminate.
  - intros sel' [= <-]. apply I5, Hsel.
Qed.

Lemma Inv_decide_settle s sel call :
  Inv s ->
  Inv {| page := fst (handleApprovalDecision_resume sel call (page s));
         validating := validating s;
         deciding := None |}.
Proof.
  intros [I1 I2 I3 I4 I5 I6].
  destruct (decision_resume_frame sel call (page s)) as (Hp & Hv & Hs & _ & Hids).
  assert (Hlen : length (expenses (fst (handleApprovalDecision_resume sel call (page s))))
                 = length (expenses (page s))).
  { rewrite <- (length_map Expense.id), Hids, length_map. reflexivity. }
  split; cbn.
  - rewrite Hids, Hlen. exact I1.
  - intros d l H. rewrite Hlen. eapply I2, H.
  - rewrite Hv. exact I3.
  - reflexivity.
  - rewrite Hs, Hids. exact I5.
  - discriminate.
Qed.

Lemma filteredExpenses_In st expense :
  In expense (filteredExpenses st) -> In expense (expenses st).
Proof. unfold filteredExpenses. intros H. apply filter_In in H. tauto. Qed.

Lemma pendingExpenses_In st expense :
  In expense (pendingExpenses st) -> In expense (expenses st).
Proof. unfold pendingExpenses. intros H. apply filter_In in H. tauto. Qed.

Lemma Inv_dispatch ev s s' : Inv s -> dispatch ev s = Some s' -> Inv s'.
Proof.
  intros HI. unfold dispatch.
  destruct (renderError (page s)); [discriminate|].
  destruct ev as [view|field value|option|index| |call|index|text|decision|call].
  - intros [= <-]. apply Inv_with_page; auto.
  - destruct (_ && _); [|discriminate]. intros [= <-]. apply Inv_with_page; auto.
  - destruct (_ && _); [|discriminate]. intros [= <-]. apply Inv_with_page; auto.
  - destruct (View_eqb _ _); [|discriminate].
    destruct (nth_error _ index) as [expense|] eqn:Hnth; [|discriminate].
    intros [= <-]. apply Inv_select; [|exact HI].
    eapply filteredExpenses_In, nth_error_In, Hnth.
  - destruct (_ && _); [|discriminate]. intros [= <-]. apply Inv_submit_begin, HI.
  - destruct (validating s) as [[d l]|] eqn:Hval; [|discriminate].
    intros [= <-]. apply Inv_submit_settle; assumption.
  - destruct (View_eqb _ _); [|discriminate].
    destruct (nth_error _ index) as [expense|] eqn:Hnth; [|discriminate].
    intros [= <-]. apply Inv_select; [|exact HI].
    eapply pendingExpenses_In, nth_error_In, Hnth.
  - destruct (selectedExpense (page s)); [|discriminate].
    destruct (View_eqb _ _); [|discriminate].
    intros [= <-]. apply Inv_with_page; auto.
  - destruct (selectedExpense (page s)) as [sel|] eqn:Hsel; [|discriminate].
    destruct (_ && _); [|discriminate]. intros [= <-].
    apply Inv_decide_begin; assumption.
  - destruct (deciding s) as [sel|] eqn:Hdec; [|discriminate].
    intros [= <-]. apply Inv_decide_settle, HI.
Qed.

Lemma Inv_run evs : forall s s', Inv s -> run evs s = Some s' -> Inv s'.
Proof.
  induction evs as [|ev evs IH]; intros s s' HI; cbn [run].
  - intros [= <-]. exact HI.
  - destruct (dispatch ev s) as [s1|] eqn:Hd; [|discriminate].
    apply IH. eapply Inv_dispatch; eassumption.
Qed.

Lemma Inv_reachable s : reachable s -> Inv s.
Proof. intros [evs H]. eapply Inv_run; [apply Inv_initial|exact H]. Qed.

(** *** The handlers as a whole

    When nothing happens between the click and the agent's answer, the two
    halves of a handler make up the handler of the source. *)

Lemma submit_uninterrupted s s1 call :
  dispatch ClickSubmit s = Some s1 ->
  exists s2,
    dispatch (CoordinatorSettles call) s1 = Some s2 /\
    page s2 = handleSubmitExpense call (page s).
Proof.
  unfold dispatch at 1. destruct (renderError (page s)) eqn:Hr; [discriminate|].
  destruct (_ && _); [|discriminate]. intros [= <-].
  unfold dispatch. cbn [page validating]. 
  replace (renderError (handleSubmitExpense_begin (page s))) with (renderError (page s))
    by reflexivity.
  rewrite Hr. eexists. split; reflexivity.
Qed.

Lemma decision_uninterrupted s s1 decision call :
  dispatch (ClickDecision decision) s = Some s1 ->
  exists s2,
    dispatch (ApprovalSettles call) s1 = Some s2 /\
    page s2 = handleApprovalDecision decision call (page s).
Proof.
  unfold dispatch at 1. destruct (renderError (page s)) eqn:Hr; [discriminate|].
  destruct (selectedExpense (page s)) as [sel|] eqn:Hsel; [|discriminate].
  destruct (_ && _); [|discriminate]. intros [= <-].
  unfold dispatch, handleApprovalDecision. cbn [page deciding]. rewrite Hsel.
  replace (renderError (handleApprovalDecision_begin (page s))) with (renderError (page s))
    by reflexivity.
  rewrite Hr. eexists. split; reflexivity.
Qed.

(** ** The claims *)

Lemma strict_eq_str_true v s : strict_eq_str v s = true <-> v = VStr s.
Proof.
  destruct v; cbn; try (split; [discriminate|congruence]).
  rewrite String.eqb_eq. split; congruence.
Qed.

Lemma strict_eq_str_false v s : strict_eq_str v s = false <-> v <> VStr s.
Proof.
  rewrite <- strict_eq_str_true. destruct (strict_eq_str v s); split; congruence.
Qed.

Lemma guard_true result :
  success result = true -> truthy (response result) = true ->
  success result && truthy (response result) = true.
Proof. intros -> ->. reflexivity. Qed.

(** C1.  When the coordinator's answer is successful (the call succeeded,
    the payload was located and its [validation_summary] can be read), the
    record stored for the submission has status "approved" for the
    recommendation AUTO_APPROVE, "reviewing" for MANAGER_REVIEW and
    "rejected" for anything else, and its riskScore is the payload's
    [validation_summary.risk_level]. *)
Theorem submission_status_and_risk :
  forall expenseData closed st result validationData
         final_recommendation validation_summary risk_level,
    success result = true ->
    truthy (response result) = true ->
    validationData_of (response result) = Normal validationData ->
    get_prop validationData "final_recommendation" = Normal final_recommendation ->
    get_prop validationData "validation_summary" = Normal validation_summary ->
    get_prop validation_summary "risk_level" = Normal risk_level ->
    exists newExpense,
      expenses (fst (handleSubmitExpense_resume expenseData closed (Fulfilled result) st))
      = newExpense :: expenses st /\
      (final_recommendation = VStr "AUTO_APPROVE" ->
       Expense.status newExpense = VStr "approved") /\
      (final_recommendation = VStr "MANAGER_REVIEW" ->
       Expense.status newExpense = VStr "reviewing") /\
      (final_recommendation <> VStr "AUTO_APPROVE" ->
       final_recommendation <> VStr "MANAGER_REVIEW" ->
       Expense.status newExpense = VStr "rejected") /\
      Expense.riskScore newExpense = risk_level.
Proof.
  intros d l st r vd fr vs rl Hs Ht Hvd Hfr Hvs Hrl.
  pose proof (newExpense_of_props d l vd fr vs rl Hfr Hvs Hrl) as Hrec.
  eexists. rewrite (submit_stored _ _ _ _ _ _ (guard_true _ Hs Ht) Hvd Hrec).
  cbn. split; [reflexivity|]. unfold status_of_recommendation.
  repeat split.
  - intros ->. reflexivity.
  - intros ->. reflexivity.
  - intros H1 H2. apply strict_eq_str_false in H1, H2. rewrite H1, H2. reflexivity.
Qed.

Lemma submission_status_and_risk_witness :
  exists newExpense,
    expenses (fst (handleSubmitExpense_resume Sample.form [] 
                     (Fulfilled Sample.coordinator_answer) initialState))
    = newExpense :: expenses initialState /\
    (VStr "AUTO_APPROVE" = VStr "AUTO_APPROVE" ->
     Expense.status newExpense = VStr "approved") /\
    (VStr "AUTO_APPROVE" = VStr "MANAGER_REVIEW" ->
     Expense.status newExpense = VStr "reviewing") /\
    (VStr "AUTO_APPROVE" <> VStr "AUTO_APPROVE" ->
     VStr "AUTO_APPROVE" <> VStr "MANAGER_REVIEW" ->
     Expense.status newExpense = VStr "rejected") /\
    Expense.riskScore newExpense = VStr "low".
Proof.
  apply (submission_status_and_risk Sample.form [] initialState Sample.coordinator_answer
           Sample.verdict (VStr "AUTO_APPROVE")
           (VObj [("risk_level", VStr "low")]) (VStr "low"));
    reflexivity.
Defined.

(** C8.  A successful submission puts the new record at index 0 of the
    list as it is when the coordinator answers; the records that were there
    follow, each one position further, unchanged. *)
Theorem submission_prepends :
  forall expenseData closed st result validationData newExpense,
    success result = true ->
    truthy (response result) = true ->
    validationData_of (response result) = Normal validationData ->
    newExpense_of expenseData closed validationData = Normal newExpense ->
    let st' := fst (handleSubmitExpense_resume expenseData closed (Fulfilled result) st) in
    expenses st' = newExpense :: expenses st /\
    nth_error (expenses st') 0 = Some newExpense /\
    (forall i, nth_error (expenses st') (S i) = nth_error (expenses st) i) /\
    length (expenses st') = S (length (expenses st)).
Proof.
  intros d l st r vd rec Hs Ht Hvd Hrec st'. subst st'.
  rewrite (submit_stored _ _ _ _ _ _ (guard_true _ Hs Ht) Hvd Hrec). cbn.
  repeat split; reflexivity.
Qed.

Lemma submission_prepends_witness :
  expenses (page Sample.stored) = [Sample.record] /\
  expenses (fst (handleSubmitExpense_resume Sample.form [Sample.record]
                   (Fulfilled Sample.coordinator_answer) (page Sample.stored)))
  = Sample.second_record :: expenses (page Sample.stored).
Proof.
  split; [vm_compute; reflexivity|].
  apply (submission_prepends Sample.form [Sample.record] (page Sample.stored)
           Sample.coordinator_answer Sample.verdict Sample.second_record);
    vm_compute; reflexivity.
Defined.

(** C10.  In every state the page can reach, no two records of the list
    share an identifier: the record at index [i] of a list of [n] records
    carries "EXP-2026-" followed by the zero-padded decimal of [n - i].
    While a submission waits for the coordinator the list keeps the length
    it had when Submit was clicked, so the record it stores gets the
    identifier built from the successor of the length the list has at that
    moment. *)
Theorem identifiers_distinct :
  forall s,
    reachable s ->
    List.NoDup (map Expense.id (expenses (page s))) /\
    (forall i exp,
        nth_error (expenses (page s)) i = Some exp ->
        Expense.id exp
        = ("EXP-2026-"
           ++ padStart 3 "0" (String_of_nat (length (expenses (page s)) - i)))%string) /\
    (forall expenseData closed,
        validating s = Some (expenseData, closed) ->
        length closed = length (expenses (page s))) /\
    (forall call s',
        dispatch (CoordinatorSettles call) s = Some s' ->
        expenses (page s') = expenses (page s) \/
        exists newExpense,
          expenses (page s') = newExpense :: expenses (page s) /\
          Expense.id newExpense
          = ("EXP-2026-"
             ++ padStart 3 "0" (String_of_nat (length (expenses (page s)) + 1)))%string).
Proof.
  intros s Hreach. pose proof (Inv_reachable s Hreach) as [I1 I2 I3 I4 I5 I6].
  split; [|split; [|split]].
  - rewrite I1. apply ids_down_NoDup.
  - intros i exp Hnth.
    assert (Hi : i < length (expenses (page s))).
    { apply nth_error_Some. congruence. }
    pose proof (map_nth_error Expense.id i (expenses (page s)) Hnth) as Hid.
    rewrite I1, ids_down_nth in Hid by exact Hi. injection Hid as <-. reflexivity.
  - exact I2.
  - intros call s'. unfold dispatch.
    destruct (renderError (page s)); [discriminate|].
    destruct (validating s) as [[d l]|] eqn:Hval; [|discriminate].
    intros [= <-]. cbn [page].
    destruct (submit_resume_frame d l call (page s))
      as (_ & _ & _ & _ & _ & [[-> _] | (r & vd & rec & _ & _ & _ & Hrec & -> & _)]).
    + left. reflexivity.
    + right. exists rec. split; [reflexivity|].
      apply newExpense_of_Normal in Hrec as (fr & vs & rl & _ & _ & _ & ->).
      cbn [Expense.id]. rewrite (I2 _ _ eq_refl). reflexivity.
Qed.

Lemma identifiers_distinct_witness :
  reachable Sample.stored /\
  map Expense.id (expenses (page Sample.stored)) = ["EXP-2026-001"] /\
  List.NoDup (map Expense.id (expenses (page Sample.stored))).
Proof.
  assert (H : reachable Sample.stored).
  { exists Sample.submitted. vm_compute. reflexivity. }
  split; [exact H|]. split; [vm_compute; reflexivity|].
  exact (proj1 (identifiers_distinct Sample.stored H)).
Defined.

(** A list whose identifiers are distinct splits around the one record
    that carries a given identifier. *)
Lemma split_at_id k (l : list ExpenseRecord) :
  List.NoDup (map Expense.id l) ->
  In k (map Expense.id l) ->
  exists before target after,
    l = before ++ target :: after /\
    Expense.id target = k /\
    Forall (fun exp => Expense.id exp <> k) (before ++ after).
Proof.
  induction l as [|a l IH]; cbn [map]; intros Hnd Hin; [destruct Hin|].
  inversion Hnd as [|? ? Hnotin Hnd']; subst.
  destruct (String.eqb_spec (Expense.id a) k) as [Heq|Hne].
  - exists [], a, l. repeat split; [exact Heq|].
    cbn. apply List.Forall_forall. intros x Hx Hxk. apply Hnotin.
    rewrite Heq, <- Hxk. apply in_map, Hx.
  - destruct Hin as [Heq|Hin]; [contradiction|].
    destruct (IH Hnd' Hin) as (before & target & after & -> & Hk & Hall).
    exists (a :: before), target, after. repeat split; [exact Hk|].
    cbn. constructor; assumption.
Qed.

Lemma overwrite_status_others k s (l : list ExpenseRecord) :
  Forall (fun exp => Expense.id exp <> k) l -> overwrite_status k s l = l.
Proof.
  unfold overwrite_status. induction 1 as [|a l Ha _ IH]; [reflexivity|].
  cbn [map]. rewrite IH. apply String.eqb_neq in Ha. rewrite Ha. reflexivity.
Qed.

Lemma overwrite_status_split k s before target after :
  Expense.id target = k ->
  Forall (fun exp => Expense.id exp <> k) (before ++ after) ->
  overwrite_status k s (before ++ target :: after)
  = before ++ Expense.with_status target s :: after.
Proof.
  intros Hk Hall. apply List.Forall_app in Hall as [Hb Ha].
  pose proof (overwrite_status_others k s before Hb) as Eb.
  pose proof (overwrite_status_others k s after Ha) as Ea.
  unfold overwrite_status in *. rewrite map_app. cbn [map].
  rewrite Eb, Ea. apply String.eqb_eq in Hk. rewrite Hk. reflexivity.
Qed.

(** C3.  In every state the page can reach with a decision pending on a
    selected record, a successful answer whose payload carries
    [expense_status] S rewrites the list at exactly one place: the one
    record whose identifier is the selected one gets status S, its other
    fields, all other records, and the length and order of the list stay
    as they were. *)
Theorem decision_overwrites_one_status :
  forall s selected result approvalData expense_status,
    reachable s ->
    deciding s = Some selected ->
    success result = true ->
    truthy (response result) = true ->
    approvalData_of (response result) = Normal approvalData ->
    get_prop approvalData "expense_status" = Normal expense_status ->
    exists before target after target',
      expenses (page s) = before ++ target :: after /\
      Expense.id target = Expense.id selected /\
      Forall (fun exp => Expense.id exp <> Expense.id selected) (before ++ after) /\
      expenses (fst (handleApprovalDecision_resume selected (Fulfilled result) (page s)))
      = before ++ target' :: after /\
      Expense.status target' = expense_status /\
      Expense.id target' = Expense.id target /\
      Expense.employee target' = Expense.employee target /\
      Expense.vendor target' = Expense.vendor target /\
      Expense.amount target' = Expense.amount target /\
      Expense.date target' = Expense.date target /\
      Expense.category target' = Expense.category target /\
      Expense.riskScore target' = Expense.riskScore target /\
      Expense.validationResult target' = Expense.validationResult target.
Proof.
  intros s sel r ad S Hreach Hdec Hs Ht Had HS.
  pose proof (Inv_reachable s Hreach) as [I1 I2 I3 I4 I5 I6].
  assert (Hnd : List.NoDup (map Expense.id (expenses (page s)))).
  { rewrite I1. apply ids_down_NoDup. }
  destruct (split_at_id _ _ Hnd (I6 _ Hdec)) as (before & target & after & Hl & Hk & Hall).
  exists before, target, after, (Expense.with_status target S).
  rewrite (decision_applied _ _ _ _ _ (guard_true _ Hs Ht) Had
             (status_updater_read _ _ _ _ HS)).
  cbn [expenses setIsProcessingApproval setManagerRationale putExpenses].
  rewrite Hl at 2. rewrite (overwrite_status_split _ _ _ _ _ Hk Hall).
  repeat split; assumption.
Qed.

Lemma decision_overwrites_one_status_witness :
  reachable Sample.decision_pending /\
  deciding Sample.decision_pending = Some Sample.record /\
  exists before target after target',
    expenses (page Sample.decision_pending) = before ++ target :: after /\
    Expense.id target = Expense.id Sample.record /\
    Forall (fun exp => Expense.id exp <> Expense.id Sample.record) (before ++ after) /\
    expenses (fst (handleApprovalDecision_resume Sample.record
                     (Fulfilled (Sample.approval_answer "rejected"))
                     (page Sample.decision_pending)))
    = before ++ target' :: after /\
    Expense.status target' = VStr "rejected" /\
    Expense.id target' = Expense.id target /\
    Expense.employee target' = Expense.employee target /\
    Expense.vendor target' = Expense.vendor target /\
    Expense.amount target' = Expense.amount target /\
    Expense.date target' = Expense.date target /\
    Expense.category target' = Expense.category target /\
    Expense.riskScore target' = Expense.riskScore target /\
    Expense.validationResult target' = Expense.validationResult target.
Proof.
  assert (H : reachable Sample.decision_pending).
  { exists Sample.rejecting. vm_compute. reflexivity. }
  split; [exact H|]. split; [vm_compute; reflexivity|].
  apply (decision_overwrites_one_status Sample.decision_pending Sample.record
           (Sample.approval_answer "rejected")
           (VObj [("expense_status", VStr "rejected")]) (VStr "rejected") H);
    vm_compute; reflexivity.
Defined.

Lemma overwrite_status_In k s (l : list ExpenseRecord) exp :
  In exp l ->
  (Expense.id exp <> k /\ In exp (overwrite_status k s l)) \/
  (Expense.id exp = k /\ In (Expense.with_status exp s) (overwrite_status k s l)).
Proof.
  intros Hin. unfold overwrite_status.
  destruct (String.eqb_spec (Expense.id exp) k) as [Heq|Hne].
  - right. split; [exact Heq|].
    apply in_map_iff. exists exp. apply String.eqb_eq in Heq. rewrite Heq. auto.
  - left. split; [exact Hne|].
    apply in_map_iff. exists exp. apply String.eqb_neq in Hne. rewrite Hne. auto.
Qed.

(** A settled decision keeps every record, except that a successful one
    rewrites the status of the records carrying the selected identifier. *)
Lemma decision_resume_records selected call st exp :
  In exp (expenses st) ->
  In exp (expenses (fst (handleApprovalDecision_resume selected call st))) \/
  exists result approvalData expense_status,
    call = Fulfilled result /\
    Expense.id exp = Expense.id selected /\
    success result = true /\
    approvalData_of (response result) = Normal approvalData /\
    get_prop approvalData "expense_status" = Normal expense_status /\
    In (Expense.with_status exp expense_status)
       (expenses (fst (handleApprovalDecision_resume selected call st))).
Proof.
  intros Hin. destruct call as [result|reason].
  - destruct (success result && truthy (response result)) eqn:Hok.
    + destruct (approvalData_of (response result)) as [ad|e] eqn:Had.
      * destruct (get_prop ad "expense_status") as [S|e] eqn:HS.
        -- rewrite (decision_applied _ _ _ _ _ Hok Had (status_updater_read _ _ _ _ HS)).
           cbn [expenses setIsProcessingApproval setManagerRationale putExpenses].
           destruct (overwrite_status_In (Expense.id selected) S _ _ Hin)
             as [[_ H]|[Hid H]]; [left; exact H|].
           right. exists result, ad, S. apply andb_true_iff in Hok as [Hs _]. auto 10.
        -- destruct (status_updater selected ad (expenses st)) as [next|e'] eqn:Hnext.
           ++ rewrite (decision_applied _ _ _ _ _ Hok Had Hnext).
              rewrite (status_updater_unread _ _ _ _ _ HS Hnext). left. exact Hin.
           ++ rewrite (decision_crashed _ _ _ _ _ Hok Had Hnext). left. exact Hin.
      * rewrite (decision_unlocated _ _ _ _ Hok Had). left. exact Hin.
    + rewrite (decision_refused _ _ _ Hok). left. exact Hin.
  - rewrite decision_rejected. left. exact Hin.
Qed.

(** C9, as the page behaves.  A record of the list changes only when a
    manager decision on the record with the same identifier is answered
    successfully with a payload whose [expense_status] can be read; it then
    takes that [expense_status], whatever its status was before.  Every
    other event keeps every record as it is. *)
Theorem status_changes_only_by_decision :
  forall s ev s' exp,
    dispatch ev s = Some s' ->
    In exp (expenses (page s)) ->
    In exp (expenses (page s')) \/
    exists result selected approvalData expense_status,
      ev = ApprovalSettles (Fulfilled result) /\
      deciding s = Some selected /\
      Expense.id exp = Expense.id selected /\
      success result = true /\
      approvalData_of (response result) = Normal approvalData /\
      get_prop approvalData "expense_status" = Normal expense_status /\
      In (Expense.with_status exp expense_status) (expenses (page s')).
Proof.
  intros s ev s' exp Hd Hin. unfold dispatch in Hd.
  destruct (renderError (page s)); [discriminate|].
  destruct ev as [view|field value|option|index| |call|index|text|decision|call].
  - injection Hd as <-. left. exact Hin.
  - destruct (_ && _); [|discriminate]. injection Hd as <-. left. exact Hin.
  - destruct (_ && _); [|discriminate]. injection Hd as <-. left. exact Hin.
  - destruct (View_eqb _ _); [|discriminate].
    destruct (nth_error _ index); [|discriminate]. injection Hd as <-. left. exact Hin.
  - destruct (_ && _); [|discriminate]. injection Hd as <-. left. exact Hin.
  - destruct (validating s) as [[d l]|]; [|discriminate]. injection Hd as <-. left.
    cbn [page].
    destruct (submit_resume_frame d l call (page s))
      as (_ & _ & _ & _ & _ & [[-> _] | (r & vd & rec & _ & _ & _ & _ & -> & _)]).
    + exact Hin.
    + right. exact Hin.
  - destruct (View_eqb _ _); [|discriminate].
    destruct (nth_error _ index); [|discriminate]. injection Hd as <-. left. exact Hin.
  - destruct (selectedExpense (page s)); [|discriminate].
    destruct (View_eqb _ _); [|discriminate]. injection Hd as <-. left. exact Hin.
  - destruct (selectedExpense (page s)); [|discriminate].
    destruct (_ && _); [|discriminate]. injection Hd as <-. left. exact Hin.
  - destruct (deciding s) as [sel|] eqn:Hdec; [|discriminate]. injection Hd as <-.
    cbn [page].
    destruct (decision_resume_records sel call (page s) exp Hin)
      as [H|(r & ad & S & -> & Hid & Hs & Had & HS & H)]; [left; exact H|].
    right. exists r, sel, ad, S. auto 10.
Qed.

Lemma status_changes_only_by_decision_witness :
  dispatch (ApprovalSettles (Fulfilled (Sample.approval_answer "rejected")))
    Sample.decision_pending
  = Some (Sample.after
            (Sample.rejecting
             ++ [ApprovalSettles (Fulfilled (Sample.approval_answer "rejected"))])) /\
  In Sample.record (expenses (page Sample.decision_pending)) /\
  (In Sample.record
      (expenses
         (page (Sample.after
                  (Sample.rejecting
                   ++ [ApprovalSettles (Fulfilled (Sample.approval_answer "rejected"))])))) \/
   exists result selected approvalData expense_status,
     ApprovalSettles (Fulfilled (Sample.approval_answer "rejected"))
     = ApprovalSettles (Fulfilled result) /\
     deciding Sample.decision_pending = Some selected /\
     Expense.id Sample.record = Expense.id selected /\
     success result = true /\
     approvalData_of (response result) = Normal approvalData /\
     get_prop approvalData "expense_status" = Normal expense_status /\
     In (Expense.with_status Sample.record expense_status)
        (expenses
           (page (Sample.after
                    (Sample.rejecting
                     ++ [ApprovalSettles
                           (Fulfilled (Sample.approval_answer "rejected"))]))))).
Proof.
  assert (Hd : dispatch (ApprovalSettles (Fulfilled (Sample.approval_answer "rejected")))
                 Sample.decision_pending
               = Some (Sample.after
                         (Sample.rejecting
                          ++ [ApprovalSettles
                                (Fulfilled (Sample.approval_answer "rejected"))]))).
  { vm_compute. reflexivity. }
  assert (Hin : In Sample.record (expenses (page Sample.decision_pending))).
  { vm_compute. left. reflexivity. }
  split; [exact Hd|]. split; [exact Hin|].
  exact (status_changes_only_by_decision _ _ _ _ Hd Hin).
Defined.

(** ** The two shapes of an envelope *)

Lemma unrecognized_throws envelope :
  unrecognized envelope ->
  validationData_of envelope = Throw (Error "Invalid response structure") /\
  approvalData_of envelope = Throw (Error "Invalid response structure").
Proof.
  intros (other & direct & Ho & Hs & Hd & Ht).
  unfold validationData_of, approvalData_of, bindC. rewrite Ho, Hd, Ht.
  destruct other; try discriminate; split; reflexivity.
Qed.

(** C2, as the page behaves.  When the envelope's [response] is a JSON
    text encoding an object whose [result] field R is truthy (any object or
    array, a non-empty string, a non-zero number, [true]), parsing the text
    and reading its [result] yields the same R as reading the [result] of
    an envelope that holds R directly, in the submission handler and in the
    decision handler alike. *)
Theorem two_pass_same_result :
  forall text fields other string_envelope direct_envelope,
    get_prop string_envelope "response" = Normal (VStr text) ->
    JSON.parse text = Normal (VObj fields) ->
    truthy (lookup_field "result" fields) = true ->
    get_prop direct_envelope "response" = Normal other ->
    is_string other = false ->
    get_prop direct_envelope "result" = Normal (lookup_field "result" fields) ->
    validationData_of string_envelope = Normal (lookup_field "result" fields) /\
    validationData_of direct_envelope = Normal (lookup_field "result" fields) /\
    approvalData_of string_envelope = Normal (lookup_field "result" fields) /\
    approvalData_of direct_envelope = Normal (lookup_field "result" fields).
Proof.
  intros text fields other es ed Hes Hparse Ht Hed Hs Hr.
  unfold validationData_of, approvalData_of, bindC.
  rewrite Hes, Hparse, Hed, Hr, Ht. cbn [get_prop].
  destruct other; try discriminate; repeat split; reflexivity.
Qed.

Lemma two_pass_same_result_witness :
  validationData_of (response Sample.coordinator_answer) = Normal Sample.verdict /\
  validationData_of (VObj [("result", Sample.verdict)]) = Normal Sample.verdict /\
  approvalData_of (response Sample.coordinator_answer) = Normal Sample.verdict /\
  approvalData_of (VObj [("result", Sample.verdict)]) = Normal Sample.verdict.
Proof.
  apply (two_pass_same_result Sample.verdict_text [("result", Sample.verdict)] VUndefined
           (response Sample.coordinator_answer) (VObj [("result", Sample.verdict)]));
    vm_compute; reflexivity.
Defined.

(** C2 as stated fails for a [result] that is [null]: read out of the JSON
    text it is handed on as the payload, held directly by the envelope it
    is refused as an invalid structure. *)
Lemma null_result_differs_by_shape :
  JSON.parse Sample.null_text = Normal (VObj [("result", VNull)]) /\
  get_prop Sample.null_in_text "response" = Normal (VStr Sample.null_text) /\
  get_prop Sample.null_direct "result" = Normal VNull /\
  validationData_of Sample.null_in_text = Normal VNull /\
  validationData_of Sample.null_direct = Throw (Error "Invalid response structure") /\
  approvalData_of Sample.null_in_text = Normal VNull /\
  approvalData_of Sample.null_direct = Throw (Error "Invalid response structure").
Proof. repeat split; vm_compute; reflexivity. Qed.

(** ** Failures *)

(** A decision attempt that fails inside the handler's [try] leaves the
    list, the rationale and every alert as they were: when the call
    reports failure nothing at all is recorded, when the payload has
    neither shape or locating it throws the error goes to the console and
    nowhere else.  The rationale changes only when the call succeeded and
    a payload was located, and is then empty.  The part of the handler
    that runs before the call only clears the previous decision's alert. *)
Lemma decision_failure_is_silent :
  forall selected call st,
    (forall result,
        call = Fulfilled result ->
        success result && truthy (response result) = false ->
        untouched st (fst (handleApprovalDecision_resume selected call st)) /\
        console (fst (handleApprovalDecision_resume selected call st)) = console st) /\
    (forall result,
        call = Fulfilled result ->
        success result && truthy (response result) = true ->
        unrecognized (response result) ->
        untouched st (fst (handleApprovalDecision_resume selected call st)) /\
        console (fst (handleApprovalDecision_resume selected call st))
        = console st ++ [Error "Invalid response structure"]) /\
    (forall e,
        (call = Rejected e \/
         exists result,
           call = Fulfilled result /\
           success result && truthy (response result) = true /\
           approvalData_of (response result) = Throw e) ->
        untouched st (fst (handleApprovalDecision_resume selected call st)) /\
        console (fst (handleApprovalDecision_resume selected call st)) = console st ++ [e]) /\
    (managerRationale (fst (handleApprovalDecision_resume selected call st))
     <> managerRationale st ->
     exists result approvalData,
       call = Fulfilled result /\
       success result = true /\
       truthy (response result) = true /\
       approvalData_of (response result) = Normal approvalData /\
       managerRationale (fst (handleApprovalDecision_resume selected call st)) = "") /\
    (expenses (handleApprovalDecision_begin st) = expenses st /\
     managerRationale (handleApprovalDecision_begin st) = managerRationale st /\
     validationError (handleApprovalDecision_begin st) = validationError st /\
     console (handleApprovalDecision_begin st) = console st /\
     approvalResult (handleApprovalDecision_begin st) = VNull).
Proof.
  intros sel call st. split; [|split; [|split; [|split]]].
  - intros r -> Hno. rewrite (decision_refused _ _ _ Hno). repeat split.
  - intros r -> Hok Hshape. apply unrecognized_throws in Hshape as [_ Hthrow].
    rewrite (decision_unlocated _ _ _ _ Hok Hthrow). repeat split.
  - intros e [->|(r & -> & Hok & Hthrow)].
    + rewrite decision_rejected. repeat split.
    + rewrite (decision_unlocated _ _ _ _ Hok Hthrow). repeat split.
  - intros Hchanged. destruct call as [result|reason].
    + destruct (success result && truthy (response result)) eqn:Hok.
      * destruct (approvalData_of (response result)) as [ad|e] eqn:Had.
        -- exists result, ad. apply andb_true_iff in Hok as [Hs Ht].
           repeat split; try assumption.
           destruct (status_updater sel ad (expenses st)) as [next|e] eqn:Hnext.
           ++ rewrite (decision_applied _ _ _ _ _ (guard_true _ Hs Ht) Had Hnext).
              reflexivity.
           ++ rewrite (decision_crashed _ _ _ _ _ (guard_true _ Hs Ht) Had Hnext).
              reflexivity.
        -- rewrite (decision_unlocated _ _ _ _ Hok Had) in Hchanged.
           exfalso. apply Hchanged. reflexivity.
      * rewrite (decision_refused _ _ _ Hok) in Hchanged.
        exfalso. apply Hchanged. reflexivity.
    + rewrite decision_rejected in Hchanged. exfalso. apply Hchanged. reflexivity.
  - repeat split.
Qed.

Lemma decision_failure_is_silent_witness :
  untouched (page Sample.decision_pending)
    (fst (handleApprovalDecision_resume Sample.record (Fulfilled Sample.shapeless)
            (page Sample.decision_pending))) /\
  console (fst (handleApprovalDecision_resume Sample.record (Fulfilled Sample.shapeless)
                  (page Sample.decision_pending)))
  = console (page Sample.decision_pending) ++ [Error "Invalid response structure"].
Proof.
  refine (proj1 (proj2 (decision_failure_is_silent Sample.record
                          (Fulfilled Sample.shapeless) (page Sample.decision_pending)))
            Sample.shapeless eq_refl eq_refl _).
  exists VUndefined, VUndefined. repeat split.
Defined.

(** C4 fails on the code.  The approval agent answers with a JSON text
    that has no [result]: the call succeeded and the text parses, so the
    payload is located, as [undefined].  Line 646 clears the rationale;
    the status is read off the payload only inside the update of the
    list, which throws a TypeError where the handler's [catch] does not
    reach: nothing is logged, the rationale is gone and the page is
    down. *)
Theorem resultless_answer_escapes_the_catch :
  reachable Scenario.approval_pending /\
  deciding Scenario.approval_pending
  = Some (Scenario.stored_record "MANAGER_REVIEW" "reviewing") /\
  managerRationale (page Scenario.approval_pending) = "valid per policy" /\
  success Scenario.resultless = true /\
  approvalData_of (response Scenario.resultless) = Normal VUndefined /\
  status_updater (Scenario.stored_record "MANAGER_REVIEW" "reviewing") VUndefined
    (expenses (page Scenario.approval_pending)) = Throw TypeError /\
  managerRationale
    (fst (handleApprovalDecision_resume (Scenario.stored_record "MANAGER_REVIEW" "reviewing")
            (Fulfilled Scenario.resultless) (page Scenario.approval_pending))) = "" /\
  renderError
    (fst (handleApprovalDecision_resume (Scenario.stored_record "MANAGER_REVIEW" "reviewing")
            (Fulfilled Scenario.resultless) (page Scenario.approval_pending)))
  = Some TypeError /\
  console
    (fst (handleApprovalDecision_resume (Scenario.stored_record "MANAGER_REVIEW" "reviewing")
            (Fulfilled Scenario.resultless) (page Scenario.approval_pending)))
  = console (page Scenario.approval_pending).
Proof.
  split; [exists Scenario.approving; vm_compute; reflexivity|].
  repeat split; vm_compute; reflexivity.
Qed.

Lemma error_or_shown error fallback :
  (forall e, error = Some e -> e <> "" -> error_or error fallback = e) /\
  (error = None \/ error = Some "" -> error_or error fallback = fallback).
Proof.
  split.
  - intros e -> He. cbn. apply String.eqb_neq in He. rewrite He. reflexivity.
  - intros [-> | ->]; reflexivity.
Qed.

(** C5, as the page behaves.  A call that reports failure, or brings no
    envelope, shows the call's error text when there is one that is not
    empty, and "Validation failed" otherwise.  A payload of neither shape
    raises the error "Invalid response structure"; the [catch] drops it
    and shows "Network error occurred", the text it shows too when the
    call itself rejects or when locating the payload throws.  In each of
    these cases the list is the one that was there. *)
Theorem submission_failure_kinds :
  forall form closed call st,
    (forall result,
        call = Fulfilled result ->
        success result = false \/ truthy (response result) = false ->
        expenses (fst (handleSubmitExpense_resume form closed call st)) = expenses st /\
        (forall text,
            error result = Some text ->
            text <> "" ->
            validationError (fst (handleSubmitExpense_resume form closed call st))
            = Some text) /\
        (error result = None \/ error result = Some "" ->
         validationError (fst (handleSubmitExpense_resume form closed call st))
         = Some "Validation failed")) /\
    (forall result,
        call = Fulfilled result ->
        success result && truthy (response result) = true ->
        unrecognized (response result) ->
        validationData_of (response result) = Throw (Error "Invalid response structure") /\
        expenses (fst (handleSubmitExpense_resume form closed call st)) = expenses st /\
        validationError (fst (handleSubmitExpense_resume form closed call st))
        = Some "Network error occurred") /\
    (forall e,
        (call = Rejected e \/
         exists result,
           call = Fulfilled result /\
           success result && truthy (response result) = true /\
           validationData_of (response result) = Throw e) ->
        expenses (fst (handleSubmitExpense_resume form closed call st)) = expenses st /\
        validationError (fst (handleSubmitExpense_resume form closed call st))
        = Some "Network error occurred").
Proof.
  intros d l call st. split; [|split].
  - intros r -> Hs. apply andb_false_iff in Hs.
    rewrite (submit_refused _ _ _ _ Hs). cbn [expenses validationError submission_failed
      setValidationStage setIsValidating setValidationError].
    destruct (error_or_shown (error r) "Validation failed") as [Hshown Hfallback].
    split; [reflexivity|]. split.
    + intros text Herr Hne. rewrite (Hshown text Herr Hne). reflexivity.
    + intros Hnone. rewrite (Hfallback Hnone). reflexivity.
  - intros r -> Hok Hshape. apply unrecognized_throws in Hshape as [Hthrow _].
    rewrite (submit_unlocated _ _ _ _ _ Hok Hthrow). repeat split. exact Hthrow.
  - intros e [->|(r & -> & Hok & Hthrow)].
    + rewrite submit_rejected. split; reflexivity.
    + rewrite (submit_unlocated _ _ _ _ _ Hok Hthrow). split; reflexivity.
Qed.

Lemma submission_failure_kinds_witness :
  validating Scenario.clicked = Some (Sample.form, []) /\
  error Sample.refusal = Some "Agent unavailable" /\
  validationError (fst (handleSubmitExpense_resume Sample.form [] (Fulfilled Sample.refusal)
                          (page Scenario.clicked)))
  = Some "Agent unavailable".
Proof.
  split; [vm_compute; reflexivity|]. split; [reflexivity|].
  refine (proj1 (proj2 (proj1 (submission_failure_kinds Sample.form []
                                 (Fulfilled Sample.refusal) (page Scenario.clicked))
                          Sample.refusal eq_refl (or_introl eq_refl)))
            "Agent unavailable" eq_refl _).
  discriminate.
Defined.

(** C5 as stated fails: the error raised for a payload of neither shape is
    not what the alert shows.  The form is filled, Submit is clicked and
    the coordinator answers with an envelope that has neither a text nor a
    [result]. *)
Lemma invalid_structure_error_is_not_shown :
  reachable Scenario.clicked /\
  validationData_of (response Sample.shapeless)
  = Throw (Error "Invalid response structure") /\
  exists s',
    dispatch (CoordinatorSettles (Fulfilled Sample.shapeless)) Scenario.clicked = Some s' /\
    validationError (page s') = Some "Network error occurred" /\
    validationError (page s') <> Some "Invalid response structure".
Proof.
  split; [exists (Scenario.fill_form ++ [ClickSubmit]); vm_compute; reflexivity|].
  split; [vm_compute; reflexivity|].
  eexists. split; [vm_compute; reflexivity|].
  split; [vm_compute; reflexivity|]. vm_compute. discriminate.
Qed.

(** ** The submit guard and the status filter *)

Lemma not_str_true s : not_str s = true <-> s = "".
Proof. unfold not_str. apply String.eqb_eq. Qed.

(** C6.  The submit button is disabled exactly when a validation is in
    flight or one of vendor, amount and date is the empty text; so it is
    enabled when the three are filled and nothing is in flight.  The
    category plays no part, and a disabled button offers no click. *)
Theorem submit_guard :
  forall st,
    (submit_disabled st = true <->
     isValidating st = true \/
     Form.vendor (expenseData st) = "" \/
     Form.amount (expenseData st) = "" \/
     Form.date (expenseData st) = "") /\
    (isValidating st = false ->
     Form.vendor (expenseData st) <> "" ->
     Form.amount (expenseData st) <> "" ->
     Form.date (expenseData st) <> "" ->
     submit_disabled st = false) /\
    (forall value,
        submit_disabled (handleExpenseDataChange "category" value st)
        = submit_disabled st) /\
    (forall s, page s = st -> submit_disabled st = true -> dispatch ClickSubmit s = None).
Proof.
  intros st.
  assert (Hiff : submit_disabled st = true <->
                 isValidating st = true \/
                 Form.vendor (expenseData st) = "" \/
                 Form.amount (expenseData st) = "" \/
                 Form.date (expenseData st) = "").
  { unfold submit_disabled. rewrite !orb_true_iff, !not_str_true. tauto. }
  split; [exact Hiff|]. split; [|split].
  - intros Hv H1 H2 H3. apply not_true_is_false. intros Hd.
    apply Hiff in Hd. destruct Hd as [Hd|[Hd|[Hd|Hd]]]; congruence.
  - intros value. reflexivity.
  - intros s <- Hd. unfold dispatch. rewrite Hd, andb_false_r.
    destruct (renderError (page s)); reflexivity.
Qed.

Lemma submit_guard_witness :
  submit_disabled (page Sample.filled) = false /\
  submit_disabled (page Sample.half_filled) = true /\
  dispatch ClickSubmit Sample.half_filled = None.
Proof.
  split; [|split].
  - apply (proj1 (proj2 (submit_guard (page Sample.filled)))); vm_compute; congruence.
  - apply (proj1 (submit_guard (page Sample.half_filled))).
    right. right. right. vm_compute. reflexivity.
  - apply (proj2 (proj2 (proj2 (submit_guard (page Sample.half_filled)))));
      vm_compute; reflexivity.
Defined.

Lemma filter_sublist {A} (p : A -> bool) (l : list A) : sublist (List.filter p l) l.
Proof.
  induction l as [|x l IH]; cbn [List.filter]; [constructor|].
  destruct (p x); constructor; exact IH.
Qed.

Lemma filter_greatest {A} (p : A -> bool) (k l : list A) :
  sublist k l -> Forall (fun x => p x = true) k -> sublist k (List.filter p l).
Proof.
  induction 1 as [|x k l _ IH|x k l _ IH]; intros Hall; cbn [List.filter].
  - constructor.
  - inversion Hall as [|? ? Hx Hk]; subst. rewrite Hx. constructor. apply IH, Hk.
  - destruct (p x); [constructor|]; apply IH, Hall.
Qed.

(** C7.  With a status chosen in the selector, the table shows exactly the
    records whose status is that text, in the order of the list: what is
    shown is a subsequence of the list, it holds a record precisely when
    the list holds it with that status, and every subsequence of the list
    made of such records is a subsequence of it.  With "all" chosen the
    table shows the list itself. *)
Theorem status_filter_exact :
  forall st chosen,
    (chosen <> "all" ->
     sublist (filteredExpenses (setStatusFilter chosen st)) (expenses st) /\
     (forall exp,
         In exp (filteredExpenses (setStatusFilter chosen st)) <->
         In exp (expenses st) /\ Expense.status exp = VStr chosen) /\
     (forall shown,
         sublist shown (expenses st) ->
         Forall (fun exp => Expense.status exp = VStr chosen) shown ->
         sublist shown (filteredExpenses (setStatusFilter chosen st)))) /\
    filteredExpenses (setStatusFilter "all" st) = expenses st.
Proof.
  intros st chosen. split.
  - intros Hne. apply String.eqb_neq in Hne.
    unfold filteredExpenses. cbn [statusFilter expenses setStatusFilter]. rewrite Hne.
    split; [apply filter_sublist|]. split.
    + intros exp. rewrite filter_In, strict_eq_str_true. reflexivity.
    + intros shown Hsub Hall. apply filter_greatest; [exact Hsub|].
      eapply List.Forall_impl; [|exact Hall].
      intros exp. apply strict_eq_str_true.
  - unfold filteredExpenses. cbn [statusFilter expenses setStatusFilter String.eqb].
    induction (expenses st) as [|exp l IH]; [reflexivity|].
    cbn [List.filter]. cbn. f_equal. exact IH.
Qed.

Lemma status_filter_exact_witness :
  sublist (filteredExpenses (setStatusFilter "approved" (page Sample.stored)))
          (expenses (page Sample.stored)) /\
  filteredExpenses (setStatusFilter "approved" (page Sample.stored)) = [Sample.record] /\
  filteredExpenses (setStatusFilter "rejected" (page Sample.stored)) = [].
Proof.
  split.
  - refine (proj1 (proj1 (status_filter_exact (page Sample.stored) "approved") _)).
    discriminate.
  - split; vm_compute; reflexivity.
Defined.

(** ** Further properties of the page *)

(** *** Cells the continuations leave alone *)

Lemma submit_resume_untouched form closed call st :
  let st' := fst (handleSubmitExpense_resume form closed call st) in
  currentView st' = currentView st /\
  expenseData st' = expenseData st /\
  statusFilter st' = statusFilter st /\
  approvalResult st' = approvalResult st /\
  console st' = console st /\
  validationStage st' = 5.
Proof.
  destruct call as [result|reason]; cbv zeta.
  - destruct (success result && truthy (response result)) eqn:Hok.
    + destruct (validationData_of (response result)) as [vd|e] eqn:Hvd.
      * destruct (newExpense_of form closed vd) as [rec|e] eqn:Hrec.
        -- rewrite (submit_stored _ _ _ _ _ _ Hok Hvd Hrec). repeat split.
        -- rewrite (submit_unbuilt _ _ _ _ _ _ Hok Hvd Hrec). repeat split.
      * rewrite (submit_unlocated _ _ _ _ _ Hok Hvd). repeat split.
    + rewrite (submit_refused _ _ _ _ Hok). repeat split.
  - rewrite submit_rejected. repeat split.
Qed.

Lemma decision_resume_untouched selected call st :
  let st' := fst (handleApprovalDecision_resume selected call st) in
  currentView st' = currentView st /\
  expenseData st' = expenseData st /\
  statusFilter st' = statusFilter st /\
  validationStage st' = validationStage st /\
  validationResult st' = validationResult st.
Proof.
  destruct call as [result|reason]; cbv zeta.
  - destruct (success result && truthy (response result)) eqn:Hok.
    + destruct (approvalData_of (response result)) as [ad|e] eqn:Had.
      * destruct (status_updater selected ad (expenses st)) as [next|e] eqn:Hnext.
        -- rewrite (decision_applied _ _ _ _ _ Hok Had Hnext). repeat split.
        -- rewrite (decision_crashed _ _ _ _ _ Hok Had Hnext). repeat split.
      * rewrite (decision_unlocated _ _ _ _ Hok Had). repeat split.
    + rewrite (decision_refused _ _ _ Hok). repeat split.
  - rewrite decision_rejected. repeat split.
Qed.

Lemma dispatch_alive ev s s' : dispatch ev s = Some s' -> renderError (page s) = None.
Proof. unfold dispatch. destruct (renderError (page s)); [discriminate|reflexivity]. Qed.

Lemma submit_click_inv s s1 :
  dispatch ClickSubmit s = Some s1 ->
  renderError (page s) = None /\
  currentView (page s) = employee /\
  submit_disabled (page s) = false /\
  s1 = {| page := handleSubmitExpense_begin (page s);
          validating := Some (expenseData (page s), expenses (page s));
          deciding := deciding s |}.
Proof.
  unfold dispatch. destruct (renderError (page s)); [discriminate|].
  destruct (View_eqb (currentView (page s)) employee) eqn:Hv; [|discriminate].
  destruct (submit_disabled (page s)); [discriminate|]. intros [= <-].
  repeat split. destruct (currentView (page s)); try discriminate. reflexivity.
Qed.

Lemma submit_settle_inv call s s' :
  dispatch (CoordinatorSettles call) s = Some s' ->
  exists form closed,
    validating s = Some (form, closed) /\
    s' = {| page := fst (handleSubmitExpense_resume form closed call (page s));
            validating := None;
            deciding := deciding s |}.
Proof.
  unfold dispatch. destruct (renderError (page s)); [discriminate|].
  destruct (validating s) as [[d l]|]; [|discriminate]. intros [= <-].
  exists d, l. split; reflexivity.
Qed.

Lemma decision_click_inv decision s s1 :
  dispatch (ClickDecision decision) s = Some s1 ->
  exists sel,
    selectedExpense (page s) = Some sel /\
    currentView (page s) = manager /\
    decision_disabled (page s) = false /\
    s1 = {| page := handleApprovalDecision_begin (page s);
            validating := validating s;
            deciding := Some sel |}.
Proof.
  unfold dispatch. destruct (renderError (page s)); [discriminate|].
  destruct (selectedExpense (page s)) as [sel|]; [|discriminate].
  destruct (View_eqb (currentView (page s)) manager) eqn:Hv; [|discriminate].
  destruct (decision_disabled (page s)); [discriminate|]. intros [= <-].
  exists sel. repeat split. destruct (currentView (page s)); try discriminate. reflexivity.
Qed.

Lemma decision_settle_inv call s s' :
  dispatch (ApprovalSettles call) s = Some s' ->
  exists sel,
    deciding s = Some sel /\
    s' = {| page := fst (handleApprovalDecision_resume sel call (page s));
            validating := validating s;
            deciding := None |}.
Proof.
  unfold dispatch. destruct (renderError (page s)); [discriminate|].
  destruct (deciding s) as [sel|]; [|discriminate]. intros [= <-].
  exists sel. split; reflexivity.
Qed.

(** X1.  While a submission waits for the coordinator the page offers no
    second click on Submit: at most one submission is ever in flight. *)
Theorem one_submission_in_flight :
  forall s,
    reachable s ->
    validating s <> None ->
    isValidating (page s) = true /\
    submit_disabled (page s) = true /\
    dispatch ClickSubmit s = None.
Proof.
  intros s Hreach Hpending.
  pose proof (Inv_reachable s Hreach) as [_ _ I3 _ _ _].
  assert (Hv : isValidating (page s) = true).
  { destruct (isValidating (page s)); [reflexivity|]. exfalso. apply Hpending, I3.
    reflexivity. }
  assert (Hd : submit_disabled (page s) = true).
  { unfold submit_disabled. rewrite Hv. reflexivity. }
  repeat split; [exact Hv|exact Hd|].
  unfold dispatch. rewrite Hd, andb_false_r. destruct (renderError (page s)); reflexivity.
Qed.

Lemma one_submission_in_flight_witness :
  isValidating (page Scenario.clicked) = true /\
  submit_disabled (page Scenario.clicked) = true /\
  dispatch ClickSubmit Scenario.clicked = None.
Proof.
  apply (one_submission_in_flight Scenario.clicked).
  - exists (Scenario.fill_form ++ [ClickSubmit]). vm_compute. reflexivity.
  - vm_compute. discriminate.
Defined.

(** X2.  While a decision waits for the approval agent the page offers no
    click on Approve or Reject: at most one decision is ever in flight. *)
Theorem one_decision_in_flight :
  forall s decision,
    reachable s ->
    deciding s <> None ->
    isProcessingApproval (page s) = true /\
    decision_disabled (page s) = true /\
    dispatch (ClickDecision decision) s = None.
Proof.
  intros s decision Hreach Hpending.
  pose proof (Inv_reachable s Hreach) as [_ _ _ I4 _ _].
  assert (Hp : isProcessingApproval (page s) = true).
  { destruct (isProcessingApproval (page s)); [reflexivity|]. exfalso.
    apply Hpending, I4. reflexivity. }
  assert (Hd : decision_disabled (page s) = true).
  { unfold decision_disabled. rewrite Hp. reflexivity. }
  repeat split; [exact Hp|exact Hd|].
  unfold dispatch. rewrite Hd, andb_false_r.
  destruct (renderError (page s)); [reflexivity|].
  destruct (selectedExpense (page s)); reflexivity.
Qed.

Lemma one_decision_in_flight_witness :
  isProcessingApproval (page Scenario.approval_pending) = true /\
  decision_disabled (page Scenario.approval_pending) = true /\
  dispatch (ClickDecision reject) Scenario.approval_pending = None.
Proof.
  apply (one_decision_in_flight Scenario.approval_pending reject).
  - exists Scenario.approving. vm_compute. reflexivity.
  - vm_compute. discriminate.
Defined.

(** Until the coordinator answers, nothing the user does changes what the
    suspended submission closed over. *)
Lemma pending_submission_step ev s s' closure :
  isValidating (page s) = true ->
  validating s = Some closure ->
  (forall call, ev <> CoordinatorSettles call) ->
  dispatch ev s = Some s' ->
  isValidating (page s') = true /\
  validating s' = Some closure /\
  expenses (page s') = expenses (page s) \/
  isValidating (page s') = true /\
  validating s' = Some closure /\
  exists call, ev = ApprovalSettles call.
Proof.
  intros Hv Hc Hev. unfold dispatch.
  destruct (renderError (page s)); [discriminate|].
  destruct ev as [view|field value|option|index| |call|index|text|decision|call].
  - intros [= <-]. left. auto.
  - destruct (_ && _); [|discriminate]. intros [= <-]. left. auto.
  - destruct (_ && _); [|discriminate]. intros [= <-]. left. auto.
  - destruct (View_eqb _ _); [|discriminate].
    destruct (nth_error _ index); [|discriminate]. intros [= <-]. left. auto.
  - unfold submit_disabled. rewrite Hv, andb_false_r. discriminate.
  - exfalso. apply (Hev call). reflexivity.
  - destruct (View_eqb _ _); [|discriminate].
    destruct (nth_error _ index); [|discriminate]. intros [= <-]. left. auto.
  - destruct (selectedExpense (page s)); [|discriminate].
    destruct (View_eqb _ _); [|discriminate]. intros [= <-]. left. auto.
  - destruct (selectedExpense (page s)); [|discriminate].
    destruct (_ && _); [|discriminate]. intros [= <-]. left. auto.
  - destruct (deciding s) as [sel|]; [|discriminate]. intros [= <-]. right.
    cbn [page validating].
    destruct (decision_resume_frame sel call (page s)) as (_ & -> & _).
    eauto.
Qed.

Lemma pending_submission_run evs : forall s s' closure,
  isValidating (page s) = true ->
  validating s = Some closure ->
  (forall call, ~ In (CoordinatorSettles call) evs) ->
  run evs s = Some s' ->
  isValidating (page s') = true /\ validating s' = Some closure.
Proof.
  induction evs as [|ev evs IH]; intros s s' closure Hv Hc Hno; cbn [run].
  - intros [= <-]. auto.
  - destruct (dispatch ev s) as [s1|] eqn:Hd; [|discriminate].
    assert (Hev : forall call, ev <> CoordinatorSettles call).
    { intros call ->. apply (Hno call). left. reflexivity. }
    assert (H1 : isValidating (page s1) = true /\ validating s1 = Some closure).
    { destruct (pending_submission_step ev s s1 closure Hv Hc Hev Hd)
        as [(? & ? & _)|(? & ? & _)]; auto. }
    destruct H1 as [Hv1 Hc1]. apply (IH s1 s' closure Hv1 Hc1).
    intros call Hin. apply (Hno call). right. exact Hin.
Qed.

(** X3.  A record carries the form as it stood when Submit was clicked:
    whatever is typed, selected or decided while the coordinator works
    does not reach it. *)
Theorem record_keeps_form_as_clicked :
  forall s s1 evs s2 call s3,
    dispatch ClickSubmit s = Some s1 ->
    run evs s1 = Some s2 ->
    (forall answer, ~ In (CoordinatorSettles answer) evs) ->
    dispatch (CoordinatorSettles call) s2 = Some s3 ->
    expenses (page s3) = expenses (page s2) \/
    exists newExpense,
      expenses (page s3) = newExpense :: expenses (page s2) /\
      Expense.vendor newExpense = Form.vendor (expenseData (page s)) /\
      Expense.amount newExpense = parseFloat (Form.amount (expenseData (page s))) /\
      Expense.date newExpense = Form.date (expenseData (page s)) /\
      Expense.category newExpense = Form.category (expenseData (page s)).
Proof.
  intros s s1 evs s2 call s3 Hclick Hrun Hno Hsettle.
  apply submit_click_inv in Hclick as (_ & _ & _ & ->).
  assert (Hc : validating s2 = Some (expenseData (page s), expenses (page s))).
  { eapply pending_submission_run; [| |exact Hno|exact Hrun]; reflexivity. }
  apply submit_settle_inv in Hsettle as (d & l & Hc' & ->).
  rewrite Hc in Hc'. injection Hc' as <- <-. cbn [page].
  destruct (submit_resume_frame (expenseData (page s)) (expenses (page s)) call (page s2))
    as (_ & _ & _ & _ & _ & [[-> _] | (r & vd & rec & _ & _ & _ & Hrec & -> & _)]).
  - left. reflexivity.
  - right. exists rec. split; [reflexivity|].
    apply newExpense_of_Normal in Hrec as (fr & vs & rl & _ & _ & _ & ->).
    repeat split.
Qed.

Lemma record_keeps_form_as_clicked_witness :
  expenses (page (Sample.after
                    (Scenario.fill_form
                     ++ [ClickSubmit; ChangeField "vendor" "Hotel"; Navigate manager;
                         CoordinatorSettles (Fulfilled (Scenario.coordinator "AUTO_APPROVE"))])))
  = expenses (page (Sample.after
                      (Scenario.fill_form
                       ++ [ClickSubmit; ChangeField "vendor" "Hotel"; Navigate manager]))) \/
  exists newExpense,
    expenses (page (Sample.after
                      (Scenario.fill_form
                       ++ [ClickSubmit; ChangeField "vendor" "Hotel"; Navigate manager;
                           CoordinatorSettles
                             (Fulfilled (Scenario.coordinator "AUTO_APPROVE"))])))
    = newExpense
      :: expenses (page (Sample.after
                           (Scenario.fill_form
                            ++ [ClickSubmit; ChangeField "vendor" "Hotel";
                                Navigate manager]))) /\
    Expense.vendor newExpense = Form.vendor (expenseData (page Sample.filled)) /\
    Expense.amount newExpense = parseFloat (Form.amount (expenseData (page Sample.filled))) /\
    Expense.date newExpense = Form.date (expenseData (page Sample.filled)) /\
    Expense.category newExpense = Form.category (expenseData (page Sample.filled)).
Proof.
  apply (record_keeps_form_as_clicked Sample.filled Scenario.clicked
           [ChangeField "vendor" "Hotel"; Navigate manager]
           (Sample.after (Scenario.fill_form
                          ++ [ClickSubmit; ChangeField "vendor" "Hotel"; Navigate manager]))
           (Fulfilled (Scenario.coordinator "AUTO_APPROVE"))).
  - vm_compute. reflexivity.
  - vm_compute. reflexivity.
  - intros answer [H|[H|[]]]; discriminate.
  - vm_compute. reflexivity.
Defined.

Lemma list_not_longer_than_itself {A} (x : A) (l : list A) : l <> x :: l.
Proof. intros H. apply (f_equal (@length A)) in H. cbn in H. lia. Qed.

(** X4.  A successful submission does not reset the form: once the
    coordinator has answered, the Submit button is enabled again over the
    same four texts, and submitting them again with the same verdict
    stores a second record that differs from the first in its identifier
    only. *)
Theorem resubmission_duplicates :
  forall s s1 result s2 first,
    dispatch ClickSubmit s = Some s1 ->
    dispatch (CoordinatorSettles (Fulfilled result)) s1 = Some s2 ->
    expenses (page s2) = first :: expenses (page s) ->
    expenseData (page s2) = expenseData (page s) /\
    submit_disabled (page s2) = false /\
    forall s3 s4,
      dispatch ClickSubmit s2 = Some s3 ->
      dispatch (CoordinatorSettles (Fulfilled result)) s3 = Some s4 ->
      exists second,
        expenses (page s4) = second :: first :: expenses (page s) /\
        same_but_id first second /\
        Expense.id first <> Expense.id second.
Proof.
  intros s s1 result s2 first Hclick Hsettle Hfirst.
  apply submit_click_inv in Hclick as (_ & _ & Hen & ->).
  apply submit_settle_inv in Hsettle as (d & l & [= <- <-] & ->).
  cbn [page] in *.
  set (st1 := handleSubmitExpense_begin (page s)) in *.
  pose proof (submit_resume_frame (expenseData (page s)) (expenses (page s))
                (Fulfilled result) st1) as (Hv & _ & _ & _ & _ & Hcases).
  pose proof (submit_resume_untouched (expenseData (page s)) (expenses (page s))
                (Fulfilled result) st1) as (_ & Hform & _).
  cbv zeta in *. change (expenses st1) with (expenses (page s)) in Hcases.
  change (expenseData st1) with (expenseData (page s)) in Hform.
  destruct Hcases as [[Hsame _] | (r & vd & rec & [= <-] & Hok & Hvd & Hrec & Hl & _)].
  { rewrite Hsame in Hfirst. exfalso. eapply list_not_longer_than_itself, Hfirst. }
  rewrite Hl in Hfirst. injection Hfirst as ->.
  split; [exact Hform|]. split.
  { unfold submit_disabled in *. rewrite Hv, Hform.
    destruct (isValidating (page s)); [discriminate|exact Hen]. }
  intros s3 s4 Hclick2 Hsettle2.
  apply submit_click_inv in Hclick2 as (_ & _ & _ & ->).
  apply submit_settle_inv in Hsettle2 as (d & l & [= <- <-] & ->).
  cbn [page]. rewrite Hform, Hl.
  apply newExpense_of_Normal in Hrec as (fr & vs & rl & Hfr & Hvs & Hrl & Heq).
  pose proof (newExpense_of_props (expenseData (page s)) (first :: expenses (page s))
                vd fr vs rl Hfr Hvs Hrl) as Hrec2.
  eexists. rewrite (submit_stored _ _ _ _ _ _ Hok Hvd Hrec2).
  cbn [expenses setValidationStage setIsValidating putExpenses].
  split; [|split].
  - f_equal. exact Hl.
  - rewrite Heq. repeat split.
  - rewrite Heq. cbn [Expense.id length]. intros H. apply expense_id_inj in H. lia.
Qed.

Lemma resubmission_duplicates_witness :
  expenseData (page (Sample.after
                       (Scenario.fill_form
                        ++ [ClickSubmit;
                            CoordinatorSettles
                              (Fulfilled (Scenario.coordinator "AUTO_APPROVE"))])))
  = expenseData (page Sample.filled) /\
  submit_disabled (page (Sample.after
                           (Scenario.fill_form
                            ++ [ClickSubmit;
                                CoordinatorSettles
                                  (Fulfilled (Scenario.coordinator "AUTO_APPROVE"))])))
  = false.
Proof.
  refine (let H := resubmission_duplicates Sample.filled Scenario.clicked
                     (Scenario.coordinator "AUTO_APPROVE")
                     (Sample.after
                        (Scenario.fill_form
                         ++ [ClickSubmit;
                             CoordinatorSettles
                               (Fulfilled (Scenario.coordinator "AUTO_APPROVE"))]))
                     (Scenario.stored_record "AUTO_APPROVE" "approved")
                     _ _ _ in conj (proj1 H) (proj1 (proj2 H)));
    vm_compute; reflexivity.
Defined.

(** X5.  Once a decision has been applied the rationale is empty, so both
    decision buttons are disabled: no further decision can be sent before
    a new rationale is typed. *)
Theorem applied_decision_needs_new_rationale :
  forall s result approvalData expense_status s' decision,
    dispatch (ApprovalSettles (Fulfilled result)) s = Some s' ->
    success result = true ->
    truthy (response result) = true ->
    approvalData_of (response result) = Normal approvalData ->
    get_prop approvalData "expense_status" = Normal expense_status ->
    managerRationale (page s') = "" /\
    decision_disabled (page s') = true /\
    dispatch (ClickDecision decision) s' = None.
Proof.
  intros s r ad S s' decision Hsettle Hs Ht Had HS.
  apply decision_settle_inv in Hsettle as (sel & _ & ->). cbn [page].
  assert (Hr : managerRationale
                 (fst (handleApprovalDecision_resume sel (Fulfilled r) (page s))) = "").
  { rewrite (decision_applied _ _ _ _ _ (guard_true _ Hs Ht) Had
               (status_updater_read _ _ _ _ HS)).
    reflexivity. }
  assert (Hd : decision_disabled
                 (fst (handleApprovalDecision_resume sel (Fulfilled r) (page s))) = true).
  { unfold decision_disabled. rewrite Hr. apply orb_true_r. }
  split; [exact Hr|]. split; [exact Hd|].
  unfold dispatch. cbn [page]. rewrite Hd, andb_false_r.
  destruct (renderError _); [reflexivity|]. destruct (selectedExpense _); reflexivity.
Qed.

Lemma applied_decision_needs_new_rationale_witness :
  managerRationale
    (page (Sample.after
             (Scenario.approving ++ [ApprovalSettles (Fulfilled (Scenario.approval "approved"))])))
  = "" /\
  decision_disabled
    (page (Sample.after
             (Scenario.approving ++ [ApprovalSettles (Fulfilled (Scenario.approval "approved"))])))
  = true /\
  dispatch (ClickDecision reject)
    (Sample.after
       (Scenario.approving ++ [ApprovalSettles (Fulfilled (Scenario.approval "approved"))]))
  = None.
Proof.
  apply (applied_decision_needs_new_rationale Scenario.approval_pending
           (Scenario.approval "approved") (Scenario.approval_payload "approved")
           (VStr "approved"));
    vm_compute; reflexivity.
Defined.

(** X6.  A decision that fails keeps the rationale, the selection and the
    list, and leaves both decision buttons enabled: the manager can send
    the same decision again at once. *)
Theorem failed_decision_can_be_repeated :
  forall s decision s1 call s2,
    dispatch (ClickDecision decision) s = Some s1 ->
    dispatch (ApprovalSettles call) s1 = Some s2 ->
    decision_fails call ->
    managerRationale (page s2) = managerRationale (page s) /\
    selectedExpense (page s2) = selectedExpense (page s) /\
    expenses (page s2) = expenses (page s) /\
    currentView (page s2) = manager /\
    decision_disabled (page s2) = false.
Proof.
  intros s decision s1 call s2 Hclick Hsettle Hfail.
  apply decision_click_inv in Hclick as (sel & Hsel & Hview & Hen & ->).
  apply decision_settle_inv in Hsettle as (sel' & [= <-] & ->). cbn [page].
  assert (Hst : fst (handleApprovalDecision_resume sel call
                       (handleApprovalDecision_begin (page s)))
                = setIsProcessingApproval false (handleApprovalDecision_begin (page s)) \/
                exists e,
                  fst (handleApprovalDecision_resume sel call
                         (handleApprovalDecision_begin (page s)))
                  = decision_logged e (handleApprovalDecision_begin (page s))).
  { destruct call as [r|reason]; cbn [decision_fails] in Hfail.
    - destruct (success r && truthy (response r)) eqn:Hok.
      + destruct Hfail as [Hno|[e He]]; [discriminate|].
        right. exists e. apply decision_unlocated; assumption.
      + left. apply decision_refused. exact Hok.
    - right. exists reason. apply decision_rejected. }
  unfold decision_disabled in *. apply orb_false_iff in Hen as [_ Hrat].
  destruct Hst as [-> | [e ->]]; cbn; auto.
Qed.

Lemma failed_decision_can_be_repeated_witness :
  managerRationale
    (page (Sample.after (Scenario.approving ++ [ApprovalSettles (Fulfilled Sample.refusal)])))
  = "valid per policy" /\
  decision_disabled
    (page (Sample.after (Scenario.approving ++ [ApprovalSettles (Fulfilled Sample.refusal)])))
  = false.
Proof.
  assert (H1 : dispatch (ClickDecision approve)
                 (Sample.after
                    (Scenario.to_review
                     ++ [Navigate manager; ClickQueued 0; TypeRationale "valid per policy"]))
               = Some Scenario.approval_pending) by (vm_compute; reflexivity).
  assert (H2 : dispatch (ApprovalSettles (Fulfilled Sample.refusal)) Scenario.approval_pending
               = Some (Sample.after
                         (Scenario.approving
                          ++ [ApprovalSettles (Fulfilled Sample.refusal)])))
    by (vm_compute; reflexivity).
  assert (H3 : decision_fails (Fulfilled Sample.refusal)) by (left; reflexivity).
  destruct (failed_decision_can_be_repeated _ _ _ _ _ H1 H2 H3) as (Hr & _ & _ & _ & Hd).
  split; [|exact Hd]. rewrite Hr. vm_compute. reflexivity.
Defined.

(** *** The review queue *)

Lemma awaits_review_true status :
  awaits_review status = true <-> status = VStr "reviewing" \/ status = VStr "pending".
Proof. unfold awaits_review. rewrite orb_true_iff, !strict_eq_str_true. reflexivity. Qed.

Lemma pendingExpenses_filter st :
  pendingExpenses st
  = List.filter (fun exp => awaits_review (Expense.status exp)) (expenses st).
Proof. reflexivity. Qed.

(** X7.  A stored record enters the review queue, at its head, exactly
    when the coordinator recommended MANAGER_REVIEW; any other
    recommendation leaves the queue as it was. *)
Theorem submission_feeds_queue :
  forall form closed st result validationData newExpense final_recommendation,
    success result = true ->
    truthy (response result) = true ->
    validationData_of (response result) = Normal validationData ->
    newExpense_of form closed validationData = Normal newExpense ->
    get_prop validationData "final_recommendation" = Normal final_recommendation ->
    (final_recommendation = VStr "MANAGER_REVIEW" ->
     pendingExpenses (fst (handleSubmitExpense_resume form closed (Fulfilled result) st))
     = newExpense :: pendingExpenses st) /\
    (final_recommendation <> VStr "MANAGER_REVIEW" ->
     pendingExpenses (fst (handleSubmitExpense_resume form closed (Fulfilled result) st))
     = pendingExpenses st).
Proof.
  intros form closed st r vd rec fr Hs Ht Hvd Hrec Hfr.
  rewrite (submit_stored _ _ _ _ _ _ (guard_true _ Hs Ht) Hvd Hrec).
  rewrite !pendingExpenses_filter.
  cbn [expenses setValidationStage setIsValidating putExpenses List.filter].
  apply newExpense_of_Normal in Hrec as (fr' & vs & rl & Hfr' & _ & _ & ->).
  rewrite Hfr in Hfr'. injection Hfr' as <-. cbn [Expense.status].
  unfold status_of_recommendation. split.
  - intros ->. reflexivity.
  - intros Hne. apply strict_eq_str_false in Hne. rewrite Hne.
    destruct (strict_eq_str fr "AUTO_APPROVE"); reflexivity.
Qed.

Lemma submission_feeds_queue_witness :
  pendingExpenses
    (fst (handleSubmitExpense_resume Sample.form []
            (Fulfilled (Scenario.coordinator "MANAGER_REVIEW")) initialState))
  = Scenario.stored_record "MANAGER_REVIEW" "reviewing" :: pendingExpenses initialState.
Proof.
  refine (proj1 (submission_feeds_queue Sample.form [] initialState
                   (Scenario.coordinator "MANAGER_REVIEW")
                   (Scenario.verdict "MANAGER_REVIEW") _ (VStr "MANAGER_REVIEW")
                   eq_refl eq_refl eq_refl _ eq_refl) eq_refl).
  vm_compute. reflexivity.
Defined.

Lemma filter_others_id k (p : ExpenseRecord -> bool) (l : list ExpenseRecord) :
  Forall (fun exp => Expense.id exp <> k) l ->
  List.filter (fun exp => negb (String.eqb (Expense.id exp) k)) (List.filter p l)
  = List.filter p l.
Proof.
  induction 1 as [|a l Ha _ IH]; [reflexivity|].
  cbn [List.filter]. destruct (p a); [|exact IH].
  cbn [List.filter]. apply String.eqb_neq in Ha. rewrite Ha. cbn. f_equal. exact IH.
Qed.

(** X8.  In every state the page can reach, a decision answered with a
    status other than "reviewing" and "pending" takes the decided record,
    and no other, out of the review queue: the queue keeps its other cards
    in order, and is one shorter when the record was queued. *)
Theorem decision_leaves_queue :
  forall s selected result approvalData expense_status,
    reachable s ->
    deciding s = Some selected ->
    success result = true ->
    truthy (response result) = true ->
    approvalData_of (response result) = Normal approvalData ->
    get_prop approvalData "expense_status" = Normal expense_status ->
    awaits_review expense_status = false ->
    pendingExpenses (fst (handleApprovalDecision_resume selected (Fulfilled result) (page s)))
    = List.filter (fun exp => negb (String.eqb (Expense.id exp) (Expense.id selected)))
        (pendingExpenses (page s)) /\
    (In (Expense.id selected) (map Expense.id (pendingExpenses (page s))) ->
     S (length (pendingExpenses
                  (fst (handleApprovalDecision_resume selected (Fulfilled result) (page s)))))
     = length (pendingExpenses (page s))).
Proof.
  intros s sel r ad S Hreach Hdec Hs Ht Had HS Hout.
  pose proof (Inv_reachable s Hreach) as [I1 _ _ _ _ I6].
  assert (Hnd : List.NoDup (map Expense.id (expenses (page s)))).
  { rewrite I1. apply ids_down_NoDup. }
  destruct (split_at_id _ _ Hnd (I6 _ Hdec)) as (before & target & after & Hl & Hk & Hall).
  rewrite (decision_applied _ _ _ _ _ (guard_true _ Hs Ht) Had
             (status_updater_read _ _ _ _ HS)).
  rewrite !pendingExpenses_filter.
  cbn [expenses setIsProcessingApproval setManagerRationale putExpenses].
  rewrite Hl, (overwrite_status_split _ _ _ _ _ Hk Hall).
  pose proof Hall as Hall'. apply List.Forall_app in Hall' as [Hb Ha].
  rewrite !List.filter_app. cbn [List.filter Expense.status Expense.with_status].
  rewrite Hout.
  assert (Hkeep : List.filter
                    (fun exp => negb (String.eqb (Expense.id exp) (Expense.id sel)))
                    (if awaits_review (Expense.status target) then
                       target :: List.filter (fun exp => awaits_review (Expense.status exp))
                                   after
                     else List.filter (fun exp => awaits_review (Expense.status exp)) after)
                  = List.filter (fun exp => awaits_review (Expense.status exp)) after).
  { destruct (awaits_review (Expense.status target)); cbn [List.filter].
    - apply String.eqb_eq in Hk. rewrite Hk. cbn. apply filter_others_id, Ha.
    - apply filter_others_id, Ha. }
  split.
  - rewrite filter_others_id by exact Hb. rewrite Hkeep. reflexivity.
  - intros Hin. rewrite !length_app.
    destruct (awaits_review (Expense.status target)) eqn:Htarget.
    + cbn [length]. lia.
    + exfalso. rewrite List.map_app in Hin. apply in_app_or in Hin.
      assert (Hno : forall l, Forall (fun exp => Expense.id exp <> Expense.id sel) l ->
                    ~ In (Expense.id sel)
                        (map Expense.id
                           (List.filter (fun exp => awaits_review (Expense.status exp)) l))).
      { intros l Hf Hi. apply in_map_iff in Hi as (x & Hx & Hxin).
        apply filter_In in Hxin as [Hxin _].
        rewrite List.Forall_forall in Hf. exact (Hf x Hxin Hx). }
      destruct Hin as [Hin|Hin]; [exact (Hno _ Hb Hin)|exact (Hno _ Ha Hin)].
Qed.

Lemma decision_leaves_queue_witness :
  pendingExpenses
    (fst (handleApprovalDecision_resume
            (Scenario.stored_record "MANAGER_REVIEW" "reviewing")
            (Fulfilled (Scenario.approval "approved")) (page Scenario.approval_pending)))
  = [] /\
  length (pendingExpenses (page Scenario.approval_pending)) = 1.
Proof.
  assert (Hreach : reachable Scenario.approval_pending).
  { exists Scenario.approving. vm_compute. reflexivity. }
  destruct (decision_leaves_queue Scenario.approval_pending
              (Scenario.stored_record "MANAGER_REVIEW" "reviewing")
              (Scenario.approval "approved") (Scenario.approval_payload "approved")
              (VStr "approved") Hreach eq_refl eq_refl eq_refl eq_refl eq_refl eq_refl)
    as [H _].
  split; [|vm_compute; reflexivity].
  rewrite H. vm_compute. reflexivity.
Defined.

Lemma filter_two_tests {A} (p q : A -> bool) (l : list A) :
  (forall x, p x && q x = false) ->
  length (List.filter (fun x => p x || q x) l)
  = length (List.filter p l) + length (List.filter q l).
Proof.
  intros Hex. induction l as [|x l IH]; [reflexivity|].
  cbn [List.filter]. specialize (Hex x).
  destruct (p x), (q x); cbn [orb length]; try discriminate; lia.
Qed.

(** X9.  The review queue is the part of the list the table shows under
    "Reviewing" and under "Pending" taken together: it is a subsequence of
    the list, it holds exactly the records with one of the two statuses,
    and the count on the navigation badge is the sum of the two table
    counts. *)
Theorem queue_is_reviewing_and_pending :
  forall st,
    sublist (pendingExpenses st) (expenses st) /\
    (forall exp,
        In exp (pendingExpenses st) <->
        In exp (expenses st) /\
        (Expense.status exp = VStr "reviewing" \/ Expense.status exp = VStr "pending")) /\
    length (pendingExpenses st)
    = length (filteredExpenses (setStatusFilter "reviewing" st))
      + length (filteredExpenses (setStatusFilter "pending" st)).
Proof.
  intros st. split; [|split].
  - apply filter_sublist.
  - intros exp. rewrite pendingExpenses_filter, filter_In, awaits_review_true. reflexivity.
  - unfold pendingExpenses, filteredExpenses.
    cbn [statusFilter expenses setStatusFilter].
    change (String.eqb "reviewing" "all") with false.
    change (String.eqb "pending" "all") with false. cbv iota.
    apply (filter_two_tests (fun e => strict_eq_str (Expense.status e) "reviewing")
             (fun e => strict_eq_str (Expense.status e) "pending")).
    intros x. destruct (Expense.status x); try reflexivity. cbn [strict_eq_str].
    destruct (String.eqb_spec s "reviewing") as [->|]; reflexivity.
Qed.

(** *** What records look like, and the stage counter *)

Lemma with_status_from_submission exp s :
  from_submission exp -> from_submission (Expense.with_status exp s).
Proof. intros H. exact H. Qed.

Lemma from_submission_truthy exp :
  from_submission exp -> truthy (Expense.validationResult exp) = true.
Proof.
  intros (_ & vs & Hvs & Hrl).
  destruct (Expense.validationResult exp); cbn in Hvs; try discriminate;
    try (injection Hvs as <-; discriminate).
  reflexivity.
Qed.

(** Every record a settled decision leaves in the list was there before,
    possibly with another status. *)
Lemma decision_resume_origin selected call st exp :
  In exp (expenses (fst (handleApprovalDecision_resume selected call st))) ->
  exists old, In old (expenses st) /\
              (exp = old \/ exists s, exp = Expense.with_status old s).
Proof.
  intros Hin. destruct call as [result|reason].
  - destruct (success result && truthy (response result)) eqn:Hok.
    + destruct (approvalData_of (response result)) as [ad|e] eqn:Had.
      * destruct (status_updater selected ad (expenses st)) as [next|e] eqn:Hnext.
        -- rewrite (decision_applied _ _ _ _ _ Hok Had Hnext) in Hin.
           cbn [expenses setIsProcessingApproval setManagerRationale putExpenses] in Hin.
           destruct (get_prop ad "expense_status") as [S|e] eqn:HS.
           ++ rewrite (status_updater_read _ _ _ _ HS) in Hnext. injection Hnext as <-.
              unfold overwrite_status in Hin. apply in_map_iff in Hin as (old & Heq & Hold).
              exists old. split; [exact Hold|].
              destruct (String.eqb _ _); [right; exists S|left]; congruence.
           ++ rewrite (status_updater_unread _ _ _ _ _ HS Hnext) in Hin. eauto.
        -- rewrite (decision_crashed _ _ _ _ _ Hok Had Hnext) in Hin. eauto.
      * rewrite (decision_unlocated _ _ _ _ Hok Had) in Hin. eauto.
    + rewrite (decision_refused _ _ _ Hok) in Hin. eauto.
  - rewrite decision_rejected in Hin. eauto.
Qed.

Lemma Kept_initial : Kept initialSystem.
Proof. split; cbn; [constructor|discriminate|discriminate]. Qed.

Lemma Kept_with_page f s :
  (forall st, expenses (f st) = expenses st) ->
  (forall st, selectedExpense (f st) = selectedExpense st) ->
  (forall st, isValidating (f st) = isValidating st) ->
  (forall st, validationStage (f st) = validationStage st) ->
  Kept s -> Kept (with_page f s).
Proof.
  intros He Hs Hv Hg [K1 K2 K3]. split; cbn; rewrite ?He, ?Hs, ?Hv, ?Hg; assumption.
Qed.

Lemma Kept_select expense s :
  In expense (expenses (page s)) ->
  Kept s -> Kept (with_page (setSelectedExpense (Some expense)) s).
Proof.
  intros Hin [K1 K2 K3]. split; cbn; try assumption.
  intros sel [= <-]. rewrite List.Forall_forall in K1. apply K1, Hin.
Qed.

Lemma Kept_dispatch ev s s' : Kept s -> dispatch ev s = Some s' -> Kept s'.
Proof.
  intros HK. unfold dispatch.
  destruct (renderError (page s)); [discriminate|].
  destruct ev as [view|field value|option|index| |call|index|text|decision|call].
  - intros [= <-]. apply Kept_with_page; auto.
  - destruct (_ && _); [|discriminate]. intros [= <-]. apply Kept_with_page; auto.
  - destruct (_ && _); [|discriminate]. intros [= <-]. apply Kept_with_page; auto.
  - destruct (View_eqb _ _); [|discriminate].
    destruct (nth_error _ index) as [expense|] eqn:Hnth; [|discriminate].
    intros [= <-]. apply Kept_select; [|exact HK].
    eapply filteredExpenses_In, nth_error_In, Hnth.
  - destruct (_ && _); [|discriminate]. intros [= <-].
    destruct HK as [K1 K2 K3]. split; cbn; try assumption. intros _. lia.
  - destruct (validating s) as [[d l]|] eqn:Hval; [|discriminate].
    intros [= <-]. destruct HK as [K1 K2 K3].
    destruct (submit_resume_frame d l call (page s)) as (Hv & _ & Hs & _ & _ & Hexp).
    split; cbn [page].
    + destruct Hexp as [[-> _] | (r & vd & rec & _ & _ & _ & Hrec & -> & _)];
        [exact K1|].
      constructor; [|exact K1].
      apply newExpense_of_Normal in Hrec as (fr & vs & rl & _ & Hvs & Hrl & ->).
      split; [reflexivity|]. exists vs. split; assumption.
    + rewrite Hs. exact K2.
    + rewrite Hv. discriminate.
  - destruct (View_eqb _ _); [|discriminate].
    destruct (nth_error _ index) as [expense|] eqn:Hnth; [|discriminate].
    intros [= <-]. apply Kept_select; [|exact HK].
    eapply pendingExpenses_In, nth_error_In, Hnth.
  - destruct (selectedExpense (page s)); [|discriminate].
    destruct (View_eqb _ _); [|discriminate].
    intros [= <-]. apply Kept_with_page; auto.
  - destruct (selectedExpense (page s)) as [sel|] eqn:Hsel; [|discriminate].
    destruct (_ && _); [|discriminate]. intros [= <-].
    destruct HK as [K1 K2 K3]. split; cbn; assumption.
  - destruct (deciding s) as [sel|] eqn:Hdec; [|discriminate].
    intros [= <-]. destruct HK as [K1 K2 K3].
    destruct (decision_resume_frame sel call (page s)) as (_ & Hv & Hs & _ & _).
    destruct (decision_resume_untouched sel call (page s)) as (_ & _ & _ & Hg & _).
    split; cbn [page].
    + apply List.Forall_forall. intros exp Hin.
      apply decision_resume_origin in Hin as (old & Hold & Heq).
      rewrite List.Forall_forall in K1. specialize (K1 old Hold).
      destruct Heq as [->|[S ->]]; [exact K1|].
      apply with_status_from_submission, K1.
    + rewrite Hs. exact K2.
    + rewrite Hv, Hg. exact K3.
Qed.

Lemma Kept_run evs : forall s s', Kept s -> run evs s = Some s' -> Kept s'.
Proof.
  induction evs as [|ev evs IH]; intros s s' HK; cbn [run].
  - intros [= <-]. exact HK.
  - destruct (dispatch ev s) as [s1|] eqn:Hd; [|discriminate].
    apply IH. eapply Kept_dispatch; eassumption.
Qed.

Lemma Kept_reachable s : reachable s -> Kept s.
Proof. intros [evs H]. eapply Kept_run; [apply Kept_initial|exact H]. Qed.

(** X10.  In every state the page can reach, each record of the list, and
    the selected record, names "Current User" as employee and carries the
    coordinator's payload, whose [validation_summary.risk_level] is the
    record's risk; the test of line 1020 is therefore true for it, and the
    branch of the notice "No validation data available for this expense"
    is never the one taken.  What the other branch needs of the payload
    to draw its tabs is not stated here. *)
Theorem records_have_a_validation_result :
  forall s,
    reachable s ->
    (forall exp,
        In exp (expenses (page s)) ->
        from_submission exp /\ has_validationResult exp = true) /\
    (forall selected,
        selectedExpense (page s) = Some selected ->
        from_submission selected /\ has_validationResult selected = true).
Proof.
  intros s Hreach. pose proof (Kept_reachable s Hreach) as [K1 K2 _].
  rewrite List.Forall_forall in K1. split.
  - intros exp Hin. split; [apply K1, Hin|]. apply from_submission_truthy, K1, Hin.
  - intros sel Hsel. split; [apply K2, Hsel|]. apply from_submission_truthy, K2, Hsel.
Qed.

Lemma records_have_a_validation_result_witness :
  selectedExpense (page Scenario.approval_pending)
  = Some (Scenario.stored_record "MANAGER_REVIEW" "reviewing") /\
  from_submission (Scenario.stored_record "MANAGER_REVIEW" "reviewing") /\
  has_validationResult (Scenario.stored_record "MANAGER_REVIEW" "reviewing") = true.
Proof.
  assert (Hreach : reachable Scenario.approval_pending).
  { exists Scenario.approving. vm_compute. reflexivity. }
  assert (Hsel : selectedExpense (page Scenario.approval_pending)
                 = Some (Scenario.stored_record "MANAGER_REVIEW" "reviewing")).
  { vm_compute. reflexivity. }
  split; [exact Hsel|].
  exact (proj2 (records_have_a_validation_result Scenario.approval_pending Hreach) _ Hsel).
Defined.

(** *** The selection *)

Lemma filter_id_count k (l : list ExpenseRecord) :
  List.NoDup (map Expense.id l) ->
  In k (map Expense.id l) ->
  length (List.filter (fun exp => String.eqb k (Expense.id exp)) l) = 1.
Proof.
  intros Hnd Hin.
  destruct (split_at_id k l Hnd Hin) as (before & target & after & -> & Hk & Hall).
  apply List.Forall_app in Hall as [Hb Ha].
  assert (Hnone : forall m, Forall (fun exp => Expense.id exp <> k) m ->
                            List.filter (fun exp => String.eqb k (Expense.id exp)) m = []).
  { induction 1 as [|a m Hne _ IH]; [reflexivity|]. cbn [List.filter].
    destruct (String.eqb_spec k (Expense.id a)) as [Heq|_]; [|exact IH].
    exfalso. apply Hne. symmetry. exact Heq. }
  rewrite List.filter_app. cbn [List.filter].
  rewrite (Hnone before Hb), (Hnone after Ha).
  symmetry in Hk. apply String.eqb_eq in Hk. rewrite Hk. reflexivity.
Qed.

Lemma filter_filter_length {A} (p q : A -> bool) (l : list A) :
  length (List.filter q (List.filter p l)) <= length (List.filter q l).
Proof.
  induction l as [|x l IH]; [reflexivity|]. cbn [List.filter].
  destruct (p x); cbn [List.filter]; destruct (q x); cbn [length]; lia.
Qed.

Lemma filter_none {A} (l : list A) : List.filter (fun _ => false) l = [].
Proof. induction l as [|x l IH]; [reflexivity|exact IH]. Qed.

(** X11.  In every state the page can reach, a selection never dangles
    and is never ambiguous: exactly one record of the list has the
    selected identifier, so the table and the queue each draw at most one
    entry as selected, and none when nothing is selected. *)
Theorem one_entry_drawn_selected :
  forall s,
    reachable s ->
    (forall selected,
        selectedExpense (page s) = Some selected ->
        length (List.filter (isSelected (page s)) (expenses (page s))) = 1) /\
    (selectedExpense (page s) = None ->
     List.filter (isSelected (page s)) (expenses (page s)) = []) /\
    length (List.filter (isSelected (page s)) (filteredExpenses (page s))) <= 1 /\
    length (List.filter (isSelected (page s)) (pendingExpenses (page s))) <= 1.
Proof.
  intros s Hreach. pose proof (Inv_reachable s Hreach) as [I1 _ _ _ I5 _].
  assert (Hnd : List.NoDup (map Expense.id (expenses (page s)))).
  { rewrite I1. apply ids_down_NoDup. }
  assert (Hall : length (List.filter (isSelected (page s)) (expenses (page s))) <= 1).
  { unfold isSelected. destruct (selectedExpense (page s)) as [sel|] eqn:Hsel.
    - rewrite (filter_id_count _ _ Hnd (I5 _ eq_refl)). lia.
    - rewrite filter_none. cbn. lia. }
  split; [|split; [|split]].
  - intros sel Hsel. unfold isSelected. rewrite Hsel.
    apply (filter_id_count _ _ Hnd (I5 _ Hsel)).
  - intros Hsel. unfold isSelected. rewrite Hsel. apply filter_none.
  - unfold filteredExpenses. etransitivity; [apply filter_filter_length|exact Hall].
  - unfold pendingExpenses. etransitivity; [apply filter_filter_length|exact Hall].
Qed.

Lemma one_entry_drawn_selected_witness :
  reachable Scenario.approval_pending /\
  length (List.filter (isSelected (page Scenario.approval_pending))
            (expenses (page Scenario.approval_pending))) = 1.
Proof.
  assert (Hreach : reachable Scenario.approval_pending).
  { exists Scenario.approving. vm_compute. reflexivity. }
  split; [exact Hreach|].
  refine (proj1 (one_entry_drawn_selected Scenario.approval_pending Hreach)
            (Scenario.stored_record "MANAGER_REVIEW" "reviewing") _).
  vm_compute. reflexivity.
Defined.

(** *** The progress card *)

Lemma paced_run_app evs1 : forall evs2 t,
  paced_run (evs1 ++ evs2) t
  = match paced_run evs1 t with
    | Some t' => paced_run evs2 t'
    | None => None
    end.
Proof.
  induction evs1 as [|ev evs1 IH]; intros evs2 t; cbn [paced_run app].
  - reflexivity.
  - destruct (pace ev t); [apply IH|reflexivity].
Qed.

(** The five rounds, one after the other, are [handleSubmitExpense_begin]. *)
Lemma rounds_fold st :
  fold_left (fun st i => setValidationStage i st) (seq 1 4) (handleSubmitExpense_enter st)
  = handleSubmitExpense_begin st.
Proof. reflexivity. Qed.

(** Run without anything in between, an event and its timers do to the
    paced system what the event does to the system. *)
Lemma pace_with_timers ev s s' :
  dispatch ev s = Some s' ->
  paced_run (with_timers ev) {| system := s; round := None |}
  = Some {| system := s'; round := None |}.
Proof.
  intros Hd.
  assert (Herr : renderError (page s) = None).
  { unfold dispatch in Hd. destruct (renderError (page s)); [discriminate|reflexivity]. }
  destruct ev; cbn [with_timers paced_run]; unfold pace; cbn [system round];
    rewrite Herr; try (rewrite Hd; reflexivity).
  unfold dispatch in Hd. rewrite Herr in Hd.
  destruct (_ && _); [|discriminate]. injection Hd as <-.
  do 5 (cbn [repeat rounds paced_run]; unfold pace; cbn; rewrite Herr).
  reflexivity.
Qed.

Lemma paced_of_run evs : forall s s',
  run evs s = Some s' ->
  paced_run (flat_map with_timers evs) {| system := s; round := None |}
  = Some {| system := s'; round := None |}.
Proof.
  induction evs as [|ev evs IH]; intros s s'; cbn [run flat_map].
  - intros [= <-]. reflexivity.
  - destruct (dispatch ev s) as [s1|] eqn:Hd; [|discriminate].
    intros Hrun. rewrite paced_run_app, (pace_with_timers _ _ _ Hd). apply IH, Hrun.
Qed.

(** Every system the page reaches is reached with its timers too. *)
Lemma paced_of_reachable s :
  reachable s -> paced_reachable {| system := s; round := None |}.
Proof. intros [evs H]. exists (flat_map with_timers evs). apply paced_of_run, H. Qed.

Lemma dispatch_keeps_stage ev s s' :
  dispatch ev s = Some s' ->
  ev <> ClickSubmit ->
  (forall call, ev <> CoordinatorSettles call) ->
  isValidating (page s') = isValidating (page s) /\
  validationStage (page s') = validationStage (page s).
Proof.
  unfold dispatch. destruct (renderError (page s)); [discriminate|].
  destruct ev as [view|field value|option|index| |call|index|text|decision|call];
    intros H Hclick Hsettle.
  - injection H as <-. split; reflexivity.
  - destruct (_ && _); [|discriminate]. injection H as <-. split; reflexivity.
  - destruct (_ && _); [|discriminate]. injection H as <-. split; reflexivity.
  - destruct (View_eqb _ _); [|discriminate].
    destruct (nth_error _ index); [|discriminate]. injection H as <-. split; reflexivity.
  - contradiction.
  - exfalso. exact (Hsettle call eq_refl).
  - destruct (View_eqb _ _); [|discriminate].
    destruct (nth_error _ index); [|discriminate]. injection H as <-. split; reflexivity.
  - destruct (selectedExpense (page s)); [|discriminate].
    destruct (View_eqb _ _); [|discriminate]. injection H as <-. split; reflexivity.
  - destruct (selectedExpense (page s)); [|discriminate].
    destruct (_ && _); [|discriminate]. injection H as <-. split; reflexivity.
  - destruct (deciding s) as [sel|]; [|discriminate]. injection H as <-.
    destruct (decision_resume_frame sel call (page s)) as (_ & Hv & _).
    destruct (decision_resume_untouched sel call (page s)) as (_ & _ & _ & Hg & _).
    split; cbn [page]; assumption.
Qed.

Lemma Paced_kept_other ev t s' :
  Paced_kept t ->
  dispatch ev (system t) = Some s' ->
  ev <> ClickSubmit ->
  (forall call, ev <> CoordinatorSettles call) ->
  Paced_kept {| system := s'; round := round t |}.
Proof.
  intros [HK Hround] Hd Hclick Hsettle. split; cbn [system round].
  - eapply Kept_dispatch; eassumption.
  - intros i Hi. destruct (dispatch_keeps_stage _ _ _ Hd Hclick Hsettle) as [-> ->].
    apply Hround, Hi.
Qed.

Lemma Paced_kept_pace ev t t' : Paced_kept t -> pace ev t = Some t' -> Paced_kept t'.
Proof.
  intros HP. unfold pace.
  destruct (renderError (page (system t))) eqn:Herr; [discriminate|].
  destruct ev as [ev|].
  - destruct ev as [view|field value|option|index| |call|index|text|decision|call].
    5: { destruct (_ && _); [|discriminate]. intros [= <-].
         destruct HP as [[K1 K2 K3] _]. split; cbn [system round].
         - split; cbn; try assumption. intros _. lia.
         - intros i [= <-]. unfold rounds. repeat split. lia. }
    5: { destruct (round t) eqn:Hr; [discriminate|].
         destruct (dispatch _ _) as [s'|] eqn:Hd; [|discriminate]. intros [= <-].
         split; cbn [system round]; [|discriminate].
         eapply Kept_dispatch; [apply HP|exact Hd]. }
    all: destruct (dispatch _ _) as [s'|] eqn:Hd; [|discriminate]; intros [= <-];
      eapply Paced_kept_other; [exact HP|exact Hd|discriminate|discriminate].
  - destruct (round t) as [i|] eqn:Hr; [|discriminate].
    destruct HP as [[K1 K2 K3] Hround]. destruct (Hround i Hr) as (Hi & Hv & Hg).
    destruct (S i <? rounds)%nat eqn:Hlt; intros [= <-].
    + apply Nat.ltb_lt in Hlt. split; cbn [system round].
      * split; cbn; try assumption. intros _. exact Hlt.
      * intros k [= <-]. repeat split; [exact Hlt|exact Hv].
    + split; cbn [system round]; [|discriminate]. split; assumption.
Qed.

Lemma Paced_kept_run evs : forall t t',
  Paced_kept t -> paced_run evs t = Some t' -> Paced_kept t'.
Proof.
  induction evs as [|ev evs IH]; intros t t' HP; cbn [paced_run].
  - intros [= <-]. exact HP.
  - destruct (pace ev t) as [t1|] eqn:Hp; [|discriminate].
    apply IH. eapply Paced_kept_pace; eassumption.
Qed.

Lemma Paced_kept_reachable t : paced_reachable t -> Paced_kept t.
Proof.
  intros [evs H]. eapply Paced_kept_run; [|exact H].
  split; [apply Kept_initial|discriminate].
Qed.

(** X12.  For a stage below five the progress card draws the rows before
    the stage as complete, the row of the stage as the only active one and
    the rows after it as waiting; from five on all five rows are complete.
    With the five timers of a submission as steps of their own: in every
    state the page can reach the card is on screen only with a stage below
    five, so it always has exactly one active row; while the timer of a
    round runs the card is on screen at that round; and each of the five
    stages is one at which the card is seen. *)
Theorem progress_has_one_active_row :
  (forall stage,
      stage < 5 ->
      map snd (ValidationProgress stage)
      = repeat complete stage ++ active :: repeat waiting (4 - stage)) /\
  (forall stage,
      5 <= stage -> map snd (ValidationProgress stage) = repeat complete 5) /\
  (forall stage, map fst (ValidationProgress stage) = stages) /\
  (forall t,
      paced_reachable t ->
      isValidating (page (system t)) = true ->
      validationStage (page (system t)) < 5) /\
  (forall t i,
      paced_reachable t ->
      round t = Some i ->
      isValidating (page (system t)) = true /\
      validationStage (page (system t)) = i /\
      i < 5) /\
  (forall stage,
      stage < 5 ->
      exists t,
        paced_reachable t /\
        isValidating (page (system t)) = true /\
        validationStage (page (system t)) = stage).
Proof.
  split; [|split; [|split; [|split; [|split]]]].
  - intros stage H.
    do 5 (destruct stage as [|stage]; [reflexivity|]). lia.
  - intros stage H.
    do 5 (destruct stage as [|stage]; [lia|]). reflexivity.
  - intros stage. reflexivity.
  - intros t Hreach. apply (Paced_kept_reachable t Hreach).
  - intros t i Hreach Hr.
    destruct (proj2 (Paced_kept_reachable t Hreach) i Hr) as (Hi & Hv & Hg).
    repeat split; assumption.
  - intros stage H.
    assert (Hrun : exists t,
               paced_run (map Occurs Scenario.fill_form ++ Occurs ClickSubmit
                            :: repeat TimerEnds stage) initialPaced = Some t /\
               isValidating (page (system t)) = true /\
               validationStage (page (system t)) = stage).
    { do 5 (destruct stage as [|stage];
            [eexists; split; [vm_compute; reflexivity|split; vm_compute; reflexivity]|]).
      lia. }
    destruct Hrun as (t & Hrun & Hv & Hg). exists t. split; [|split; assumption].
    eexists. exact Hrun.
Qed.

Lemma progress_has_one_active_row_witness :
  exists t,
    paced_run (map Occurs Scenario.fill_form ++ [Occurs ClickSubmit; TimerEnds; TimerEnds])
      initialPaced = Some t /\
    round t = Some 2 /\
    isValidating (page (system t)) = true /\
    validationStage (page (system t)) = 2 /\
    map snd (ValidationProgress 2) = [complete; complete; active; waiting; waiting].
Proof.
  eexists. split; [vm_compute; reflexivity|].
  split; [vm_compute; reflexivity|].
  match goal with
  | |- isValidating (page (system ?t)) = _ /\ _ =>
      assert (Hreach : paced_reachable t)
        by (exists (map Occurs Scenario.fill_form ++ [Occurs ClickSubmit; TimerEnds; TimerEnds]);
            vm_compute; reflexivity);
      destruct (proj1 (proj2 (proj2 (proj2 (proj2 progress_has_one_active_row))))
                  t 2 Hreach) as (Hv & Hg & _); [vm_compute; reflexivity|]
  end.
  split; [exact Hv|]. split; [exact Hg|].
  refine (proj1 progress_has_one_active_row 2 _). lia.
Defined.

(** *** Badges *)

(** X13.  The status badge tells the four statuses apart by colour and is
    grey for anything else; the record a submission stores is never grey.
    The risk badge draws "critical" like "high". *)
Theorem badge_colours :
  (forall a b,
      In a ["approved"; "rejected"; "pending"; "reviewing"] ->
      In b ["approved"; "rejected"; "pending"; "reviewing"] ->
      getStatusColor (VStr a) = getStatusColor (VStr b) -> a = b) /\
  (forall status,
      getStatusColor status = "bg-gray-500" <->
      ~ In status [VStr "approved"; VStr "rejected"; VStr "pending"; VStr "reviewing"]) /\
  (forall final_recommendation,
      getStatusColor (status_of_recommendation final_recommendation) <> "bg-gray-500") /\
  getRiskColor (VStr "critical") = getRiskColor (VStr "high").
Proof.
  split; [|split; [|split]].
  - intros a b Ha Hb.
    cbn in Ha, Hb.
    destruct Ha as [<-|[<-|[<-|[<-|[]]]]]; destruct Hb as [<-|[<-|[<-|[<-|[]]]]];
      cbn; intros H; try reflexivity; discriminate.
  - intros status. unfold getStatusColor. cbn [In].
    destruct (strict_eq_str status "approved") eqn:H1;
      [apply strict_eq_str_true in H1; subst status; split;
       [discriminate|intros Hn; exfalso; apply Hn; auto 6]|].
    destruct (strict_eq_str status "rejected") eqn:H2;
      [apply strict_eq_str_true in H2; subst status; split;
       [discriminate|intros Hn; exfalso; apply Hn; auto 6]|].
    destruct (strict_eq_str status "pending") eqn:H3;
      [apply strict_eq_str_true in H3; subst status; split;
       [discriminate|intros Hn; exfalso; apply Hn; auto 6]|].
    destruct (strict_eq_str status "reviewing") eqn:H4;
      [apply strict_eq_str_true in H4; subst status; split;
       [discriminate|intros Hn; exfalso; apply Hn; auto 6]|].
    apply strict_eq_str_false in H1, H2, H3, H4.
    split; [|reflexivity]. intros _ [H|[H|[H|[H|[]]]]]; congruence.
  - intros fr. unfold status_of_recommendation.
    destruct (strict_eq_str fr "AUTO_APPROVE"); [discriminate|].
    destruct (strict_eq_str fr "MANAGER_REVIEW"); discriminate.
  - reflexivity.
Qed.

Lemma badge_colours_witness :
  getStatusColor (VStr "approved") = "bg-green-500" /\
  (getStatusColor (VStr "approved") = getStatusColor (VStr "approved") ->
   "approved" = "approved") /\
  getStatusColor (status_of_recommendation (VStr "MANAGER_REVIEW")) <> "bg-gray-500".
Proof.
  split; [reflexivity|]. split.
  - refine (proj1 badge_colours "approved" "approved" _ _); left; reflexivity.
  - exact (proj1 (proj2 (proj2 badge_colours)) (VStr "MANAGER_REVIEW")).
Defined.

(** *** Identifiers *)

Lemma expense_id_width_check :
  forallb (fun n => (String.length (expense_id n) =? 12)%nat) (seq 0 1000) = true.
Proof. vm_compute. reflexivity. Qed.

(** X14.  An identifier is "EXP-2026-" followed by digits that read back
    as the number it was built from: padding adds zeros in front and never
    cuts a digit.  Up to 999 the identifier is twelve characters long. *)
Theorem identifier_reads_back :
  forall n,
    exists digits,
      expense_id n = ("EXP-2026-" ++ digits)%string /\
      decode digits = Some n /\
      3 <= String.length digits /\
      (n < 1000 -> String.length (expense_id n) = 12).
Proof.
  intros n. exists (padStart 3 "0" (String_of_nat n)).
  split; [reflexivity|]. split; [apply decode_padStart|]. split.
  - unfold padStart. change (String.eqb "0" "") with false. rewrite orb_false_r.
    destruct (Nat.leb_spec 3 (String.length (String_of_nat n))) as [Hb|Hb]; [exact Hb|].
    destruct (String_of_nat n) as [|a [|b [|c rest]]]; cbn in *; lia.
  - intros Hn. pose proof expense_id_width_check as Hall.
    rewrite forallb_forall in Hall. apply Nat.eqb_eq, Hall, in_seq. lia.
Qed.

Lemma identifier_reads_back_witness :
  exists digits,
    expense_id 42 = ("EXP-2026-" ++ digits)%string /\
    decode digits = Some 42 /\
    3 <= String.length digits /\
    (42 < 1000 -> String.length (expense_id 42) = 12).
Proof. exact (identifier_reads_back 42). Defined.

(** *** The validation alert *)

Lemma error_or_nonempty error fallback : fallback <> "" -> error_or error fallback <> "".
Proof.
  intros Hf. destruct error as [e|]; cbn; [|exact Hf].
  destruct (String.eqb_spec e ""); assumption.
Qed.

(** X15.  A settled submission either stores one record and leaves the
    alert alone, or leaves the list alone and sets the alert to a text
    that is not empty: a failure is never shown as a blank alert, not even
    when the call reports an empty error text. *)
Theorem alert_text_never_empty :
  forall form closed call st,
    (exists newExpense,
        expenses (fst (handleSubmitExpense_resume form closed call st))
        = newExpense :: expenses st /\
        validationError (fst (handleSubmitExpense_resume form closed call st))
        = validationError st) \/
    (expenses (fst (handleSubmitExpense_resume form closed call st)) = expenses st /\
     exists message,
       validationError (fst (handleSubmitExpense_resume form closed call st))
       = Some message /\
       message <> "").
Proof.
  intros form closed call st. destruct call as [result|reason].
  - destruct (success result && truthy (response result)) eqn:Hok.
    + destruct (validationData_of (response result)) as [vd|e] eqn:Hvd.
      * destruct (newExpense_of form closed vd) as [rec|e] eqn:Hrec.
        -- left. exists rec. rewrite (submit_stored _ _ _ _ _ _ Hok Hvd Hrec).
           split; reflexivity.
        -- right. rewrite (submit_unbuilt _ _ _ _ _ _ Hok Hvd Hrec).
           split; [reflexivity|]. eexists. split; [reflexivity|discriminate].
      * right. rewrite (submit_unlocated _ _ _ _ _ Hok Hvd).
        split; [reflexivity|]. eexists. split; [reflexivity|discriminate].
    + right. rewrite (submit_refused _ _ _ _ Hok).
      split; [reflexivity|]. eexists. split; [reflexivity|].
      apply error_or_nonempty. discriminate.
  - right. rewrite submit_rejected.
    split; [reflexivity|]. eexists. split; [reflexivity|discriminate].
Qed.

(** *** When the page goes down *)

Lemma get_prop_throws v k e : get_prop v k = Throw e <-> nullish v = true /\ e = TypeError.
Proof.
  destruct v; cbn; split; try discriminate; try (intros [H _]; discriminate).
  - intros [= <-]. auto.
  - intros [_ ->]. reflexivity.
  - intros [= <-]. auto.
  - intros [_ ->]. reflexivity.
Qed.

Lemma status_updater_throws selected approvalData prev e :
  status_updater selected approvalData prev = Throw e <->
  nullish approvalData = true /\ e = TypeError /\
  In (Expense.id selected) (map Expense.id prev).
Proof.
  destruct (get_prop approvalData "expense_status") as [S|e'] eqn:HS.
  - rewrite (status_updater_read _ _ _ _ HS). split; [discriminate|].
    intros (Hn & _ & _). destruct approvalData; discriminate.
  - pose proof (proj1 (get_prop_throws _ _ _) HS) as [Hn ->].
    unfold status_updater. induction prev as [|exp prev IH]; cbn [map_throwing map In].
    + split; [discriminate|]. intros (_ & _ & []).
    + destruct (String.eqb_spec (Expense.id exp) (Expense.id selected)) as [Heq|Hne].
      * rewrite HS. cbn. split.
        -- intros [= <-]. auto.
        -- intros (_ & -> & _). reflexivity.
      * cbn. destruct (map_throwing _ prev) as [bs|e''] eqn:Hbs; cbn.
        -- split; [discriminate|]. intros (H1 & H2 & [H3|H3]); [contradiction|].
           assert (Hthrow : @Throw (list ExpenseRecord) e = Throw e) by reflexivity.
           exfalso. destruct IH as [_ IH]. specialize (IH (conj H1 (conj H2 H3))).
           discriminate.
        -- split.
           ++ intros [= <-]. destruct IH as [IH _]. destruct (IH eq_refl) as (H1 & H2 & H3).
              auto.
           ++ intros (H1 & H2 & [H3|H3]); [contradiction|].
              destruct IH as [_ IH]. rewrite (IH (conj H1 (conj H2 H3))). reflexivity.
Qed.

(** X16.  When a decision settles, the update of the list (lines
    639-643) throws exactly when the call succeeded, the payload located
    in the envelope is [null] or [undefined] (a JSON text without a
    [result], for one) and a record of the list has the selected
    identifier: the status is then read off that payload inside the
    update, which fails with a TypeError and leaves the list as it was.
    [renderError] records the errors of state updates only; what the
    markup may throw while the page is drawn is not stated here. *)
Theorem list_update_throws_on_empty_payload :
  forall selected call st,
    renderError st = None ->
    (renderError (fst (handleApprovalDecision_resume selected call st)) <> None <->
     exists result approvalData,
       call = Fulfilled result /\
       success result = true /\
       truthy (response result) = true /\
       approvalData_of (response result) = Normal approvalData /\
       nullish approvalData = true /\
       In (Expense.id selected) (map Expense.id (expenses st))) /\
    (renderError (fst (handleApprovalDecision_resume selected call st)) <> None ->
     renderError (fst (handleApprovalDecision_resume selected call st)) = Some TypeError /\
     expenses (fst (handleApprovalDecision_resume selected call st)) = expenses st).
Proof.
  intros sel call st Halive.
  assert (Hcases :
            (renderError (fst (handleApprovalDecision_resume sel call st)) = None /\
             ~ exists result approvalData,
                 call = Fulfilled result /\
                 success result = true /\
                 truthy (response result) = true /\
                 approvalData_of (response result) = Normal approvalData /\
                 nullish approvalData = true /\
                 In (Expense.id sel) (map Expense.id (expenses st))) \/
            ((exists result approvalData,
                 call = Fulfilled result /\
                 success result = true /\
                 truthy (response result) = true /\
                 approvalData_of (response result) = Normal approvalData /\
                 nullish approvalData = true /\
                 In (Expense.id sel) (map Expense.id (expenses st))) /\
             renderError (fst (handleApprovalDecision_resume sel call st)) = Some TypeError /\
             expenses (fst (handleApprovalDecision_resume sel call st)) = expenses st)).
  { destruct call as [result|reason].
    - destruct (success result && truthy (response result)) eqn:Hok.
      + destruct (approvalData_of (response result)) as [ad|e] eqn:Had.
        * destruct (status_updater sel ad (expenses st)) as [next|e] eqn:Hnext.
          -- left. rewrite (decision_applied _ _ _ _ _ Hok Had Hnext).
             split; [exact Halive|].
             intros (r & ad' & [= <-] & _ & _ & Had' & Hn & Hin).
             rewrite Had in Had'. injection Had' as <-.
             assert (Hthrow : status_updater sel ad (expenses st) = Throw TypeError).
             { apply status_updater_throws. auto. }
             congruence.
          -- right. apply status_updater_throws in Hnext as (Hn & -> & Hin).
             assert (Hnext : status_updater sel ad (expenses st) = Throw TypeError).
             { apply status_updater_throws. auto. }
             rewrite (decision_crashed _ _ _ _ _ Hok Had Hnext).
             apply andb_true_iff in Hok as [Hs Ht].
             split; [exists result, ad; auto 10|]. repeat split.
        * left. rewrite (decision_unlocated _ _ _ _ Hok Had). split; [exact Halive|].
          intros (r & ad' & [= <-] & _ & _ & Had' & _). congruence.
      + left. rewrite (decision_refused _ _ _ Hok). split; [exact Halive|].
        intros (r & ad' & [= <-] & Hs & Ht & _). rewrite Hs, Ht in Hok. discriminate.
    - left. rewrite decision_rejected. split; [exact Halive|].
      intros (r & ad' & H & _). discriminate. }
  split.
  - destruct Hcases as [[Hnone Hnot] | [Hex (Hsome & _)]].
    + split; [intros H; contradiction|intros H; contradiction].
    + split; [intros _; exact Hex|intros _; rewrite Hsome; discriminate].
  - destruct Hcases as [[Hnone _] | [_ H]]; [intros Hc; contradiction|intros _; exact H].
Qed.

Lemma list_update_throws_on_empty_payload_witness :
  renderError (page Scenario.approval_pending) = None /\
  renderError
    (fst (handleApprovalDecision_resume (Scenario.stored_record "MANAGER_REVIEW" "reviewing")
            (Fulfilled Scenario.resultless) (page Scenario.approval_pending)))
  = Some TypeError.
Proof.
  assert (Halive : renderError (page Scenario.approval_pending) = None)
    by (vm_compute; reflexivity).
  split; [exact Halive|].
  destruct (list_update_throws_on_empty_payload
              (Scenario.stored_record "MANAGER_REVIEW" "reviewing")
              (Fulfilled Scenario.resultless) (page Scenario.approval_pending) Halive)
    as (Hiff & Hthen).
  apply Hthen, Hiff. exists Scenario.resultless, VUndefined.
  repeat split; vm_compute; auto.
Defined.

(** *** The list over a whole session *)

Lemma same_but_status_refl exp : same_but_status exp exp.
Proof. repeat split. Qed.

Lemma same_but_status_trans a b c :
  same_but_status a b -> same_but_status b c -> same_but_status a c.
Proof.
  intros (H1 & H2 & H3 & H4 & H5 & H6 & H7 & H8) (G1 & G2 & G3 & G4 & G5 & G6 & G7 & G8).
  repeat split; congruence.
Qed.

Lemma Forall2_same_refl (l : list ExpenseRecord) : Forall2 same_but_status l l.
Proof. induction l; constructor; [apply same_but_status_refl|assumption]. Qed.

Lemma Forall2_same_trans (l1 : list ExpenseRecord) : forall l2 l3,
  Forall2 same_but_status l1 l2 -> Forall2 same_but_status l2 l3 ->
  Forall2 same_but_status l1 l3.
Proof.
  induction l1 as [|a l1 IH]; intros l2 l3 H12 H23.
  - inversion H12; subst. inversion H23; subst. constructor.
  - inversion H12 as [|? b ? l2' Hab H12']; subst.
    inversion H23 as [|? c ? l3' Hbc H23']; subst.
    constructor; [eapply same_but_status_trans; eassumption|eapply IH; eassumption].
Qed.

Lemma overwrite_status_same k s (l : list ExpenseRecord) :
  Forall2 same_but_status l (overwrite_status k s l).
Proof.
  unfold overwrite_status. induction l as [|a l IH]; cbn [map]; constructor; [|exact IH].
  destruct (String.eqb (Expense.id a) k); repeat split.
Qed.

Lemma dispatch_keeps_records ev s s' :
  dispatch ev s = Some s' ->
  exists added kept,
    expenses (page s') = added ++ kept /\
    length added <= 1 /\
    Forall2 same_but_status (expenses (page s)) kept.
Proof.
  assert (Hsame : forall l : list ExpenseRecord,
             exists added kept, l = added ++ kept /\ length added <= 1 /\
                                Forall2 same_but_status l kept).
  { intros l. exists [], l. split; [reflexivity|]. split; [cbn; lia|].
    apply Forall2_same_refl. }
  unfold dispatch. destruct (renderError (page s)); [discriminate|].
  destruct ev as [view|field value|option|index| |call|index|text|decision|call].
  - intros [= <-]. apply Hsame.
  - destruct (_ && _); [|discriminate]. intros [= <-]. apply Hsame.
  - destruct (_ && _); [|discriminate]. intros [= <-]. apply Hsame.
  - destruct (View_eqb _ _); [|discriminate].
    destruct (nth_error _ index); [|discriminate]. intros [= <-]. apply Hsame.
  - destruct (_ && _); [|discriminate]. intros [= <-]. apply Hsame.
  - destruct (validating s) as [[d l]|]; [|discriminate]. intros [= <-]. cbn [page].
    destruct (submit_resume_frame d l call (page s))
      as (_ & _ & _ & _ & _ & [[-> _] | (r & vd & rec & _ & _ & _ & _ & -> & _)]).
    + apply Hsame.
    + exists [rec], (expenses (page s)). split; [reflexivity|]. split; [cbn; lia|].
      apply Forall2_same_refl.
  - destruct (View_eqb _ _); [|discriminate].
    destruct (nth_error _ index); [|discriminate]. intros [= <-]. apply Hsame.
  - destruct (selectedExpense (page s)); [|discriminate].
    destruct (View_eqb _ _); [|discriminate]. intros [= <-]. apply Hsame.
  - destruct (selectedExpense (page s)); [|discriminate].
    destruct (_ && _); [|discriminate]. intros [= <-]. apply Hsame.
  - destruct (deciding s) as [sel|]; [|discriminate]. intros [= <-]. cbn [page].
    destruct call as [result|reason].
    + destruct (success result && truthy (response result)) eqn:Hok.
      * destruct (approvalData_of (response result)) as [ad|e] eqn:Had.
        -- destruct (status_updater sel ad (expenses (page s))) as [next|e] eqn:Hnext.
           ++ rewrite (decision_applied _ _ _ _ _ Hok Had Hnext).
              cbn [expenses setIsProcessingApproval setManagerRationale putExpenses].
              exists [], next. split; [reflexivity|]. split; [cbn; lia|].
              destruct (get_prop ad "expense_status") as [S|e] eqn:HS.
              ** rewrite (status_updater_read _ _ _ _ HS) in Hnext. injection Hnext as <-.
                 apply overwrite_status_same.
              ** rewrite (status_updater_unread _ _ _ _ _ HS Hnext).
                 apply Forall2_same_refl.
           ++ rewrite (decision_crashed _ _ _ _ _ Hok Had Hnext). apply Hsame.
        -- rewrite (decision_unlocated _ _ _ _ Hok Had). apply Hsame.
      * rewrite (decision_refused _ _ _ Hok). apply Hsame.
    + rewrite decision_rejected. apply Hsame.
Qed.

(** X17.  Over any sequence of events the list only grows at its head:
    the records of the earlier state are all still there, in the same
    order, behind the records added since, and each has kept its
    identifier, employee, vendor, amount, date, category, risk and report.
    Only a status ever changes; no record is removed or moved. *)
Theorem list_only_grows :
  forall evs s s',
    run evs s = Some s' ->
    exists added kept,
      expenses (page s') = added ++ kept /\
      length added <= length evs /\
      Forall2 same_but_status (expenses (page s)) kept.
Proof.
  induction evs as [|ev evs IH]; intros s s'; cbn [run].
  - intros [= <-]. exists [], (expenses (page s)).
    split; [reflexivity|]. split; [cbn; lia|]. apply Forall2_same_refl.
  - destruct (dispatch ev s) as [s1|] eqn:Hd; [|discriminate]. intros Hrun.
    apply dispatch_keeps_records in Hd as (added1 & kept1 & H1 & Hlen1 & Hk1).
    apply IH in Hrun as (added2 & kept2 & H2 & Hlen2 & Hk2).
    rewrite H1 in Hk2. apply Forall2_app_inv_l in Hk2 as (k2a & k2b & Ha & Hb & ->).
    exists (added2 ++ k2a), k2b. split; [rewrite H2, <- app_assoc; reflexivity|]. split.
    + rewrite length_app. apply Forall2_length in Ha. cbn [length]. lia.
    + eapply Forall2_same_trans; eassumption.
Qed.

Lemma list_only_grows_witness :
  exists added kept,
    expenses (page Scenario.approval_pending) = added ++ kept /\
    length added <= length Scenario.approving /\
    Forall2 same_but_status (expenses (page initialSystem)) kept.
Proof.
  apply (list_only_grows Scenario.approving initialSystem Scenario.approval_pending).
  vm_compute. reflexivity.
Defined.

(** *** What always happens at the end of a handler *)

(** X18.  However the agent's call ends, a settled submission leaves the
    page not validating, with the stage at five, and a settled decision
    leaves it not processing: neither button can stay disabled for good
    because of an answer. *)
Theorem busy_flags_are_released :
  forall st,
    (forall form closed call,
        isValidating (fst (handleSubmitExpense_resume form closed call st)) = false /\
        validationStage (fst (handleSubmitExpense_resume form closed call st)) = 5) /\
    (forall selected call,
        isProcessingApproval (fst (handleApprovalDecision_resume selected call st)) = false).
Proof.
  intros st. split.
  - intros form closed call. split.
    + apply submit_resume_frame.
    + apply submit_resume_untouched.
  - intros sel call. apply decision_resume_frame.
Qed.

(** *** Which shape wins *)

Lemma text_envelope_truthy envelope text :
  get_prop envelope "response" = Normal (VStr text) -> truthy envelope = true.
Proof. destruct envelope; cbn; try discriminate. reflexivity. Qed.

(** X19.  When the envelope's [response] is a text, only the text counts.
    If the text is no JSON the attempt fails, even if the envelope's
    [result] holds a complete payload: the submission shows "Network error
    occurred" and stores nothing, the decision logs the error and changes
    nothing.  If the text is JSON the payload is the [result] inside the
    text, whatever the envelope's own [result] is. *)
Theorem text_shape_takes_precedence :
  forall result text,
    success result = true ->
    get_prop (response result) "response" = Normal (VStr text) ->
    (forall e form closed selected st,
        JSON.parse text = Throw e ->
        expenses (fst (handleSubmitExpense_resume form closed (Fulfilled result) st))
        = expenses st /\
        validationError (fst (handleSubmitExpense_resume form closed (Fulfilled result) st))
        = Some "Network error occurred" /\
        untouched st (fst (handleApprovalDecision_resume selected (Fulfilled result) st)) /\
        console (fst (handleApprovalDecision_resume selected (Fulfilled result) st))
        = console st ++ [e]) /\
    (forall parsed,
        JSON.parse text = Normal parsed ->
        validationData_of (response result) = get_prop parsed "result" /\
        approvalData_of (response result) = get_prop parsed "result").
Proof.
  intros r text Hs Hr.
  pose proof (guard_true r Hs (text_envelope_truthy _ _ Hr)) as Hok.
  split.
  - intros e form closed sel st Hparse.
    assert (Hv : validationData_of (response r) = Throw e).
    { unfold validationData_of, bindC. rewrite Hr, Hparse. reflexivity. }
    assert (Ha : approvalData_of (response r) = Throw e).
    { unfold approvalData_of, bindC. rewrite Hr, Hparse. reflexivity. }
    rewrite (submit_unlocated _ _ _ _ _ Hok Hv), (decision_unlocated _ _ _ _ Hok Ha).
    repeat split.
  - intros parsed Hparse. unfold validationData_of, approvalData_of, bindC.
    rewrite Hr, Hparse. split; reflexivity.
Qed.

Lemma text_shape_takes_precedence_witness :
  get_prop Scenario.garbled "result" = Normal (Scenario.verdict "AUTO_APPROVE") /\
  expenses (fst (handleSubmitExpense_resume Sample.form []
                   (Fulfilled {| success := true; response := Scenario.garbled;
                                 error := None |}) initialState))
  = expenses initialState /\
  validationError (fst (handleSubmitExpense_resume Sample.form []
                          (Fulfilled {| success := true; response := Scenario.garbled;
                                        error := None |}) initialState))
  = Some "Network error occurred".
Proof.
  split; [reflexivity|].
  destruct (proj1 (text_shape_takes_precedence
                     {| success := true; response := Scenario.garbled; error := None |}
                     "Sorry, I could not process that." eq_refl eq_refl)
              SyntaxError Sample.form [] Sample.record initialState)
    as (H1 & H2 & _).
  - vm_compute. reflexivity.
  - split; [exact H1|exact H2].
Defined.

(** C9 as stated fails.  With payloads that have every declared field: a
    record is stored as "approved", its row is clicked in the table of the
    employee panel, the manager panel offers both decision buttons for it,
    and the approval agent's answer turns it into "rejected". *)
Example approved_then_rejected_with_full_payloads :
  option_map (fun s => map Expense.status (expenses (page s)))
    (run (Scenario.fill_form
          ++ [ClickSubmit;
              CoordinatorSettles (Fulfilled (Scenario.coordinator "AUTO_APPROVE"))])
       initialSystem)
  = Some [VStr "approved"] /\
  option_map (fun s => map Expense.status (expenses (page s)))
    (run (Scenario.fill_form
          ++ [ClickSubmit;
              CoordinatorSettles (Fulfilled (Scenario.coordinator "AUTO_APPROVE"));
              ClickRow 0; Navigate manager; TypeRationale "duplicate";
              ClickDecision reject;
              ApprovalSettles (Fulfilled (Scenario.approval "rejected"))])
       initialSystem)
  = Some [VStr "rejected"].
Proof. split; vm_compute; reflexivity. Qed.
